(** * cluster-ingress-operator: the ensure-style convergence functions

    A shallow embedding of

      - pkg/operator/controller/ingress/trustedca_configmap.go
      - pkg/operator/controller/gatewayclass/subscription.go
      - pkg/operator/operator.go

    The Kubernetes client is an interface of an external library: it is a
    record of state-passing functions over an arbitrary store type, so a
    statement quantified over the client holds for every behaviour of the
    API server, races and transport failures included.  Every function of
    the operator runs in a monad that threads the store and the
    process-wide log level, records each client call with its outcome, and
    can panic (a nil dereference). *)

From Stdlib Require Import ZArith String List Lia.
From stdpp Require Import base option gmap strings list fin_maps.
Import ListNotations.

Local Open Scope string_scope.
Local Open Scope Z_scope.

(** ** Go errors *)

(** k8s.io/apimachinery/pkg/api/errors, together with the two shapes of
    error that fmt.Errorf builds. *)
Module errors.

Inductive StatusReason :=
| StatusReasonUnknown
| StatusReasonNotFound
| StatusReasonAlreadyExists
| StatusReasonConflict
| StatusReasonServerTimeout
| StatusReasonInternalError.

(** [StatusError] is what the API server answers; [errorString] is an error
    that is only a message (errors.New, fmt.Errorf without the w verb, a
    transport failure); [wrapError] is fmt.Errorf with the w verb: a message
    and the error it wraps. *)
Inductive error :=
| StatusError (reason : StatusReason) (message : string)
| errorString (s : string)
| wrapError (msg : string) (err : error).

(** The Error() method. *)
Definition Error (e : error) : string :=
  match e with
  | StatusError _ m => m
  | errorString s => s
  | wrapError m _ => m
  end.

(** errors.Unwrap. *)
Definition Unwrap (e : error) : option error :=
  match e with
  | wrapError _ inner => Some inner
  | _ => None
  end.

(** ReasonForError looks through wrappers (errors.As). *)
Fixpoint ReasonForError (e : error) : StatusReason :=
  match e with
  | StatusError r _ => r
  | errorString _ => StatusReasonUnknown
  | wrapError _ inner => ReasonForError inner
  end.

Definition IsNotFound (e : error) : bool :=
  match ReasonForError e with StatusReasonNotFound => true | _ => false end.

Definition IsAlreadyExists (e : error) : bool :=
  match ReasonForError e with StatusReasonAlreadyExists => true | _ => false end.

Definition IsConflict (e : error) : bool :=
  match ReasonForError e with StatusReasonConflict => true | _ => false end.

End errors.
Export errors.

Module fmt.

(** fmt.Errorf(prefix + "%v", err): the message of [err] is formatted into a
    new error; the original value is gone. *)
Definition Errorf_v (prefix : string) (err : error) : error :=
  errorString (prefix +:+ Error err).

(** fmt.Errorf(prefix + "%w", err): same message, and [err] stays reachable
    through Unwrap. *)
Definition Errorf_w (prefix : string) (err : error) : error :=
  wrapError (prefix +:+ Error err) err.

(** The q verb on a string without characters to escape. *)
Definition quoted (s : string) : string :=
  String (Ascii.ascii_of_nat 34) (s +:+ String (Ascii.ascii_of_nat 34) EmptyString).

End fmt.

(** ** Kubernetes objects *)

Module types.

Record NamespacedName := { Namespace : string; Name : string }.

(** NamespacedName.String() *)
Definition NamespacedName_String (n : NamespacedName) : string :=
  Namespace n +:+ "/" +:+ Name n.

End types.

Module metav1.

(** A Go map that may be nil. *)
Abbreviation stringMap := (option (gmap string string)).

(** m[k] on a map that may be nil: the zero value when the key is absent. *)
Definition index (m : stringMap) (k : string) : string :=
  match m with
  | Some g => default "" (g !! k)
  | None => ""
  end.

(** The entry of [k], if any. *)
Definition entry (m : stringMap) (k : string) : option string :=
  match m with
  | Some g => g !! k
  | None => None
  end.

Record ObjectMeta := {
  Name : string;
  Namespace : string;
  UID : string;
  ResourceVersion : string;
  Generation : Z;
  Labels : stringMap;
  Annotations : stringMap;
  Finalizers : list string
}.

Definition with_Labels (l : stringMap) (m : ObjectMeta) : ObjectMeta :=
  {| Name := Name m; Namespace := Namespace m; UID := UID m;
     ResourceVersion := ResourceVersion m; Generation := Generation m;
     Labels := l; Annotations := Annotations m; Finalizers := Finalizers m |}.

Definition with_ResourceVersion (rv : string) (m : ObjectMeta) : ObjectMeta :=
  {| Name := Name m; Namespace := Namespace m; UID := UID m;
     ResourceVersion := rv; Generation := Generation m;
     Labels := Labels m; Annotations := Annotations m; Finalizers := Finalizers m |}.

(** ObjectMeta{Name: .., Namespace: ..} with every other field zero. *)
Definition named (ns name : string) : ObjectMeta :=
  {| Name := name; Namespace := ns; UID := ""; ResourceVersion := "";
     Generation := 0; Labels := None; Annotations := None; Finalizers := [] |}.

Definition key (m : ObjectMeta) : types.NamespacedName :=
  {| types.Namespace := Namespace m; types.Name := Name m |}.

End metav1.

Module corev1.

Record ConfigMap := {
  ObjectMeta : metav1.ObjectMeta;
  Immutable : option bool;
  Data : metav1.stringMap;
  BinaryData : metav1.stringMap
}.

Record Node := { Node_ObjectMeta : metav1.ObjectMeta }.

Record NodeList := { Items : list Node }.

End corev1.

Module operatorsv1alpha1.

Definition ApprovalAutomatic : string := "Automatic".
Definition ApprovalManual : string := "Manual".

Record EnvVar := { EnvVar_Name : string; EnvVar_Value : string }.

(** Of SubscriptionConfig the two fields that show how cmp.Equal treats a
    map and a slice; the source reads and writes none of its fields. *)
Record SubscriptionConfig := {
  NodeSelector : metav1.stringMap;
  Env : option (list EnvVar)
}.

Record SubscriptionSpec := {
  CatalogSource : string;
  CatalogSourceNamespace : string;
  Package : string;
  Channel : string;
  StartingCSV : string;
  InstallPlanApproval : string;
  Config : option SubscriptionConfig
}.

Record SubscriptionStatus := {
  CurrentCSV : string;
  InstalledCSV : string;
  State : string
}.

Record Subscription := {
  ObjectMeta : metav1.ObjectMeta;
  Spec : option SubscriptionSpec;
  Status : SubscriptionStatus
}.

End operatorsv1alpha1.

Module configv1.

(** Modelled from the spec: the constants of github.com/openshift/api that
    the source names; their declarations are outside the repository.  The
    spec names the values: topology SingleReplica, platform None, log
    levels Normal, Debug, Trace and TraceAll, and the two placements. *)
Definition SingleReplicaTopologyMode : string := "SingleReplica".
Definition ExternalTopologyMode : string := "External".
Definition NonePlatformType : string := "None".
Definition AWSPlatformType : string := "AWS".
Definition NLB : string := "NLB".
Definition DefaultPlacementWorkers : string := "Workers".
Definition DefaultPlacementControlPlane : string := "ControlPlane".
Definition IngressOperatorLogLevelNormal : string := "Normal".
Definition IngressOperatorLogLevelDebug : string := "Debug".
Definition IngressOperatorLogLevelTrace : string := "Trace".
Definition IngressOperatorLogLevelTraceAll : string := "TraceAll".

Record PlatformStatus := { Type_ : string }.

Record InfrastructureStatus := {
  ControlPlaneTopology : string;
  InfrastructureTopology : string;
  PlatformStatus_ : option PlatformStatus
}.

Record Infrastructure := {
  Infrastructure_ObjectMeta : metav1.ObjectMeta;
  Infrastructure_Status : InfrastructureStatus
}.

Record AWSIngressSpec := { AWS_Type : string }.

Record IngressPlatformSpec := {
  Platform_Type : string;
  AWS : option AWSIngressSpec
}.

Record LoadBalancer := { Platform : IngressPlatformSpec }.

Record IngressSpec := {
  OperatorLogLevel : string;
  LoadBalancer_ : LoadBalancer
}.

Record IngressStatus := { DefaultPlacement : string }.

Record Ingress := {
  ObjectMeta : metav1.ObjectMeta;
  Spec : IngressSpec;
  Status : IngressStatus
}.

End configv1.

Module operatorv1.

Definition LoadBalancerServiceStrategyType : string := "LoadBalancerService".
Definition AWSLoadBalancerProvider : string := "AWS".
Definition AWSNetworkLoadBalancer : string := "NLB".

Record AWSLoadBalancerParameters := { AWS_Type : string }.

Record ProviderLoadBalancerParameters := {
  Provider_Type : string;
  AWS : option AWSLoadBalancerParameters
}.

Record LoadBalancerStrategy := {
  Scope : string;
  ProviderParameters : option ProviderLoadBalancerParameters
}.

Record EndpointPublishingStrategy := {
  Strategy_Type : string;
  LoadBalancer : option LoadBalancerStrategy
}.

Record IngressControllerSpec := {
  Replicas : option Z;
  EndpointPublishingStrategy_ : option EndpointPublishingStrategy
}.

Record IngressController := {
  ObjectMeta : metav1.ObjectMeta;
  Spec : IngressControllerSpec
}.

End operatorv1.

(** zap's levels are small integers. *)
Module zap.
Definition DebugLevel : Z := -1.
Definition InfoLevel : Z := 0.
End zap.

(** ** The client *)

(** sigs.k8s.io/controller-runtime/pkg/client: the kinds of object the three
    files read and write, and the client as state-passing functions over a
    store [S].  Every call may also change the store, so a client can stand
    for a server that other actors write to between two calls. *)
Module client.

Inductive Kind :=
| KConfigMap
| KSubscription
| KIngressController
| KInfrastructure
| KIngress.

Definition obj (k : Kind) : Type :=
  match k with
  | KConfigMap => corev1.ConfigMap
  | KSubscription => operatorsv1alpha1.Subscription
  | KIngressController => operatorv1.IngressController
  | KInfrastructure => configv1.Infrastructure
  | KIngress => configv1.Ingress
  end.

(** The ObjectMeta every client.Object carries. *)
Definition meta {k : Kind} : obj k -> metav1.ObjectMeta :=
  match k with
  | KConfigMap => corev1.ObjectMeta
  | KSubscription => operatorsv1alpha1.ObjectMeta
  | KIngressController => operatorv1.ObjectMeta
  | KInfrastructure => configv1.Infrastructure_ObjectMeta
  | KIngress => configv1.ObjectMeta
  end.

Record Client (S : Type) := {
  Get : forall k, types.NamespacedName -> S -> (obj k + error) * S;
  ListNodes : S -> (corev1.NodeList + error) * S;
  Create : forall k, obj k -> S -> option error * S;
  Update : forall k, obj k -> S -> option error * S;
  Delete : forall k, obj k -> S -> option error * S;
  (** Status().Patch(obj, client.MergeFrom(base)) *)
  StatusPatch : forall k, obj k -> obj k -> S -> option error * S
}.

Arguments Get {S}.
Arguments ListNodes {S}.
Arguments Create {S}.
Arguments Update {S}.
Arguments Delete {S}.
Arguments StatusPatch {S}.

End client.
Export client.

(** ** Traces *)

(** What a call of the operator does to the outside: the client calls with
    the error each one returned, the writes of the process-wide log level,
    and the log records. *)
Inductive Event :=
| EGet (k : Kind) (name : types.NamespacedName) (err : option error)
| EList (err : option error)
| ECreate (k : Kind) (o : obj k) (err : option error)
| EUpdate (k : Kind) (o : obj k) (err : option error)
| EDelete (k : Kind) (o : obj k) (err : option error)
| EStatusPatch (k : Kind) (o base : obj k) (err : option error)
| ESetLevel (level : Z)
| ELog (msg : string).

Inductive Verb := VGet | VList | VCreate | VUpdate | VDelete | VStatusPatch | VSetLevel | VLog.

Definition verb (e : Event) : Verb :=
  match e with
  | EGet _ _ _ => VGet
  | EList _ => VList
  | ECreate _ _ _ => VCreate
  | EUpdate _ _ _ => VUpdate
  | EDelete _ _ _ => VDelete
  | EStatusPatch _ _ _ _ => VStatusPatch
  | ESetLevel _ => VSetLevel
  | ELog _ => VLog
  end.

(** A call that changes the store. *)
Definition is_write (e : Event) : bool :=
  match verb e with
  | VCreate | VUpdate | VDelete | VStatusPatch => true
  | _ => false
  end.

(** A call to the store, read or write. *)
Definition is_store_call (e : Event) : bool :=
  match verb e with
  | VSetLevel | VLog => false
  | _ => true
  end.

(** The error a client call returned. *)
Definition failed (e : Event) : option error :=
  match e with
  | EGet _ _ err | EList err | ECreate _ _ err | EUpdate _ _ err
  | EDelete _ _ err | EStatusPatch _ _ _ err => err
  | ESetLevel _ | ELog _ => None
  end.

(** ** The monad of the operator's functions *)

Record State (S : Type) := {
  store : S;
  (** logf.CurrentLogLevel, a zap.AtomicLevel *)
  CurrentLogLevel : Z
}.

Arguments store {S}.
Arguments CurrentLogLevel {S}.

(** [value] is [None] when the call panicked. *)
Record Result (S A : Type) := {
  value : option A;
  final : State S;
  events : list Event
}.

Arguments value {S A}.
Arguments final {S A}.
Arguments events {S A}.

Definition M (S A : Type) : Type := State S -> Result S A.

Definition ret {S A} (a : A) : M S A :=
  fun st => {| value := Some a; final := st; events := [] |}.

Definition panic {S A} : M S A :=
  fun st => {| value := None; final := st; events := [] |}.

Definition bind {S A B} (m : M S A) (f : A -> M S B) : M S B :=
  fun st =>
    match m st with
    | {| value := None; final := st1; events := evs |} =>
        {| value := None; final := st1; events := evs |}
    | {| value := Some a; final := st1; events := evs |} =>
        match f a st1 with
        | {| value := v; final := st2; events := evs' |} =>
            {| value := v; final := st2; events := evs ++ evs' |}
        end
    end.

Declare Scope go_scope.
Delimit Scope go_scope with go.
Notation "x <- c1 ;; c2" := (bind c1 (fun x => c2))
  (at level 100, c1 at next level, right associativity) : go_scope.
Notation "c1 ;; c2" := (bind c1 (fun _ => c2))
  (at level 100, right associativity) : go_scope.
Local Open Scope go_scope.

(** Dereferencing a pointer: a nil pointer panics. *)
Definition deref {S A} (p : option A) : M S A :=
  match p with
  | Some a => ret a
  | None => panic
  end.

Definition emit {S} (e : Event) : M S unit :=
  fun st => {| value := Some tt; final := st; events := [e] |}.

Definition log_Info {S} (msg : string) : M S unit := emit (ELog msg).
Definition log_Error {S} (msg : string) : M S unit := emit (ELog msg).

Definition with_store {S} (s : S) (st : State S) : State S :=
  {| store := s; CurrentLogLevel := CurrentLogLevel st |}.

Definition err_of {A} (r : A + error) : option error :=
  match r with
  | inl _ => None
  | inr e => Some e
  end.

Section ClientCalls.
Context {S : Type} (c : Client S).

Definition client_Get (k : Kind) (name : types.NamespacedName) : M S (obj k + error) :=
  fun st =>
    let '(r, s) := Get c k name (store st) in
    {| value := Some r; final := with_store s st; events := [EGet k name (err_of r)] |}.

Definition client_List : M S (corev1.NodeList + error) :=
  fun st =>
    let '(r, s) := ListNodes c (store st) in
    {| value := Some r; final := with_store s st; events := [EList (err_of r)] |}.

Definition client_Create (k : Kind) (o : obj k) : M S (option error) :=
  fun st =>
    let '(r, s) := Create c k o (store st) in
    {| value := Some r; final := with_store s st; events := [ECreate k o r] |}.

Definition client_Update (k : Kind) (o : obj k) : M S (option error) :=
  fun st =>
    let '(r, s) := Update c k o (store st) in
    {| value := Some r; final := with_store s st; events := [EUpdate k o r] |}.

Definition client_Delete (k : Kind) (o : obj k) : M S (option error) :=
  fun st =>
    let '(r, s) := Delete c k o (store st) in
    {| value := Some r; final := with_store s st; events := [EDelete k o r] |}.

Definition client_StatusPatch (k : Kind) (o base : obj k) : M S (option error) :=
  fun st =>
    let '(r, s) := StatusPatch c k o base (store st) in
    {| value := Some r; final := with_store s st; events := [EStatusPatch k o base r] |}.

End ClientCalls.

(** logf.CurrentLogLevel.Level() and SetLevel *)
Definition CurrentLogLevel_Level {S} : M S Z :=
  fun st => {| value := Some (CurrentLogLevel st); final := st; events := [] |}.

Definition CurrentLogLevel_SetLevel {S} (l : Z) : M S unit :=
  fun st => {| value := Some tt;
               final := {| store := store st; CurrentLogLevel := l |};
               events := [ESetLevel l] |}.

(** ** Library functions the source calls *)

(** github.com/google/go-cmp: cmp.Equal(x, y, cmpopts.EquateEmpty()) at the
    types a subscription's spec is made of.  Strings compare by value; two
    pointers are equal when both are nil or both point to equal values; two
    maps or slices are equal when both are empty (nil or of length zero, by
    EquateEmpty), or both are non-nil with equal entries. *)
Module cmp.

#[global] Instance EnvVar_eq_dec : EqDecision operatorsv1alpha1.EnvVar.
Proof. solve_decision. Defined.

Definition emptyMap (m : metav1.stringMap) : bool :=
  match m with
  | None => true
  | Some g => bool_decide (g = ∅)
  end.

Definition EqualMap (x y : metav1.stringMap) : bool :=
  if emptyMap x && emptyMap y then true
  else match x, y with
       | Some a, Some b => bool_decide (a = b)
       | _, _ => false
       end.

Definition emptySlice {A} (l : option (list A)) : bool :=
  match l with
  | None | Some [] => true
  | Some (_ :: _) => false
  end.

Definition EqualSlice {A} `{EqDecision A} (x y : option (list A)) : bool :=
  if emptySlice x && emptySlice y then true
  else match x, y with
       | Some a, Some b => bool_decide (a = b)
       | _, _ => false
       end.

Definition EqualConfig (x y : option operatorsv1alpha1.SubscriptionConfig) : bool :=
  match x, y with
  | None, None => true
  | Some a, Some b =>
      EqualMap (operatorsv1alpha1.NodeSelector a) (operatorsv1alpha1.NodeSelector b)
      && EqualSlice (operatorsv1alpha1.Env a) (operatorsv1alpha1.Env b)
  | _, _ => false
  end.

Definition EqualSpec (x y : option operatorsv1alpha1.SubscriptionSpec) : bool :=
  match x, y with
  | None, None => true
  | Some a, Some b =>
      String.eqb (operatorsv1alpha1.CatalogSource a) (operatorsv1alpha1.CatalogSource b)
      && String.eqb (operatorsv1alpha1.CatalogSourceNamespace a)
                    (operatorsv1alpha1.CatalogSourceNamespace b)
      && String.eqb (operatorsv1alpha1.Package a) (operatorsv1alpha1.Package b)
      && String.eqb (operatorsv1alpha1.Channel a) (operatorsv1alpha1.Channel b)
      && String.eqb (operatorsv1alpha1.StartingCSV a) (operatorsv1alpha1.StartingCSV b)
      && String.eqb (operatorsv1alpha1.InstallPlanApproval a)
                    (operatorsv1alpha1.InstallPlanApproval b)
      && EqualConfig (operatorsv1alpha1.Config a) (operatorsv1alpha1.Config b)
  | _, _ => false
  end.

End cmp.

(** k8s.io/client-go/util/retry.  OnError runs [fn] until it returns nil or
    an error that is not retriable, at most [steps] times (the sleeps between
    attempts are not modelled); when the attempts run out it returns the
    last retriable error. *)
Module retry.

Definition DefaultBackoff_Steps : nat := 4.

Fixpoint OnError {S} (steps : nat) (retriable : error -> bool)
    (fn : M S (option error)) (lastErr : option error) : M S (option error) :=
  match steps with
  | O => ret lastErr
  | Datatypes.S n =>
      err <- fn ;;
      match err with
      | None => ret None
      | Some e => if retriable e then OnError n retriable fn (Some e) else ret (Some e)
      end
  end.

Definition RetryOnConflict {S} (steps : nat) (fn : M S (option error)) : M S (option error) :=
  OnError steps IsConflict fn None.

End retry.

(** ** Two concrete clients *)

(** An API server in memory: each kind is a list of objects, an object is
    found by the name in its own metadata, a create of a name that exists
    answers AlreadyExists, an update or delete of a name that does not
    exist answers NotFound, an update bearing a stale resourceVersion
    answers Conflict, and every successful write stamps a new
    resourceVersion. *)
Module memstore.

#[global] Instance NamespacedName_eq_dec : EqDecision types.NamespacedName.
Proof. solve_decision. Defined.

Record Store := {
  configmaps : list corev1.ConfigMap;
  subscriptions : list operatorsv1alpha1.Subscription;
  ingresscontrollers : list operatorv1.IngressController;
  infrastructures : list configv1.Infrastructure;
  ingresses : list configv1.Ingress;
  nodes : list corev1.Node
}.

Definition empty : Store :=
  {| configmaps := []; subscriptions := []; ingresscontrollers := [];
     infrastructures := []; ingresses := []; nodes := [] |}.

Definition objects (k : Kind) : Store -> list (obj k) :=
  match k with
  | KConfigMap => configmaps
  | KSubscription => subscriptions
  | KIngressController => ingresscontrollers
  | KInfrastructure => infrastructures
  | KIngress => ingresses
  end.

Definition with_objects (k : Kind) : list (obj k) -> Store -> Store :=
  match k with
  | KConfigMap => fun l s =>
      {| configmaps := l; subscriptions := subscriptions s;
         ingresscontrollers := ingresscontrollers s; infrastructures := infrastructures s;
         ingresses := ingresses s; nodes := nodes s |}
  | KSubscription => fun l s =>
      {| configmaps := configmaps s; subscriptions := l;
         ingresscontrollers := ingresscontrollers s; infrastructures := infrastructures s;
         ingresses := ingresses s; nodes := nodes s |}
  | KIngressController => fun l s =>
      {| configmaps := configmaps s; subscriptions := subscriptions s;
         ingresscontrollers := l; infrastructures := infrastructures s;
         ingresses := ingresses s; nodes := nodes s |}
  | KInfrastructure => fun l s =>
      {| configmaps := configmaps s; subscriptions := subscriptions s;
         ingresscontrollers := ingresscontrollers s; infrastructures := l;
         ingresses := ingresses s; nodes := nodes s |}
  | KIngress => fun l s =>
      {| configmaps := configmaps s; subscriptions := subscriptions s;
         ingresscontrollers := ingresscontrollers s; infrastructures := infrastructures s;
         ingresses := l; nodes := nodes s |}
  end.

Definition with_meta {k : Kind} (m : metav1.ObjectMeta) : obj k -> obj k :=
  match k with
  | KConfigMap => fun o =>
      {| corev1.ObjectMeta := m; corev1.Immutable := corev1.Immutable o;
         corev1.Data := corev1.Data o; corev1.BinaryData := corev1.BinaryData o |}
  | KSubscription => fun o =>
      {| operatorsv1alpha1.ObjectMeta := m; operatorsv1alpha1.Spec := operatorsv1alpha1.Spec o;
         operatorsv1alpha1.Status := operatorsv1alpha1.Status o |}
  | KIngressController => fun o =>
      {| operatorv1.ObjectMeta := m; operatorv1.Spec := operatorv1.Spec o |}
  | KInfrastructure => fun o =>
      {| configv1.Infrastructure_ObjectMeta := m;
         configv1.Infrastructure_Status := configv1.Infrastructure_Status o |}
  | KIngress => fun o =>
      {| configv1.ObjectMeta := m; configv1.Spec := configv1.Spec o;
         configv1.Status := configv1.Status o |}
  end.

(** The stored object after a merge patch of its status subresource: the
    status fields in which [o] differs from [base] are taken from [o]. *)
Definition patch_status {k : Kind} : obj k -> obj k -> obj k -> obj k :=
  match k with
  | KIngress => fun o base cur =>
      if String.eqb (configv1.DefaultPlacement (configv1.Status o))
                    (configv1.DefaultPlacement (configv1.Status base))
      then cur
      else {| configv1.ObjectMeta := configv1.ObjectMeta cur;
              configv1.Spec := configv1.Spec cur;
              configv1.Status := configv1.Status o |}
  | _ => fun _ _ cur => cur
  end.

Definition named {k : Kind} (n : types.NamespacedName) (o : obj k) : bool :=
  bool_decide (metav1.key (meta o) = n).

Definition lookup {k : Kind} (n : types.NamespacedName) (l : list (obj k)) : option (obj k) :=
  List.find (named n) l.

Definition replace {k : Kind} (n : types.NamespacedName) (o : obj k) (l : list (obj k))
    : list (obj k) :=
  List.map (fun x => if named n x then o else x) l.

Definition remove {k : Kind} (n : types.NamespacedName) (l : list (obj k)) : list (obj k) :=
  List.filter (fun x => negb (named n x)) l.

Definition stamp {k : Kind} (rv : string) (o : obj k) : obj k :=
  with_meta (metav1.with_ResourceVersion rv (meta o)) o.

Definition NewNotFound (n : types.NamespacedName) : error :=
  StatusError StatusReasonNotFound (types.Name n +:+ " not found").

Definition NewAlreadyExists (n : types.NamespacedName) : error :=
  StatusError StatusReasonAlreadyExists (types.Name n +:+ " already exists").

Definition NewConflict (n : types.NamespacedName) : error :=
  StatusError StatusReasonConflict
    ("Operation cannot be fulfilled on " +:+ types.Name n
     +:+ ": the object has been modified").

Definition get (k : Kind) (n : types.NamespacedName) (s : Store) : (obj k + error) * Store :=
  match lookup n (objects k s) with
  | Some o => (inl o, s)
  | None => (inr (NewNotFound n), s)
  end.

Definition create (k : Kind) (o : obj k) (s : Store) : option error * Store :=
  let n := metav1.key (meta o) in
  match lookup n (objects k s) with
  | Some _ => (Some (NewAlreadyExists n), s)
  | None => (None, with_objects k (stamp "1" o :: objects k s) s)
  end.

Definition update (k : Kind) (o : obj k) (s : Store) : option error * Store :=
  let n := metav1.key (meta o) in
  match lookup n (objects k s) with
  | None => (Some (NewNotFound n), s)
  | Some cur =>
      let rv := metav1.ResourceVersion (meta o) in
      if String.eqb rv "" || String.eqb rv (metav1.ResourceVersion (meta cur))
      then (None, with_objects k
                    (replace n (stamp (metav1.ResourceVersion (meta cur) +:+ "+") o)
                             (objects k s)) s)
      else (Some (NewConflict n), s)
  end.

Definition delete (k : Kind) (o : obj k) (s : Store) : option error * Store :=
  let n := metav1.key (meta o) in
  match lookup n (objects k s) with
  | None => (Some (NewNotFound n), s)
  | Some _ => (None, with_objects k (remove n (objects k s)) s)
  end.

Definition statusPatch (k : Kind) (o base : obj k) (s : Store) : option error * Store :=
  let n := metav1.key (meta o) in
  match lookup n (objects k s) with
  | None => (Some (NewNotFound n), s)
  | Some cur =>
      (None, with_objects k
               (replace n (stamp (metav1.ResourceVersion (meta cur) +:+ "+")
                                 (patch_status o base cur))
                        (objects k s)) s)
  end.

Definition listNodes (s : Store) : (corev1.NodeList + error) * Store :=
  (inl {| corev1.Items := nodes s |}, s).

Definition Client : client.Client Store :=
  {| Get := get; ListNodes := listNodes; Create := create; Update := update;
     Delete := delete; StatusPatch := statusPatch |}.

End memstore.

(** A client under a script: one step is consumed by each call.  [Fault e]
    makes the call fail with [e] without reaching the store; [Interfere f]
    lets the call through and then lets another actor change the store by
    [f] before the next call. *)
Module scripted.

Inductive Step (S : Type) :=
| Pass
| Fault (e : error)
| Interfere (f : S -> S).

Arguments Pass {S}.
Arguments Fault {S}.
Arguments Interfere {S}.

Definition step {S A} (call : S -> A * S) (onFault : error -> A)
    (st : S * list (Step S)) : A * (S * list (Step S)) :=
  let '(s, script) := st in
  match script with
  | [] => let '(a, s') := call s in (a, (s', []))
  | Pass :: rest => let '(a, s') := call s in (a, (s', rest))
  | Fault e :: rest => (onFault e, (s, rest))
  | Interfere f :: rest => let '(a, s') := call s in (a, (f s', rest))
  end.

Definition Client {S} (c : client.Client S) : client.Client (S * list (Step S)) :=
  {| Get := fun k n => step (Get c k n) inr;
     ListNodes := step (ListNodes c) inr;
     Create := fun k o => step (Create c k o) Some;
     Update := fun k o => step (Update c k o) Some;
     Delete := fun k o => step (Delete c k o) Some;
     StatusPatch := fun k o base => step (StatusPatch c k o base) Some |}.

End scripted.

(** ** The operator *)

(** The reconciler of the ingress and of the gatewayclass controller: of its
    fields the functions below use the client only. *)
Record reconciler (S : Type) := { r_client : Client S }.
Arguments r_client {S}.

Record Operator (S : Type) := { o_client : Client S; namespace : string }.
Arguments o_client {S}.
Arguments namespace {S}.

Definition injectTrustedCABundle : string := "config.openshift.io/inject-trusted-cabundle".

Definition serviceMeshOperatorDesiredVersion : string := "servicemeshoperator.v2.5.0".
Definition serviceMeshOperatorNamespace : string := "openshift-operators".

(** go's a[k] = v on a map that is not nil *)
Definition set_label (k v : string) (m : metav1.ObjectMeta) : metav1.ObjectMeta :=
  metav1.with_Labels (Some (<[k := v]> (default ∅ (metav1.Labels m)))) m.

Definition ConfigMap_with_meta (m : metav1.ObjectMeta) (cm : corev1.ConfigMap) : corev1.ConfigMap :=
  {| corev1.ObjectMeta := m; corev1.Immutable := corev1.Immutable cm;
     corev1.Data := corev1.Data cm; corev1.BinaryData := corev1.BinaryData cm |}.

Definition Subscription_with_Spec (sp : option operatorsv1alpha1.SubscriptionSpec)
    (s : operatorsv1alpha1.Subscription) : operatorsv1alpha1.Subscription :=
  {| operatorsv1alpha1.ObjectMeta := operatorsv1alpha1.ObjectMeta s;
     operatorsv1alpha1.Spec := sp;
     operatorsv1alpha1.Status := operatorsv1alpha1.Status s |}.

Definition Ingress_with_DefaultPlacement (p : string) (i : configv1.Ingress) : configv1.Ingress :=
  {| configv1.ObjectMeta := configv1.ObjectMeta i;
     configv1.Spec := configv1.Spec i;
     configv1.Status := {| configv1.DefaultPlacement := p |} |}.

(** DeepCopy: values are immutable here, so the copy is the value. *)
Definition DeepCopy {A} (a : A) : A := a.

(** ** Install plans *)

(** The InstallPlan of operatorsv1alpha1 (the Go package of Subscription),
    and the two client calls subscription.go makes at that kind: a List in
    a namespace and an Update.  Update answers with the object as the
    client leaves it in the caller's variable. *)
Module installplan.

Record InstallPlanSpec := {
  CatalogSource : string;
  CatalogSourceNamespace : string;
  ClusterServiceVersionNames : list string;
  Approval : string;
  Approved : bool;
  Generation : Z
}.

Record InstallPlanStatus := { Phase : string }.

Record InstallPlan := {
  ObjectMeta : metav1.ObjectMeta;
  Spec : InstallPlanSpec;
  Status : InstallPlanStatus
}.

Record InstallPlanList := { Items : list InstallPlan }.

Definition with_Approved (b : bool) (p : InstallPlan) : InstallPlan :=
  {| ObjectMeta := ObjectMeta p;
     Spec := {| CatalogSource := CatalogSource (Spec p);
                CatalogSourceNamespace := CatalogSourceNamespace (Spec p);
                ClusterServiceVersionNames := ClusterServiceVersionNames (Spec p);
                Approval := Approval (Spec p);
                Approved := b;
                Generation := Generation (Spec p) |};
     Status := Status p |}.

Record Client (S : Type) := {
  List : string -> S -> (InstallPlanList + error) * S;
  Update : InstallPlan -> S -> (InstallPlan + error) * S
}.

Arguments List {S}.
Arguments Update {S}.

(** The calls of a run, each with the error it returned. *)
Inductive Call :=
| CList (namespace : string) (err : option error)
| CUpdate (plan : InstallPlan) (err : option error).

Definition is_update (c : Call) : bool :=
  match c with
  | CUpdate _ _ => true
  | CList _ _ => false
  end.

(** Install plans in memory: List answers the plans of the namespace in
    their order, Update replaces the plan of the same name and namespace
    and answers NotFound when there is none. *)
Definition same (p q : InstallPlan) : bool :=
  String.eqb (metav1.Namespace (ObjectMeta p)) (metav1.Namespace (ObjectMeta q))
  && String.eqb (metav1.Name (ObjectMeta p)) (metav1.Name (ObjectMeta q)).

Definition memory : Client (list InstallPlan) :=
  {| List := fun ns s =>
       (inl {| Items := List.filter
                          (fun p => String.eqb (metav1.Namespace (ObjectMeta p)) ns) s |}, s);
     Update := fun p s =>
       if List.existsb (same p) s
       then (inl p, List.map (fun q => if same p q then p else q) s)
       else (inr (StatusError StatusReasonNotFound
                    (metav1.Name (ObjectMeta p) +:+ " not found")), s) |}.

End installplan.

(** Install plans to run the functions on: one of another operator, one of
    the desired version that waits for approval, and a later one of the
    desired version that is approved. *)
Module plans.

Definition plan (name : string) (csvs : list string) (approved : bool)
    : installplan.InstallPlan :=
  {| installplan.ObjectMeta := metav1.named "openshift-operators" name;
     installplan.Spec :=
       {| installplan.CatalogSource := "redhat-operators";
          installplan.CatalogSourceNamespace := "openshift-marketplace";
          installplan.ClusterServiceVersionNames := csvs;
          installplan.Approval := "Manual";
          installplan.Approved := approved;
          installplan.Generation := 1 |};
     installplan.Status := {| installplan.Phase := "RequiresApproval" |} |}.

Definition other : installplan.InstallPlan :=
  plan "install-7k2xq" ["cluster-logging.v5.8.0"] true.

Definition pending : installplan.InstallPlan :=
  plan "install-b9w4d" ["kiali-operator.v1.73.4"; "servicemeshoperator.v2.5.0"] false.

Definition later : installplan.InstallPlan :=
  plan "install-zz8pl" ["servicemeshoperator.v2.5.0"] true.

End plans.

(** ** A cluster to run the functions on *)

Module scenario.

Definition TrustedCAConfigMapName : types.NamespacedName :=
  {| types.Namespace := "openshift-ingress-operator"; types.Name := "trusted-ca" |}.

Definition ServiceMeshSubscriptionName : types.NamespacedName :=
  {| types.Namespace := "openshift-operators"; types.Name := "servicemeshoperator" |}.

Definition ClusterConfigName : types.NamespacedName :=
  {| types.Namespace := ""; types.Name := "cluster" |}.

Definition DefaultIngressControllerName : string := "default".

Definition DetermineReplicas (_ : configv1.Ingress) (_ : configv1.Infrastructure) : Z := 2.

Definition r : reconciler memstore.Store := {| r_client := memstore.Client |}.

Definition o : Operator memstore.Store :=
  {| o_client := memstore.Client; namespace := "openshift-ingress-operator" |}.

(** The same two, with the client under a script. *)
Definition scripted_r : reconciler (memstore.Store * list (scripted.Step memstore.Store)) :=
  {| r_client := scripted.Client memstore.Client |}.

Definition scripted_o : Operator (memstore.Store * list (scripted.Step memstore.Store)) :=
  {| o_client := scripted.Client memstore.Client; namespace := "openshift-ingress-operator" |}.

Definition start {S} (s : S) : State S := {| store := s; CurrentLogLevel := zap.InfoLevel |}.

(** A configmap another actor made, without the label. *)
Definition foreign_configmap : corev1.ConfigMap :=
  {| corev1.ObjectMeta :=
       metav1.with_Labels (Some {[ "owner" := "someone" ]})
         (metav1.named "openshift-ingress-operator" "trusted-ca");
     corev1.Immutable := None;
     corev1.Data := Some {[ "ca-bundle.crt" := "PEM" ]};
     corev1.BinaryData := None |}.

(** A subscription another actor made, on another channel. *)
Definition foreign_subscription : operatorsv1alpha1.Subscription :=
  {| operatorsv1alpha1.ObjectMeta := metav1.named "openshift-operators" "servicemeshoperator";
     operatorsv1alpha1.Spec :=
       Some {| operatorsv1alpha1.CatalogSource := "redhat-operators";
               operatorsv1alpha1.CatalogSourceNamespace := "openshift-marketplace";
               operatorsv1alpha1.Package := "servicemeshoperator";
               operatorsv1alpha1.Channel := "1.0";
               operatorsv1alpha1.StartingCSV := "servicemeshoperator.v1.0.0";
               operatorsv1alpha1.InstallPlanApproval := operatorsv1alpha1.ApprovalAutomatic;
               operatorsv1alpha1.Config := None |};
     operatorsv1alpha1.Status :=
       {| operatorsv1alpha1.CurrentCSV := "servicemeshoperator.v1.0.0";
          operatorsv1alpha1.InstalledCSV := "servicemeshoperator.v1.0.0";
          operatorsv1alpha1.State := "AtLatestKnown" |} |}.

Definition foreign_ingresscontroller : operatorv1.IngressController :=
  {| operatorv1.ObjectMeta := metav1.named "openshift-ingress-operator" "default";
     operatorv1.Spec := {| operatorv1.Replicas := Some 1;
                           operatorv1.EndpointPublishingStrategy_ := None |} |}.

Definition infrastructure (topology : string) (platform : option string)
    : configv1.Infrastructure :=
  {| configv1.Infrastructure_ObjectMeta := metav1.named "" "cluster";
     configv1.Infrastructure_Status :=
       {| configv1.ControlPlaneTopology := topology;
          configv1.InfrastructureTopology := topology;
          configv1.PlatformStatus_ :=
            match platform with
            | Some t => Some {| configv1.Type_ := t |}
            | None => None
            end |} |}.

Definition ingress (logLevel placement : string) : configv1.Ingress :=
  {| configv1.ObjectMeta := metav1.named "" "cluster";
     configv1.Spec :=
       {| configv1.OperatorLogLevel := logLevel;
          configv1.LoadBalancer_ :=
            {| configv1.Platform := {| configv1.Platform_Type := ""; configv1.AWS := None |} |} |};
     configv1.Status := {| configv1.DefaultPlacement := placement |} |}.

Definition node (name : string) : corev1.Node :=
  {| corev1.Node_ObjectMeta := metav1.named "" name |}.

(** A cluster with its two config objects and its nodes, and nothing else. *)
Definition cluster (infra : configv1.Infrastructure) (ing : configv1.Ingress)
    (nodes : list corev1.Node) : memstore.Store :=
  {| memstore.configmaps := []; memstore.subscriptions := [];
     memstore.ingresscontrollers := [];
     memstore.infrastructures := [infra]; memstore.ingresses := [ing];
     memstore.nodes := nodes |}.

(** Another actor creates the three objects. *)
Definition others_create (s : memstore.Store) : memstore.Store :=
  snd (memstore.create KIngressController foreign_ingresscontroller
         (snd (memstore.create KSubscription foreign_subscription
                 (snd (memstore.create KConfigMap foreign_configmap s))))).

(** The store is empty; right after the first call of the function another
    actor creates the three objects. *)
Definition lost_race : State (memstore.Store * list (scripted.Step memstore.Store)) :=
  start (memstore.empty, [scripted.Interfere others_create]).

(** The store is empty and the second call of the function does not reach it. *)
Definition connection_refused : State (memstore.Store * list (scripted.Step memstore.Store)) :=
  start (memstore.empty, [scripted.Pass; scripted.Fault (errorString "connection refused")]).

(** What a trace shows of each event: the verb and the reason of the error. *)
Definition outcome (e : Event) : Verb * option StatusReason :=
  (verb e, ReasonForError <$> failed e).

End scenario.

(** ** The three files *)

Section Program.

Context {S : Type}.

#[local] Set Default Proof Using "Type".

(** Declared in this repository outside the three files (the names of
    pkg/operator/controller, pkg/manifests, and ingress.DetermineReplicas):
    parameters of the development. *)
Variable TrustedCAConfigMapName : types.NamespacedName.
Variable ServiceMeshSubscriptionName : types.NamespacedName.
Variable IngressClusterConfigName : types.NamespacedName.
Variable InfrastructureClusterConfigName : types.NamespacedName.
Variable DefaultIngressControllerName : string.
Variable DetermineReplicas : configv1.Ingress -> configv1.Infrastructure -> Z.

(** *** trustedca_configmap.go *)

Definition desiredTrustedCAConfigMap : bool * option corev1.ConfigMap * option error :=
  let name := TrustedCAConfigMapName in
  let cm :=
    {| corev1.ObjectMeta :=
         {| metav1.Name := types.Name name;
            metav1.Namespace := types.Namespace name;
            metav1.UID := ""; metav1.ResourceVersion := ""; metav1.Generation := 0;
            metav1.Labels := Some {[ injectTrustedCABundle := "true" ]};
            metav1.Annotations :=
              Some {[ "description" := "ConfigMap providing service CA bundle." ]};
            metav1.Finalizers := [] |};
       corev1.Immutable := None; corev1.Data := None; corev1.BinaryData := None |} in
  (true, Some cm, None).

Definition currentTrustedCAConfigMap (r : reconciler S)
    : M S (bool * option corev1.ConfigMap * option error) :=
  res <- client_Get (r_client r) KConfigMap TrustedCAConfigMapName ;;
  match res with
  | inr err => if IsNotFound err then ret (false, None, None) else ret (false, None, Some err)
  | inl cm => ret (true, Some cm, None)
  end.

Definition updateTrustedCAConfigMap (r : reconciler S)
    (current desired : option corev1.ConfigMap) : M S (bool * option error) :=
  cur <- deref current ;;
  if bool_decide (metav1.Labels (corev1.ObjectMeta cur) <> None)
     && String.eqb (metav1.index (metav1.Labels (corev1.ObjectMeta cur)) injectTrustedCABundle) "true"
  then ret (false, None)
  else
    let updated := DeepCopy cur in
    let updated :=
      if bool_decide (metav1.Labels (corev1.ObjectMeta updated) = None)
      then ConfigMap_with_meta (metav1.with_Labels (Some ∅) (corev1.ObjectMeta updated)) updated
      else updated in
    let updated :=
      ConfigMap_with_meta (set_label injectTrustedCABundle "true" (corev1.ObjectMeta updated))
                          updated in
    err <- client_Update (r_client r) KConfigMap updated ;;
    match err with
    | Some e => if IsAlreadyExists e then ret (false, None) else ret (false, Some e)
    | None => log_Info "updated configmap" ;; ret (true, None)
    end.

(** The switch statement of ensureTrustedCAConfigMap, on the two Booleans
    and the two pointers it reads. *)
Definition ensureTrustedCAConfigMap_switch (r : reconciler S)
    (wantCM : bool) (desired : option corev1.ConfigMap)
    (haveCM : bool) (current : option corev1.ConfigMap)
    : M S (bool * option corev1.ConfigMap * option error) :=
  if negb wantCM && negb haveCM then ret (false, None, None)
  else if negb wantCM && haveCM then
    cur <- deref current ;;
    err <- client_Delete (r_client r) KConfigMap cur ;;
    match err with
    | Some e =>
        if negb (IsNotFound e)
        then ret (true, current, Some (fmt.Errorf_v "failed to delete configmap: " e))
        else ret (false, None, None)
    | None => log_Info "deleted configmap" ;; ret (false, None, None)
    end
  else if wantCM && negb haveCM then
    d <- deref desired ;;
    err <- client_Create (r_client r) KConfigMap d ;;
    match err with
    | Some e => ret (false, None, Some (fmt.Errorf_v "failed to create configmap: " e))
    | None => log_Info "created configmap" ;; currentTrustedCAConfigMap r
    end
  else if wantCM && haveCM then
    res <- updateTrustedCAConfigMap r current desired ;;
    let '(updated, err) := res in
    match err with
    | Some e => ret (true, current, Some (fmt.Errorf_v "failed to update configmap: " e))
    | None => if updated then currentTrustedCAConfigMap r else ret (true, current, None)
    end
  else ret (true, current, None).

Definition ensureTrustedCAConfigMap (r : reconciler S)
    : M S (bool * option corev1.ConfigMap * option error) :=
  let '(wantCM, desired, err) := desiredTrustedCAConfigMap in
  match err with
  | Some e => ret (false, None, Some (fmt.Errorf_v "failed to build configmap: " e))
  | None =>
      res <- currentTrustedCAConfigMap r ;;
      let '(haveCM, current, err) := res in
      match err with
      | Some e => ret (false, None, Some e)
      | None => ensureTrustedCAConfigMap_switch r wantCM desired haveCM current
      end
  end.

(** *** subscription.go *)

Definition desiredSubscription (name : types.NamespacedName)
    : option operatorsv1alpha1.Subscription * option error :=
  let subscription :=
    {| operatorsv1alpha1.ObjectMeta := metav1.named (types.Namespace name) (types.Name name);
       operatorsv1alpha1.Spec :=
         Some {| operatorsv1alpha1.Channel := "stable";
                 operatorsv1alpha1.InstallPlanApproval := operatorsv1alpha1.ApprovalManual;
                 operatorsv1alpha1.Package := "servicemeshoperator";
                 operatorsv1alpha1.CatalogSource := "redhat-operators";
                 operatorsv1alpha1.CatalogSourceNamespace := "openshift-marketplace";
                 operatorsv1alpha1.StartingCSV := serviceMeshOperatorDesiredVersion;
                 operatorsv1alpha1.Config := None |};
       operatorsv1alpha1.Status :=
         {| operatorsv1alpha1.CurrentCSV := ""; operatorsv1alpha1.InstalledCSV := "";
            operatorsv1alpha1.State := "" |} |} in
  (Some subscription, None).

Definition currentSubscription (r : reconciler S) (name : types.NamespacedName)
    : M S (bool * option operatorsv1alpha1.Subscription * option error) :=
  res <- client_Get (r_client r) KSubscription name ;;
  match res with
  | inr err =>
      if IsNotFound err then ret (false, None, None)
      else ret (false, None,
                Some (fmt.Errorf_w ("failed to get subscription "
                                    +:+ types.NamespacedName_String name +:+ ": ") err))
  | inl subscription => ret (true, Some subscription, None)
  end.

Definition createSubscription (r : reconciler S)
    (subscription : option operatorsv1alpha1.Subscription) : M S (option error) :=
  sub <- deref subscription ;;
  err <- client_Create (r_client r) KSubscription sub ;;
  match err with
  | Some e =>
      ret (Some (fmt.Errorf_w
                   ("failed to create subscription "
                    +:+ metav1.Namespace (operatorsv1alpha1.ObjectMeta sub) +:+ "/"
                    +:+ metav1.Name (operatorsv1alpha1.ObjectMeta sub) +:+ ": ") e))
  | None => log_Info "created subscription" ;; ret None
  end.

Definition subscriptionChanged (current expected : operatorsv1alpha1.Subscription)
    : bool * option operatorsv1alpha1.Subscription :=
  if cmp.EqualSpec (operatorsv1alpha1.Spec current) (operatorsv1alpha1.Spec expected)
  then (false, None)
  else
    let updated := DeepCopy current in
    let updated := Subscription_with_Spec (operatorsv1alpha1.Spec expected) updated in
    (true, Some updated).

Definition updateSubscription (r : reconciler S)
    (current desired : option operatorsv1alpha1.Subscription) : M S (bool * option error) :=
  cur <- deref current ;;
  des <- deref desired ;;
  let '(changed, updated) := subscriptionChanged cur des in
  if negb changed then ret (false, None)
  else
    upd <- deref updated ;;
    err <- client_Update (r_client r) KSubscription upd ;;
    match err with
    | Some e =>
        ret (false,
             Some (fmt.Errorf_w
                     ("failed to update subscription "
                      +:+ metav1.Namespace (operatorsv1alpha1.ObjectMeta upd) +:+ "/"
                      +:+ metav1.Name (operatorsv1alpha1.ObjectMeta upd) +:+ ": ") e))
    | None => log_Info "updated subscription" ;; ret (true, None)
    end.

Definition ensureServiceMeshOperatorSubscription (r : reconciler S)
    : M S (bool * option operatorsv1alpha1.Subscription * option error) :=
  let name := ServiceMeshSubscriptionName in
  res <- currentSubscription r name ;;
  let '(have, current, err) := res in
  match err with
  | Some e => ret (false, None, Some e)
  | None =>
      let '(desired, err) := desiredSubscription name in
      match err with
      | Some e => ret (have, current, Some e)
      | None =>
          if negb have then
            err <- createSubscription r desired ;;
            match err with
            | Some e => ret (false, None, Some e)
            | None => currentSubscription r name
            end
          else if have then
            res <- updateSubscription r current desired ;;
            let '(updated, err) := res in
            match err with
            | Some e => ret (have, current, Some e)
            | None => if updated then currentSubscription r name else ret (true, current, None)
            end
          else ret (true, current, None)
      end
  end.

(** *** operator.go *)

(** The switch of ensureLogLevel: desiredLogLevel and vLevel. *)
Definition desiredLogLevel (operatorLogLevel : string) : Z * Z :=
  if String.eqb operatorLogLevel configv1.IngressOperatorLogLevelDebug then (zap.DebugLevel, 1)
  else if String.eqb operatorLogLevel configv1.IngressOperatorLogLevelTrace then (-2, 2)
  else if String.eqb operatorLogLevel configv1.IngressOperatorLogLevelTraceAll then (-3, 3)
  else (zap.InfoLevel, 0).

Definition ensureLogLevel (o : Operator S) : M S unit :=
  res <- client_Get (o_client o) KIngress {| types.Namespace := ""; types.Name := "cluster" |} ;;
  match res with
  | inr err => log_Error "failed fetching ingress config: %w" ;; ret tt
  | inl ingressConfig =>
      let '(desired, vLevel) :=
        desiredLogLevel (configv1.OperatorLogLevel (configv1.Spec ingressConfig)) in
      level <- CurrentLogLevel_Level ;;
      if negb (level =? desired) then
        CurrentLogLevel_SetLevel desired ;;
        log_Info "Updated log level"
      else ret tt
  end.

(** desiredDefaultPlacement as handleSingleNode4Dot11Upgrade computes it from
    the infrastructure config and the node list.  The conjunction is
    evaluated left to right and stops at the first false operand; its last
    operand dereferences Status.PlatformStatus, and [None] is the panic of
    that dereference on a nil pointer. *)
Definition desiredDefaultPlacement (infraConfig : configv1.Infrastructure)
    (nodes : corev1.NodeList) : option string :=
  let status := configv1.Infrastructure_Status infraConfig in
  if Nat.eqb (length (corev1.Items nodes)) 1
     && String.eqb (configv1.ControlPlaneTopology status) configv1.SingleReplicaTopologyMode
     && String.eqb (configv1.InfrastructureTopology status) configv1.SingleReplicaTopologyMode
  then
    match configv1.PlatformStatus_ status with
    | None => None
    | Some platformStatus =>
        if String.eqb (configv1.Type_ platformStatus) configv1.NonePlatformType
        then Some configv1.DefaultPlacementControlPlane
        else Some configv1.DefaultPlacementWorkers
    end
  else Some configv1.DefaultPlacementWorkers.

(** The function handleSingleNode4Dot11Upgrade hands to RetryOnConflict: it
    fetches the ingress config again, keeps a copy as the base of the patch,
    sets the placement and patches the status.  The fetch is taken to fill
    ingressConfig with the object the client answers. *)
Definition patchDefaultPlacement (o : Operator S) (desired : string) : M S (option error) :=
  res <- client_Get (o_client o) KIngress IngressClusterConfigName ;;
  match res with
  | inr err => ret (Some err)
  | inl ingressConfig =>
      let base := DeepCopy ingressConfig in
      let ingressConfig := Ingress_with_DefaultPlacement desired ingressConfig in
      client_StatusPatch (o_client o) KIngress ingressConfig base
  end.

Definition handleSingleNode4Dot11Upgrade (o : Operator S) : M S (option error) :=
  res <- client_Get (o_client o) KInfrastructure InfrastructureClusterConfigName ;;
  match res with
  | inr err => ret (Some (fmt.Errorf_w "failed fetching infrastructure config: " err))
  | inl infraConfig =>
      let ingressConfigName := IngressClusterConfigName in
      res <- client_Get (o_client o) KIngress ingressConfigName ;;
      match res with
      | inr err => ret (Some (fmt.Errorf_w "failed fetching ingress config: " err))
      | inl ingressConfig =>
          if negb (String.eqb (configv1.DefaultPlacement (configv1.Status ingressConfig)) "")
          then ret None
          else
            res <- client_List (o_client o) ;;
            match res with
            | inr err => ret (Some (fmt.Errorf_w "failed fetching cluster nodes: " err))
            | inl nodes =>
                desired <- deref (desiredDefaultPlacement infraConfig nodes) ;;
                err <- retry.RetryOnConflict retry.DefaultBackoff_Steps
                         (patchDefaultPlacement o desired) ;;
                match err with
                | Some e =>
                    ret (Some (fmt.Errorf_w
                                 ("unable to update ingress config "
                                  +:+ fmt.quoted (types.Name ingressConfigName) +:+ ": ") e))
                | None =>
                    log_Info "Patched ingress config defaultPlacement status" ;;
                    ret None
                end
            end
      end
  end.

(** The IngressController that ensureDefaultIngressController builds when
    none exists. *)
Definition defaultIngressController (name : types.NamespacedName)
    (infraConfig : configv1.Infrastructure) (ingressConfig : configv1.Ingress)
    : operatorv1.IngressController :=
  let replicas := DetermineReplicas ingressConfig infraConfig in
  let ic :=
    {| operatorv1.ObjectMeta := metav1.named (types.Namespace name) (types.Name name);
       operatorv1.Spec :=
         {| operatorv1.Replicas := Some replicas;
            operatorv1.EndpointPublishingStrategy_ := None |} |} in
  let platform := configv1.Platform (configv1.LoadBalancer_ (configv1.Spec ingressConfig)) in
  if String.eqb (configv1.Platform_Type platform) configv1.AWSPlatformType then
    match configv1.AWS platform with
    | Some aws =>
        if String.eqb (configv1.AWS_Type aws) configv1.NLB then
          {| operatorv1.ObjectMeta := operatorv1.ObjectMeta ic;
             operatorv1.Spec :=
               {| operatorv1.Replicas := operatorv1.Replicas (operatorv1.Spec ic);
                  operatorv1.EndpointPublishingStrategy_ :=
                    Some {| operatorv1.Strategy_Type :=
                              operatorv1.LoadBalancerServiceStrategyType;
                            operatorv1.LoadBalancer :=
                              Some {| operatorv1.Scope := "External";
                                      operatorv1.ProviderParameters :=
                                        Some {| operatorv1.Provider_Type :=
                                                  operatorv1.AWSLoadBalancerProvider;
                                                operatorv1.AWS :=
                                                  Some {| operatorv1.AWS_Type :=
                                                            operatorv1.AWSNetworkLoadBalancer |}
                                             |} |} |} |} |}
        else ic
    | None => ic
    end
  else ic.

Definition ensureDefaultIngressController (o : Operator S)
    (infraConfig : configv1.Infrastructure) (ingressConfig : configv1.Ingress)
    : M S (option error) :=
  let name := {| types.Namespace := namespace o; types.Name := DefaultIngressControllerName |} in
  res <- client_Get (o_client o) KIngressController name ;;
  match res with
  | inl _ => ret None
  | inr err =>
      if negb (IsNotFound err) then ret (Some err)
      else
        let ic := defaultIngressController name infraConfig ingressConfig in
        err <- client_Create (o_client o) KIngressController ic ;;
        match err with
        | Some e => ret (Some e)
        | None => log_Info "created default ingresscontroller" ;; ret None
        end
  end.

(** [infraConfig] is fetched by the caller. *)
Definition determineReplicasForDefaultIngressController (o : Operator S)
    (infraConfig : configv1.Infrastructure) : M S (Z * option error) :=
  res <- client_Get (o_client o) KIngress {| types.Namespace := ""; types.Name := "cluster" |} ;;
  match res with
  | inr err => ret (0, Some (fmt.Errorf_w "failed fetching ingress config: " err))
  | inl ingressConfig => ret (DetermineReplicas ingressConfig infraConfig, None)
  end.

(** The function Start hands to wait.Until to ensure the default
    ingresscontroller every minute.  [infraConfig] is the infrastructure
    config Start fetched once, and [synced] is the answer of the manager's
    WaitForCacheSync. *)
Definition Start_ensureDefaultIngressController (o : Operator S)
    (infraConfig : configv1.Infrastructure) (synced : bool) : M S unit :=
  if negb synced then
    log_Error "failed to sync cache before ensuring default ingresscontroller" ;;
    ret tt
  else
    let ingressConfigName := IngressClusterConfigName in
    res <- client_Get (o_client o) KIngress ingressConfigName ;;
    match res with
    | inr err => log_Error "failed to fetch ingress config" ;; ret tt
    | inl ingressConfig =>
        err <- ensureDefaultIngressController o infraConfig ingressConfig ;;
        match err with
        | Some e => log_Error "failed to ensure default ingresscontroller" ;; ret tt
        | None => ret tt
        end
    end.

(** *** subscription.go: the install plan *)

(** The two loops of getCurrentInstallPlan: the first plan, in the order of
    the list, one of whose ClusterServiceVersionNames is the desired
    version. *)
Definition names_version (p : installplan.InstallPlan) : bool :=
  List.existsb (String.eqb serviceMeshOperatorDesiredVersion)
    (installplan.ClusterServiceVersionNames (installplan.Spec p)).

Definition getCurrentInstallPlan (c : installplan.Client S) (s : S)
    : (option installplan.InstallPlan * option error) * S * list installplan.Call :=
  let '(res, s1) := installplan.List c serviceMeshOperatorNamespace s in
  match res with
  | inr err => ((None, Some err), s1, [installplan.CList serviceMeshOperatorNamespace (Some err)])
  | inl InstallPlans =>
      let calls := [installplan.CList serviceMeshOperatorNamespace None] in
      if Nat.eqb (length (installplan.Items InstallPlans)) 0 then ((None, None), s1, calls)
      else
        match List.find names_version (installplan.Items InstallPlans) with
        | Some InstallPlan => ((Some InstallPlan, None), s1, calls)
        | None =>
            ((None,
              Some (errorString ("No InstallPlan with cluster service version "
                                 +:+ serviceMeshOperatorDesiredVersion +:+ " found"))),
             s1, calls)
        end
  end.

Definition ensureServiceMeshOperatorInstallPlan (c : installplan.Client S) (s : S)
    : (bool * option installplan.InstallPlan * option error) * S * list installplan.Call :=
  let '((currentInstallPlan, err), s1, calls) := getCurrentInstallPlan c s in
  match err, currentInstallPlan with
  | Some e, _ => ((false, None, Some e), s1, calls)
  | None, None => ((false, None, None), s1, calls)
  | None, Some plan =>
      if negb (installplan.Approved (installplan.Spec plan)) then
        let plan := installplan.with_Approved true plan in
        let '(res, s2) := installplan.Update c plan s1 in
        match res with
        | inr e =>
            ((false, None,
              Some (fmt.Errorf_w
                      ("Failed to update "
                       +:+ metav1.Namespace (installplan.ObjectMeta plan) +:+ "/"
                       +:+ metav1.Name (installplan.ObjectMeta plan) +:+ ": ") e)),
             s2, (calls ++ [installplan.CUpdate plan (Some e)])%list)
        | inl written => ((true, Some written, None), s2,
                          (calls ++ [installplan.CUpdate plan None])%list)
        end
      else ((false, Some plan, None), s1, calls)
  end.

(** ** Notions the statements use *)

(** What a store keeps of an object it accepted: the labels of a configmap
    (it may add labels of its own) and the spec of a subscription. *)
Definition keeps {k : Kind} : obj k -> obj k -> Prop :=
  match k with
  | KConfigMap => fun written stored =>
      forall key v,
        metav1.entry (metav1.Labels (corev1.ObjectMeta written)) key = Some v ->
        metav1.entry (metav1.Labels (corev1.ObjectMeta stored)) key = Some v
  | KSubscription => fun written stored =>
      operatorsv1alpha1.Spec stored = operatorsv1alpha1.Spec written
  | _ => fun _ _ => True
  end.

(** A store that no other actor writes to: a read leaves it as it is and
    answers with the object of the name asked for, an accepted create or
    update is what the next read of that name finds, and an update is never
    answered with AlreadyExists. *)
Record StoreCoherent (c : Client S) : Prop := {
  Get_read_only : forall k n s, snd (Get c k n s) = s;
  Get_named : forall k n s o, fst (Get c k n s) = inl o -> metav1.key (meta o) = n;
  Create_then_Get : forall k o s s',
    Create c k o s = (None, s') ->
    exists o', fst (Get c k (metav1.key (meta o)) s') = inl o' /\ keeps o o';
  Update_then_Get : forall k o s s',
    Update c k o s = (None, s') ->
    exists o', fst (Get c k (metav1.key (meta o)) s') = inl o' /\ keeps o o';
  Update_not_AlreadyExists : forall k o s e,
    fst (Update c k o s) = Some e -> IsAlreadyExists e = false
}.

(** The object of name [n] is in the store [s] and satisfies [P]. *)
Definition settled (c : Client S) (k : Kind) (n : types.NamespacedName)
    (P : obj k -> Prop) (s : S) : Prop :=
  exists o, Get c k n s = (inl o, s) /\ P o.

(** The comparison that opens updateTrustedCAConfigMap: the label is set. *)
Definition labelled (cm : corev1.ConfigMap) : bool :=
  bool_decide (metav1.Labels (corev1.ObjectMeta cm) <> None)
  && String.eqb (metav1.index (metav1.Labels (corev1.ObjectMeta cm)) injectTrustedCABundle) "true".

(** The four conditions of handleSingleNode4Dot11Upgrade. *)
Definition singleNodeNonePlatform (infraConfig : configv1.Infrastructure)
    (nodes : corev1.NodeList) : Prop :=
  let status := configv1.Infrastructure_Status infraConfig in
  length (corev1.Items nodes) = 1%nat
  /\ configv1.ControlPlaneTopology status = configv1.SingleReplicaTopologyMode
  /\ configv1.InfrastructureTopology status = configv1.SingleReplicaTopologyMode
  /\ exists platformStatus,
       configv1.PlatformStatus_ status = Some platformStatus
       /\ configv1.Type_ platformStatus = configv1.NonePlatformType.

(** The first three of them: the operands evaluated before the dereference
    of Status.PlatformStatus. *)
Definition singleNodeSingleReplica (infraConfig : configv1.Infrastructure)
    (nodes : corev1.NodeList) : Prop :=
  let status := configv1.Infrastructure_Status infraConfig in
  length (corev1.Items nodes) = 1%nat
  /\ configv1.ControlPlaneTopology status = configv1.SingleReplicaTopologyMode
  /\ configv1.InfrastructureTopology status = configv1.SingleReplicaTopologyMode.

(** The status patches of an ingress config in a trace all write [p]. *)
Definition patches (p : string) (e : Event) : Prop :=
  match e with
  | EStatusPatch k o _ _ =>
      match k return obj k -> Prop with
      | KIngress => fun o => configv1.DefaultPlacement (configv1.Status o) = p
      | _ => fun _ => True
      end o
  | _ => True
  end.

(** The error each function returns for the error [e] of the store call [call]. *)
Definition report_configmap (call : Event) (e : error) : error :=
  match verb call with
  | VCreate => fmt.Errorf_v "failed to create configmap: " e
  | VUpdate => fmt.Errorf_v "failed to update configmap: " e
  | VDelete => fmt.Errorf_v "failed to delete configmap: " e
  | _ => e
  end.

Definition report_subscription (call : Event) (e : error) : error :=
  match call with
  | EGet _ name _ =>
      fmt.Errorf_w ("failed to get subscription " +:+ types.NamespacedName_String name +:+ ": ") e
  | ECreate _ o _ =>
      fmt.Errorf_w ("failed to create subscription " +:+ metav1.Namespace (meta o) +:+ "/"
                    +:+ metav1.Name (meta o) +:+ ": ") e
  | EUpdate _ o _ =>
      fmt.Errorf_w ("failed to update subscription " +:+ metav1.Namespace (meta o) +:+ "/"
                    +:+ metav1.Name (meta o) +:+ ": ") e
  | _ => e
  end.

(** The errors a function resolves itself: NotFound on a read or a delete
    is the absence of the object. *)
Definition absence (call : Event) (e : error) : bool :=
  match verb call with
  | VGet | VDelete => IsNotFound e
  | _ => false
  end.

(** The error of the result of an ensure function. *)
Definition error_of {A B} (v : option (A * B * option error)) : option error :=
  match v with
  | Some (_, _, err) => err
  | None => None
  end.

(** What handleSingleNode4Dot11Upgrade needs of a store that no other actor
    writes to, besides [StoreCoherent]: listing the nodes leaves it as it
    is; a status patch that sets the placement on the ingress config just
    fetched under [n] is what the next fetch of [n] finds; and a status
    patch of an ingress config, accepted or not, does not change what a
    fetch of an infrastructure config answers. *)
Record PlacementStore (c : Client S) (n : types.NamespacedName) : Prop := {
  List_read_only : forall s, snd (ListNodes c s) = s;
  Patch_then_Get : forall base p s s',
    fst (Get c KIngress n s) = inl base ->
    StatusPatch c KIngress (Ingress_with_DefaultPlacement p base) base s = (None, s') ->
    exists o', fst (Get c KIngress n s') = inl o'
               /\ configv1.DefaultPlacement (configv1.Status o') = p;
  Patch_keeps_infrastructure : forall o base s r s' m,
    StatusPatch c KIngress o base s = (r, s') ->
    fst (Get c KInfrastructure m s') = fst (Get c KInfrastructure m s)
}.

(** A status patch of an ingress config that sets Status.DefaultPlacement to
    ControlPlane or to Workers on the object it is based on; ingress
    reads, lists and log records; nothing else. *)
Definition placement_patch_or_read (e : Event) : Prop :=
  match e with
  | EGet _ _ _ | EList _ | ELog _ => True
  | EStatusPatch k o base _ =>
      match k return obj k -> obj k -> Prop with
      | KIngress => fun o base =>
          (o = Ingress_with_DefaultPlacement configv1.DefaultPlacementControlPlane base
           \/ o = Ingress_with_DefaultPlacement configv1.DefaultPlacementWorkers base)
          /\ configv1.ObjectMeta o = configv1.ObjectMeta base
          /\ configv1.Spec o = configv1.Spec base
      | _ => fun _ _ => False
      end o base
  | _ => False
  end.

(** A trace of reads, log records and status patches, replayed against the
    client [c] from the store [s].  [replay_end] is the store the replay
    ends in and the ingress config the latest fetch of that kind answered
    ([None] before any, and after one that failed). *)
Definition fetched_then (c : Client S) (k : Kind) (n : types.NamespacedName) (s : S)
    (fetched : option configv1.Ingress) : option configv1.Ingress :=
  match k return obj k + error -> option configv1.Ingress with
  | KIngress => fun r => match r with
                         | inl ingressConfig => Some ingressConfig
                         | inr _ => None
                         end
  | _ => fun _ => fetched
  end (fst (Get c k n s)).

Fixpoint replay_end (c : Client S) (s : S) (fetched : option configv1.Ingress)
    (evs : list Event) : S * option configv1.Ingress :=
  match evs with
  | [] => (s, fetched)
  | EGet k n _ :: rest => replay_end c (snd (Get c k n s)) (fetched_then c k n s fetched) rest
  | EList _ :: rest => replay_end c (snd (ListNodes c s)) fetched rest
  | EStatusPatch k o base _ :: rest =>
      replay_end c (snd (StatusPatch c k o base s)) fetched rest
  | _ :: rest => replay_end c s fetched rest
  end.

(** Replayed from [s], the trace is what the client answers, and every
    status patch in it is of an ingress config, is based on the ingress
    config the latest fetch answered, and sends that object with
    Status.DefaultPlacement set to ControlPlane or to Workers.  A trace with
    a create, an update, a delete or a change of the log level does not
    qualify. *)
Fixpoint patches_what_it_fetched (c : Client S) (s : S) (fetched : option configv1.Ingress)
    (evs : list Event) : Prop :=
  match evs with
  | [] => True
  | EGet k n err :: rest =>
      err = err_of (fst (Get c k n s))
      /\ patches_what_it_fetched c (snd (Get c k n s)) (fetched_then c k n s fetched) rest
  | EList err :: rest =>
      err = err_of (fst (ListNodes c s))
      /\ patches_what_it_fetched c (snd (ListNodes c s)) fetched rest
  | ELog _ :: rest => patches_what_it_fetched c s fetched rest
  | EStatusPatch k o base err :: rest =>
      match k return obj k -> obj k -> Prop with
      | KIngress => fun o base =>
          fetched = Some base
          /\ (o = Ingress_with_DefaultPlacement configv1.DefaultPlacementControlPlane base
              \/ o = Ingress_with_DefaultPlacement configv1.DefaultPlacementWorkers base)
      | _ => fun _ _ => False
      end o base
      /\ err = fst (StatusPatch c k o base s)
      /\ patches_what_it_fetched c (snd (StatusPatch c k o base s)) fetched rest
  | _ :: _ => False
  end.

(** A computation whose trace, replayed from the store it starts in,
    qualifies whatever was fetched before, and whose replay ends in the
    store it ends in. *)
Definition replays {A} (c : Client S) (m : M S A) : Prop :=
  forall st fetched,
    patches_what_it_fetched c (store st) fetched (events (m st))
    /\ fst (replay_end c (store st) fetched (events (m st))) = store (final (m st)).

(** ** Running the functions *)

Ltac unfold_program :=
  unfold ensureTrustedCAConfigMap, ensureTrustedCAConfigMap_switch, updateTrustedCAConfigMap,
    currentTrustedCAConfigMap, desiredTrustedCAConfigMap,
    ensureServiceMeshOperatorSubscription, updateSubscription, createSubscription,
    subscriptionChanged, currentSubscription, desiredSubscription,
    ensureDefaultIngressController, ensureLogLevel,
    handleSingleNode4Dot11Upgrade, patchDefaultPlacement,
    client_Get, client_List, client_Create, client_Update, client_Delete, client_StatusPatch,
    CurrentLogLevel_Level, CurrentLogLevel_SetLevel, log_Info, log_Error, emit, deref,
    bind, ret, panic in *.

(** One step of a run: the answer of the next client call, or the outcome
    of the next test. *)
Ltac step_client :=
  match goal with
  | |- context [Get ?c ?k ?n ?s] =>
      let E := fresh "HGet" in destruct (Get c k n s) as [[?|?] ?] eqn:E
  | |- context [Create ?c ?k ?o ?s] =>
      let E := fresh "HCreate" in destruct (Create c k o s) as [[?|] ?] eqn:E
  | |- context [Update ?c ?k ?o ?s] =>
      let E := fresh "HUpdate" in destruct (Update c k o s) as [[?|] ?] eqn:E
  | |- context [Delete ?c ?k ?o ?s] =>
      let E := fresh "HDelete" in destruct (Delete c k o s) as [[?|] ?] eqn:E
  | |- context [ListNodes ?c ?s] =>
      let E := fresh "HList" in destruct (ListNodes c s) as [[?|?] ?] eqn:E
  | |- context [StatusPatch ?c ?k ?o ?b ?s] =>
      let E := fresh "HPatch" in destruct (StatusPatch c k o b s) as [[?|] ?] eqn:E
  | |- context [if ?b then _ else _] => destruct b eqn:?
  | |- context [match ?p with Some _ => _ | None => _ end] => is_var p; destruct p
  end.

Ltac run := unfold_program; cbn; repeat (step_client; cbn).

(** ** Properties *)

Lemma NamespacedName_eta (n : types.NamespacedName) :
  {| types.Namespace := types.Namespace n; types.Name := types.Name n |} = n.
Proof. destruct n; reflexivity. Qed.

(** C9. desiredTrustedCAConfigMap answers that a configmap is wanted, with
    the configmap and no error, whatever it is called on; so
    ensureTrustedCAConfigMap enters its switch with wantCM true, and no run
    of it, with any client and from any state, issues a delete. *)
Theorem ensureTrustedCAConfigMap_never_deletes :
  (exists cm, desiredTrustedCAConfigMap = (true, Some cm, None)
     /\ forall r : reconciler S,
          ensureTrustedCAConfigMap r =
          (res <- currentTrustedCAConfigMap r ;;
           match res with
           | (haveCM, current, Some e) => ret (false, None, Some e)
           | (haveCM, current, None) =>
               ensureTrustedCAConfigMap_switch r true (Some cm) haveCM current
           end))
  /\ forall (r : reconciler S) (st : State S),
       Forall (fun e => verb e <> VDelete) (events (ensureTrustedCAConfigMap r st)).
Proof.
  split.
  - eexists. split; [reflexivity|]. intros r. reflexivity.
  - intros r st. run; repeat constructor; discriminate.
Qed.

(** C6. In the branch of the switch for a configmap that is not wanted and
    exists, a delete of the current configmap is the one store call that is
    issued; when the delete succeeds or answers NotFound the function
    returns (false, nil, nil), the same in both cases. *)
Theorem delete_NotFound_is_success (r : reconciler S)
    (desired : option corev1.ConfigMap) (current : corev1.ConfigMap)
    (st : State S) (err : option error) (s1 : S) :
  Delete (r_client r) KConfigMap current (store st) = (err, s1) ->
  let res := ensureTrustedCAConfigMap_switch r false desired true (Some current) st in
  List.filter is_store_call (events res) = [EDelete KConfigMap current err]
  /\ final res = with_store s1 st
  /\ ((forall e, err = Some e -> IsNotFound e = true) ->
      value res = Some (false, None, None)).
Proof.
  intros HD. unfold_program. cbn. rewrite HD. cbn.
  destruct err as [e|]; cbn.
  - destruct (IsNotFound e) eqn:Hnf; cbn; repeat split; auto.
    intros H. specialize (H e eq_refl). congruence.
  - auto.
Qed.

(** C1, as the code has it.  When the object is wanted and the fetch
    answers NotFound, each of the three functions issues one create of the
    desired object.  When the create fails, with AlreadyExists or any other
    error, the function issues no further call (it does not fetch again)
    and returns the error, behind a message for the configmap and the
    subscription and as it is for the ingresscontroller.  When the create
    succeeds, the configmap and the subscription are fetched again and the
    outcome of that fetch is returned, and ensureDefaultIngressController
    returns nil. *)
Theorem create_failure_is_returned :
  (forall (r : reconciler S) st e0 s1 d err s2,
     Get (r_client r) KConfigMap TrustedCAConfigMapName (store st) = (inr e0, s1) ->
     IsNotFound e0 = true ->
     desiredTrustedCAConfigMap = (true, Some d, None) ->
     Create (r_client r) KConfigMap d s1 = (err, s2) ->
     ensureTrustedCAConfigMap r st =
     match err with
     | Some e =>
         {| value := Some (false, None, Some (fmt.Errorf_v "failed to create configmap: " e));
            final := with_store s2 st;
            events := [EGet KConfigMap TrustedCAConfigMapName (Some e0);
                       ECreate KConfigMap d (Some e)] |}
     | None =>
         let res := currentTrustedCAConfigMap r (with_store s2 st) in
         {| value := value res; final := final res;
            events := [EGet KConfigMap TrustedCAConfigMapName (Some e0);
                       ECreate KConfigMap d None; ELog "created configmap"] ++ events res |}
     end)
  /\ (forall (r : reconciler S) st e0 s1 d err s2,
        Get (r_client r) KSubscription ServiceMeshSubscriptionName (store st) = (inr e0, s1) ->
        IsNotFound e0 = true ->
        desiredSubscription ServiceMeshSubscriptionName = (Some d, None) ->
        Create (r_client r) KSubscription d s1 = (err, s2) ->
        ensureServiceMeshOperatorSubscription r st =
        match err with
        | Some e =>
            {| value := Some (false, None, Some (report_subscription (ECreate KSubscription d err) e));
               final := with_store s2 st;
               events := [EGet KSubscription ServiceMeshSubscriptionName (Some e0);
                          ECreate KSubscription d (Some e)] |}
        | None =>
            let res := currentSubscription r ServiceMeshSubscriptionName (with_store s2 st) in
            {| value := value res; final := final res;
               events := [EGet KSubscription ServiceMeshSubscriptionName (Some e0);
                          ECreate KSubscription d None; ELog "created subscription"]
                         ++ events res |}
        end)
  /\ (forall (o : Operator S) infraConfig ingressConfig st e0 s1 err s2,
        let name := {| types.Namespace := namespace o;
                       types.Name := DefaultIngressControllerName |} in
        let ic := defaultIngressController name infraConfig ingressConfig in
        Get (o_client o) KIngressController name (store st) = (inr e0, s1) ->
        IsNotFound e0 = true ->
        Create (o_client o) KIngressController ic s1 = (err, s2) ->
        ensureDefaultIngressController o infraConfig ingressConfig st =
        {| value := Some err;
           final := with_store s2 st;
           events := [EGet KIngressController name (Some e0); ECreate KIngressController ic err]
                     ++ match err with
                        | Some _ => []
                        | None => [ELog "created default ingresscontroller"]
                        end |}).
Proof.
  split; [|split].
  - intros r st e0 s1 d err s2 HG Hnf Hd HC.
    unfold_program. cbn in *. injection Hd as <-.
    rewrite HG. cbn. rewrite Hnf. cbn. rewrite HC. cbn.
    destruct err as [e|]; cbn; [reflexivity|].
    destruct (Get (r_client r) KConfigMap TrustedCAConfigMapName s2) as [[cm|e1] s3]; cbn;
      [reflexivity|]. destruct (IsNotFound e1); reflexivity.
  - intros r st e0 s1 d err s2 HG Hnf Hd HC.
    unfold_program. cbn in *. injection Hd as <-.
    rewrite HG. cbn. rewrite Hnf. cbn. rewrite HC. cbn.
    destruct err as [e|]; cbn; [reflexivity|].
    destruct (Get (r_client r) KSubscription ServiceMeshSubscriptionName s2) as [[cm|e1] s3]; cbn;
      [reflexivity|]. destruct (IsNotFound e1); reflexivity.
  - intros o infraConfig ingressConfig st e0 s1 err s2 name ic HG Hnf HC.
    unfold_program. cbn. fold name. rewrite HG. cbn. rewrite Hnf. cbn.
    fold name. fold ic. rewrite HC. destruct err; reflexivity.
Qed.

(** The failing call is the last event of the trace. *)
Ltac last_event :=
  first [ exists []; reflexivity
        | eexists [_]; reflexivity
        | eexists [_; _]; reflexivity
        | eexists [_; _; _]; reflexivity
        | eexists [_; _; _; _]; reflexivity ].

(** Each event of a finite trace in turn. *)
Ltac each_event H :=
  cbn in H;
  repeat match type of H with
         | _ \/ _ => destruct H as [H|H]
         end;
  try contradiction; subst.

(** C7, as the code has it.  An error of a store call, other than NotFound
    on a fetch or a delete (and, for the update of the configmap, other than
    AlreadyExists), ends the invocation: the failed call is the last event,
    so nothing is attempted again, and the function returns an error made
    from it.  The error is returned as it is by the fetches of the configmap
    and by ensureDefaultIngressController; the create, update and delete of
    the configmap return a new error whose message is a prefix and the
    message of the store's error; the subscription functions wrap the
    store's error behind a prefix. *)
Theorem store_errors_are_returned_once :
  (forall (r : reconciler S) wantCM desired haveCM current st call e,
     let res := ensureTrustedCAConfigMap_switch r wantCM desired haveCM current st in
     In call (events res) -> failed call = Some e -> absence call e = false ->
     (verb call = VUpdate -> IsAlreadyExists e = false) ->
     (exists pre, events res = (pre ++ [call])%list)
     /\ error_of (value res) = Some (report_configmap call e))
  /\ (forall (r : reconciler S) st call e,
        let res := ensureTrustedCAConfigMap r st in
        In call (events res) -> failed call = Some e -> absence call e = false ->
        (verb call = VUpdate -> IsAlreadyExists e = false) ->
        (exists pre, events res = (pre ++ [call])%list)
        /\ error_of (value res) = Some (report_configmap call e))
  /\ (forall (r : reconciler S) st call e,
        let res := ensureServiceMeshOperatorSubscription r st in
        In call (events res) -> failed call = Some e -> absence call e = false ->
        (exists pre, events res = (pre ++ [call])%list)
        /\ error_of (value res) = Some (report_subscription call e))
  /\ (forall (o : Operator S) infraConfig ingressConfig st call e,
        let res := ensureDefaultIngressController o infraConfig ingressConfig st in
        In call (events res) -> failed call = Some e -> absence call e = false ->
        (exists pre, events res = (pre ++ [call])%list)
        /\ value res = Some (Some e)).
Proof.
  split; [|split; [|split]].
  all: intros until e; intros res; subst res.
  all: run.
  all: intros Hin; each_event Hin; cbn in *; intros; simplify_eq; try congruence.
  all: try solve [split; [last_event | reflexivity]].
  all: exfalso.
  all: repeat match goal with
              | H : VUpdate = VUpdate -> _ |- _ => specialize (H eq_refl)
              | H : negb _ = true |- _ => apply negb_true_iff in H
              | H : negb _ = false |- _ => apply negb_false_iff in H
              end.
  all: congruence.
Qed.

Lemma entry_labelled (cm : corev1.ConfigMap) :
  metav1.entry (metav1.Labels (corev1.ObjectMeta cm)) injectTrustedCABundle = Some "true" ->
  labelled cm = true.
Proof.
  unfold labelled, metav1.entry, metav1.index.
  destruct (metav1.Labels (corev1.ObjectMeta cm)) as [g|]; [|discriminate].
  intros ->. reflexivity.
Qed.

(** C3. When subscriptionChanged reports a change, the subscription it
    returns, which is the one updateSubscription passes to Update, has the
    metadata (resourceVersion, labels and annotations included) and the
    status of the current subscription and the spec of the expected one.
    When the label is not set on the current configmap, the configmap that
    updateTrustedCAConfigMap passes to Update has the label set to true, and
    every other label and every other field as in the current configmap. *)
Theorem update_changes_owned_fields_only :
  (forall current expected,
     fst (subscriptionChanged current expected) = true ->
     exists updated,
       snd (subscriptionChanged current expected) = Some updated
       /\ operatorsv1alpha1.ObjectMeta updated = operatorsv1alpha1.ObjectMeta current
       /\ operatorsv1alpha1.Status updated = operatorsv1alpha1.Status current
       /\ operatorsv1alpha1.Spec updated = operatorsv1alpha1.Spec expected)
  /\ (forall (r : reconciler S) current expected st,
        fst (subscriptionChanged current expected) = true ->
        exists updated err,
          snd (subscriptionChanged current expected) = Some updated
          /\ List.filter is_store_call
               (events (updateSubscription r (Some current) (Some expected) st))
             = [EUpdate KSubscription updated err])
  /\ (forall (r : reconciler S) current desired st,
        labelled current = false ->
        exists updated err,
          List.filter is_store_call
            (events (updateTrustedCAConfigMap r (Some current) desired st))
          = [EUpdate KConfigMap updated err]
          /\ metav1.entry (metav1.Labels (corev1.ObjectMeta updated)) injectTrustedCABundle
             = Some "true"
          /\ (forall key, key <> injectTrustedCABundle ->
                metav1.entry (metav1.Labels (corev1.ObjectMeta updated)) key
                = metav1.entry (metav1.Labels (corev1.ObjectMeta current)) key)
          /\ metav1.with_Labels (metav1.Labels (corev1.ObjectMeta current))
                                (corev1.ObjectMeta updated)
             = corev1.ObjectMeta current
          /\ corev1.Immutable updated = corev1.Immutable current
          /\ corev1.Data updated = corev1.Data current
          /\ corev1.BinaryData updated = corev1.BinaryData current).
Proof.
  split; [|split].
  - intros current expected. unfold subscriptionChanged.
    destruct (cmp.EqualSpec _ _); cbn; [discriminate|].
    intros _. eexists. repeat split.
  - intros r current expected st. unfold_program. cbn.
    destruct (cmp.EqualSpec _ _); cbn; [discriminate|].
    intros _.
    destruct (Update (r_client r) KSubscription _ (store st)) as [[e|] s1]; cbn;
      do 2 eexists; split; reflexivity.
  - intros r current desired st Hl. unfold labelled in Hl.
    unfold_program. cbn. rewrite Hl.
    destruct (Update (r_client r) KConfigMap _ (store st)) as [[e|] s1] eqn:HU; cbn.
    1: destruct (IsAlreadyExists e); cbn.
    all: do 2 eexists; split; [reflexivity|].
    all: unfold DeepCopy, set_label; destruct current as [[n ns uid rv gen lbl ann fin] imm data bin];
      cbn; destruct lbl as [g|]; cbn.
    all: repeat split; try apply lookup_insert_eq.
    all: intros key Hne; rewrite lookup_insert_ne by congruence; try reflexivity.
    all: apply lookup_empty.
Qed.

Lemma EqualMap_refl (m : metav1.stringMap) : cmp.EqualMap m m = true.
Proof.
  unfold cmp.EqualMap. destruct (cmp.emptyMap m && cmp.emptyMap m) eqn:E; [reflexivity|].
  destruct m as [g|]; [apply bool_decide_eq_true; reflexivity | discriminate].
Qed.

Lemma EqualSlice_refl {A} `{EqDecision A} (l : option (list A)) : cmp.EqualSlice l l = true.
Proof.
  unfold cmp.EqualSlice. destruct (cmp.emptySlice l && cmp.emptySlice l) eqn:E; [reflexivity|].
  destruct l as [l|]; [apply bool_decide_eq_true; reflexivity | discriminate].
Qed.

Lemma EqualSpec_refl (sp : option operatorsv1alpha1.SubscriptionSpec) : cmp.EqualSpec sp sp = true.
Proof.
  destruct sp as [[a b c d e f cfg]|]; cbn; [|reflexivity].
  rewrite !String.eqb_refl. cbn.
  destruct cfg as [[ns env]|]; cbn; [|reflexivity].
  rewrite EqualMap_refl, EqualSlice_refl. reflexivity.
Qed.

(** A second call finds the configmap with its label: one fetch, no write. *)
Lemma ensureTrustedCAConfigMap_settled (r : reconciler S) (s : S) (l : Z) (cm : corev1.ConfigMap) :
  Get (r_client r) KConfigMap TrustedCAConfigMapName s = (inl cm, s) ->
  labelled cm = true ->
  ensureTrustedCAConfigMap r {| store := s; CurrentLogLevel := l |} =
  {| value := Some (true, Some cm, None);
     final := {| store := s; CurrentLogLevel := l |};
     events := [EGet KConfigMap TrustedCAConfigMapName None] |}.
Proof.
  intros HG Hl. unfold labelled in Hl. unfold_program. cbn. rewrite HG. cbn.
  rewrite Hl. reflexivity.
Qed.

Lemma ensureServiceMeshOperatorSubscription_settled (r : reconciler S) (s : S) (l : Z)
    (sub : operatorsv1alpha1.Subscription) (d : operatorsv1alpha1.Subscription) :
  Get (r_client r) KSubscription ServiceMeshSubscriptionName s = (inl sub, s) ->
  desiredSubscription ServiceMeshSubscriptionName = (Some d, None) ->
  cmp.EqualSpec (operatorsv1alpha1.Spec sub) (operatorsv1alpha1.Spec d) = true ->
  ensureServiceMeshOperatorSubscription r {| store := s; CurrentLogLevel := l |} =
  {| value := Some (true, Some sub, None);
     final := {| store := s; CurrentLogLevel := l |};
     events := [EGet KSubscription ServiceMeshSubscriptionName None] |}.
Proof.
  intros HG Hd Hs. unfold desiredSubscription in Hd. injection Hd as <-.
  unfold_program. cbn. rewrite HG. cbn.
  cbn in Hs. rewrite Hs. reflexivity.
Qed.

Lemma ensureDefaultIngressController_settled (o : Operator S) (s : S) (l : Z)
    (ic : operatorv1.IngressController) infraConfig ingressConfig :
  let name := {| types.Namespace := namespace o; types.Name := DefaultIngressControllerName |} in
  Get (o_client o) KIngressController name s = (inl ic, s) ->
  ensureDefaultIngressController o infraConfig ingressConfig {| store := s; CurrentLogLevel := l |} =
  {| value := Some None;
     final := {| store := s; CurrentLogLevel := l |};
     events := [EGet KIngressController name None] |}.
Proof.
  intros name HG. unfold_program. cbn. fold name. rewrite HG. reflexivity.
Qed.

Lemma Get_same (c : Client S) (Hc : StoreCoherent c) k n s r s' :
  Get c k n s = (r, s') -> s' = s.
Proof. intros H. pose proof (Get_read_only c Hc k n s) as E. rewrite H in E. exact E. Qed.

(** What coherence says of the writes of a run. *)
Ltac use_coherence Hc :=
  repeat match goal with
         | H : Get ?c ?k ?n ?s = (inl ?o, _) |- _ =>
             lazymatch goal with
             | _ : metav1.key (meta o) = n |- _ => fail
             | _ => pose proof (Get_named c Hc k n s o (f_equal fst H))
             end
         | H : Create ?c ?k ?o ?s = (None, ?s') |- _ =>
             let o' := fresh "stored" in
             let Ho := fresh "Hstored" in
             let Hk := fresh "Hkeeps" in
             destruct (Create_then_Get c Hc k o s s' H) as (o' & Ho & Hk); clear H
         | H : Update ?c ?k ?o ?s = (None, ?s') |- _ =>
             let o' := fresh "stored" in
             let Ho := fresh "Hstored" in
             let Hk := fresh "Hkeeps" in
             destruct (Update_then_Get c Hc k o s s' H) as (o' & Ho & Hk); clear H
         | H : Update ?c ?k ?o ?s = (Some ?e, ?s') |- _ =>
             pose proof (Update_not_AlreadyExists c Hc k o s e (f_equal fst H)); clear H
         end.

(** Every fetch of a run against a coherent store leaves the store as it is. *)
Ltac reads_leave_store Hc :=
  repeat match goal with
         | H : Get _ _ _ _ = (_, _) |- _ =>
             pose proof (Get_same _ Hc _ _ _ _ _ H); subst; revert H
         end; intros.

Ltac split_ifs :=
  repeat match goal with
         | |- context [if ?b then _ else _] => destruct b
         end.

(** The name a write was keyed by is the name [n] the run fetches. *)
Ltac keyed_by n :=
  repeat match goal with
         | Hs : fst (Get _ _ ?key _) = inl _ |- _ =>
             lazymatch key with
             | n => fail
             | _ => idtac
             end;
             replace key with n in Hs by
               first [ symmetry; apply NamespacedName_eta
                     | match goal with
                       | Hn : metav1.key _ = n |- _ => rewrite <- Hn; split_ifs; reflexivity
                       end ]
         end;
  repeat match goal with
         | Hn : metav1.key _ = _ |- _ => clear Hn
         end;
  repeat match goal with
         | H : Get ?c ?k ?n ?s = _, H' : context [Get ?c ?k ?n ?s] |- _ =>
             rewrite H in H'; cbn in H'
         end;
  simplify_eq.

Lemma ensureTrustedCAConfigMap_converges (r : reconciler S) (st : State S) :
  StoreCoherent (r_client r) ->
  let res := ensureTrustedCAConfigMap r st in
  (exists have cm, value res = Some (have, cm, None)) ->
  settled (r_client r) KConfigMap TrustedCAConfigMapName
          (fun cm => labelled cm = true) (store (final res)).
Proof.
  intros Hc res. subst res. run.
  all: intros (have & cm & H); simplify_eq.
  all: reads_leave_store Hc; use_coherence Hc; unfold settled.
  all: try congruence.
  all: keyed_by TrustedCAConfigMapName.
  all: eexists; split; [eassumption|].
  all: try assumption.
  all: apply entry_labelled; apply Hkeeps; split_ifs; cbn.
  all: first [apply lookup_insert_eq | apply lookup_singleton_eq].
Qed.

Lemma ensureServiceMeshOperatorSubscription_converges (r : reconciler S) (st : State S) d :
  StoreCoherent (r_client r) ->
  desiredSubscription ServiceMeshSubscriptionName = (Some d, None) ->
  let res := ensureServiceMeshOperatorSubscription r st in
  (exists have sub, value res = Some (have, sub, None)) ->
  settled (r_client r) KSubscription ServiceMeshSubscriptionName
          (fun sub => cmp.EqualSpec (operatorsv1alpha1.Spec sub) (operatorsv1alpha1.Spec d) = true)
          (store (final res)).
Proof.
  intros Hc Hd res. subst res. unfold desiredSubscription in Hd. injection Hd as <-. run.
  all: intros (have & cm & H); simplify_eq.
  all: reads_leave_store Hc; use_coherence Hc; unfold settled.
  all: keyed_by ServiceMeshSubscriptionName.
  all: eexists; split; [eassumption|].
  all: try assumption.
  all: cbn in Hkeeps; rewrite Hkeeps; apply EqualSpec_refl.
Qed.

Lemma defaultIngressController_key name infraConfig ingressConfig :
  metav1.key (operatorv1.ObjectMeta (defaultIngressController name infraConfig ingressConfig))
  = name.
Proof.
  unfold defaultIngressController, metav1.key.
  destruct (String.eqb _ configv1.AWSPlatformType); [|apply NamespacedName_eta].
  destruct (configv1.AWS _) as [aws|]; [|apply NamespacedName_eta].
  destruct (String.eqb _ configv1.NLB); apply NamespacedName_eta.
Qed.

Lemma ensureDefaultIngressController_converges (o : Operator S) (st : State S)
    infraConfig ingressConfig :
  StoreCoherent (o_client o) ->
  let res := ensureDefaultIngressController o infraConfig ingressConfig st in
  value res = Some None ->
  settled (o_client o) KIngressController
          {| types.Namespace := namespace o; types.Name := DefaultIngressControllerName |}
          (fun _ => True) (store (final res)).
Proof.
  intros Hc res. subst res. run.
  all: intros H; simplify_eq.
  all: reads_leave_store Hc; use_coherence Hc; unfold settled.
  - eauto.
  - change (@meta KIngressController) with operatorv1.ObjectMeta in Hstored.
    rewrite defaultIngressController_key in Hstored.
    pose proof (Get_read_only _ Hc KIngressController
                  {| types.Namespace := namespace o; types.Name := DefaultIngressControllerName |}
                  s0) as Hs.
    destruct (Get (o_client o) KIngressController _ s0) as [res s1]. cbn in *. subst.
    exists stored. split; [reflexivity|exact I].
Qed.

(** C2. Against a store that no other actor writes to, a call of an ensure
    function that follows a call that returned without error is one fetch
    and nothing else: it issues no create, update or delete, leaves the
    store and the log level as they are, and returns the object without
    error. *)
Theorem second_ensure_is_noop :
  (forall r : reconciler S,
     StoreCoherent (r_client r) ->
     forall st have cm st1 evs,
       ensureTrustedCAConfigMap r st =
       {| value := Some (have, cm, None); final := st1; events := evs |} ->
       exists cm',
         ensureTrustedCAConfigMap r st1 =
         {| value := Some (true, Some cm', None); final := st1;
            events := [EGet KConfigMap TrustedCAConfigMapName None] |})
  /\ (forall r : reconciler S,
        StoreCoherent (r_client r) ->
        forall st have sub st1 evs,
          ensureServiceMeshOperatorSubscription r st =
          {| value := Some (have, sub, None); final := st1; events := evs |} ->
          exists sub',
            ensureServiceMeshOperatorSubscription r st1 =
            {| value := Some (true, Some sub', None); final := st1;
               events := [EGet KSubscription ServiceMeshSubscriptionName None] |})
  /\ (forall o : Operator S,
        StoreCoherent (o_client o) ->
        forall infraConfig ingressConfig infraConfig' ingressConfig' st st1 evs,
          ensureDefaultIngressController o infraConfig ingressConfig st =
          {| value := Some None; final := st1; events := evs |} ->
          ensureDefaultIngressController o infraConfig' ingressConfig' st1 =
          {| value := Some None; final := st1;
             events := [EGet KIngressController
                          {| types.Namespace := namespace o;
                             types.Name := DefaultIngressControllerName |} None] |}).
Proof.
  split; [|split].
  - intros r Hc st have cm st1 evs H.
    pose proof (ensureTrustedCAConfigMap_converges r st Hc) as Hs.
    cbn zeta in Hs. rewrite H in Hs. cbn in Hs.
    destruct Hs as (cm' & HG & Hl); [eauto|].
    destruct st1 as [s l]. exists cm'.
    apply ensureTrustedCAConfigMap_settled; assumption.
  - intros r Hc st have sub st1 evs H.
    pose proof (ensureServiceMeshOperatorSubscription_converges r st _ Hc eq_refl) as Hs.
    cbn zeta in Hs. rewrite H in Hs. cbn in Hs.
    destruct Hs as (sub' & HG & Hl); [eauto|].
    destruct st1 as [s l]. exists sub'.
    eapply ensureServiceMeshOperatorSubscription_settled; [exact HG|reflexivity|exact Hl].
  - intros o Hc infraConfig ingressConfig infraConfig' ingressConfig' st st1 evs H.
    pose proof (ensureDefaultIngressController_converges o st infraConfig ingressConfig Hc) as Hs.
    cbn zeta in Hs. rewrite H in Hs. cbn in Hs.
    destruct Hs as (ic & HG & _); [reflexivity|].
    destruct st1 as [s l].
    eapply ensureDefaultIngressController_settled. exact HG.
Qed.

(** C8. The switch of ensureLogLevel maps Debug to the Debug level, Trace
    to -2, TraceAll to -3 and every other value, Normal and the empty
    string among them, to the Info level.  A call that fetched the ingress
    config leaves that level stored; it calls SetLevel exactly when the
    stored level differs, so when the level is already the one computed the
    only event is the fetch, and a second call on an unchanged setting is
    that no-op.  A call whose fetch fails writes nothing. *)
Theorem ensureLogLevel_writes_only_on_change :
  (desiredLogLevel configv1.IngressOperatorLogLevelDebug = (zap.DebugLevel, 1)
   /\ desiredLogLevel configv1.IngressOperatorLogLevelTrace = (-2, 2)
   /\ desiredLogLevel configv1.IngressOperatorLogLevelTraceAll = (-3, 3)
   /\ desiredLogLevel configv1.IngressOperatorLogLevelNormal = (zap.InfoLevel, 0)
   /\ desiredLogLevel "" = (zap.InfoLevel, 0)
   /\ forall l,
        l <> configv1.IngressOperatorLogLevelDebug ->
        l <> configv1.IngressOperatorLogLevelTrace ->
        l <> configv1.IngressOperatorLogLevelTraceAll ->
        desiredLogLevel l = (zap.InfoLevel, 0))
  /\ (forall (o : Operator S) st ingressConfig s1,
        let name := {| types.Namespace := ""; types.Name := "cluster" |} in
        Get (o_client o) KIngress name (store st) = (inl ingressConfig, s1) ->
        let level :=
          fst (desiredLogLevel (configv1.OperatorLogLevel (configv1.Spec ingressConfig))) in
        let res := ensureLogLevel o st in
        value res = Some tt
        /\ final res = {| store := s1; CurrentLogLevel := level |}
        /\ (CurrentLogLevel st = level -> events res = [EGet KIngress name None])
        /\ (CurrentLogLevel st <> level ->
            events res = [EGet KIngress name None; ESetLevel level; ELog "Updated log level"]))
  /\ (forall (o : Operator S) st ingressConfig s1 ingressConfig' s2,
        let name := {| types.Namespace := ""; types.Name := "cluster" |} in
        Get (o_client o) KIngress name (store st) = (inl ingressConfig, s1) ->
        Get (o_client o) KIngress name s1 = (inl ingressConfig', s2) ->
        configv1.OperatorLogLevel (configv1.Spec ingressConfig')
        = configv1.OperatorLogLevel (configv1.Spec ingressConfig) ->
        events (ensureLogLevel o (final (ensureLogLevel o st))) = [EGet KIngress name None])
  /\ (forall (o : Operator S) st e s1,
        let name := {| types.Namespace := ""; types.Name := "cluster" |} in
        Get (o_client o) KIngress name (store st) = (inr e, s1) ->
        let res := ensureLogLevel o st in
        final res = with_store s1 st
        /\ Forall (fun ev => verb ev <> VSetLevel) (events res)).
Proof.
  assert (Hrun : forall (o : Operator S) st ingressConfig s1,
        let name := {| types.Namespace := ""; types.Name := "cluster" |} in
        Get (o_client o) KIngress name (store st) = (inl ingressConfig, s1) ->
        let level :=
          fst (desiredLogLevel (configv1.OperatorLogLevel (configv1.Spec ingressConfig))) in
        let res := ensureLogLevel o st in
        value res = Some tt
        /\ final res = {| store := s1; CurrentLogLevel := level |}
        /\ (CurrentLogLevel st = level -> events res = [EGet KIngress name None])
        /\ (CurrentLogLevel st <> level ->
            events res = [EGet KIngress name None; ESetLevel level; ELog "Updated log level"])).
  { intros o st ingressConfig s1 name HG level res. subst res.
    unfold_program. cbn. fold name. rewrite HG. cbn.
    fold level. destruct (desiredLogLevel _) as [d v] eqn:Hd. cbn in level. subst level.
    cbn. destruct (Z.eqb_spec (CurrentLogLevel st) d) as [He|Hne]; cbn.
    - split; [reflexivity|split; [unfold with_store; rewrite He; reflexivity|split]];
        intros H; [reflexivity|congruence].
    - split; [reflexivity|split; [reflexivity|split]]; intros H; [congruence|reflexivity]. }
  split; [|split; [|split]].
  - repeat split. intros l H1 H2 H3. unfold desiredLogLevel.
    apply String.eqb_neq in H1, H2, H3. rewrite H1, H2, H3. reflexivity.
  - exact Hrun.
  - intros o st ingressConfig s1 ingressConfig' s2 name HG HG' Hsame.
    destruct (Hrun o st ingressConfig s1 HG) as (_ & Hf & _).
    rewrite Hf.
    apply (Hrun o {| store := s1; CurrentLogLevel := _ |} ingressConfig' s2 HG').
    cbn. rewrite Hsame. reflexivity.
  - intros o st e s1 name HG res. subst res.
    unfold_program. cbn. fold name. rewrite HG. cbn.
    split; [reflexivity|]. repeat constructor; discriminate.
Qed.

(** *** The retry loop of handleSingleNode4Dot11Upgrade *)

Lemma bind_events_Forall {A B} (P : Event -> Prop) (m : M S A) (f : A -> M S B) st :
  Forall P (events (m st)) ->
  (forall a st', Forall P (events (f a st'))) ->
  Forall P (events (bind m f st)).
Proof.
  intros Hm Hf. unfold bind.
  destruct (m st) as [[a|] st1 evs]; cbn in *; [|exact Hm].
  specialize (Hf a st1). destruct (f a st1) as [v st2 evs']; cbn in *.
  apply Forall_app; split; assumption.
Qed.

Lemma bind_total {A B} (m : M S A) (f : A -> M S B) st :
  value (m st) <> None ->
  (forall a st', value (f a st') <> None) ->
  value (bind m f st) <> None.
Proof.
  intros Hm Hf. unfold bind.
  destruct (m st) as [[a|] st1 evs]; cbn in *; [|congruence].
  specialize (Hf a st1). destruct (f a st1) as [v st2 evs']; cbn in *. exact Hf.
Qed.

Lemma OnError_events_Forall (P : Event -> Prop) (retriable : error -> bool)
    (fn : M S (option error)) :
  (forall st, Forall P (events (fn st))) ->
  forall steps lastErr st, Forall P (events (retry.OnError steps retriable fn lastErr st)).
Proof.
  intros Hfn steps. induction steps as [|n IH]; intros lastErr st; cbn.
  - constructor.
  - apply bind_events_Forall; [apply Hfn|].
    intros [e|] st'; [|constructor].
    destruct (retriable e); [apply IH|constructor].
Qed.

Lemma OnError_total (retriable : error -> bool) (fn : M S (option error)) :
  (forall st, value (fn st) <> None) ->
  forall steps lastErr st, value (retry.OnError steps retriable fn lastErr st) <> None.
Proof.
  intros Hfn steps. induction steps as [|n IH]; intros lastErr st; cbn.
  - discriminate.
  - apply bind_total; [apply Hfn|].
    intros [e|] st'; [|discriminate].
    destruct (retriable e); [apply IH|discriminate].
Qed.

Lemma patchDefaultPlacement_patches (o : Operator S) (p : string) st :
  Forall (patches p) (events (patchDefaultPlacement o p st)).
Proof.
  unfold_program. cbn.
  destruct (Get (o_client o) KIngress IngressClusterConfigName (store st)) as [[ing|e] s1]; cbn.
  - destruct (StatusPatch (o_client o) KIngress _ _ s1) as [err s2]; cbn.
    repeat constructor.
  - repeat constructor.
Qed.

Lemma patchDefaultPlacement_total (o : Operator S) (p : string) st :
  value (patchDefaultPlacement o p st) <> None.
Proof.
  unfold_program. cbn.
  destruct (Get (o_client o) KIngress IngressClusterConfigName (store st)) as [[ing|e] s1]; cbn.
  - destruct (StatusPatch (o_client o) KIngress _ _ s1) as [err s2]; cbn. discriminate.
  - discriminate.
Qed.

(** The run of handleSingleNode4Dot11Upgrade once its three reads succeeded
    and the placement is not set: the retry loop, behind the three reads. *)
Lemma handleSingleNode4Dot11Upgrade_unset (o : Operator S) st infraConfig s1 ingressConfig s2
    nodes s3 :
  Get (o_client o) KInfrastructure InfrastructureClusterConfigName (store st)
  = (inl infraConfig, s1) ->
  Get (o_client o) KIngress IngressClusterConfigName s1 = (inl ingressConfig, s2) ->
  configv1.DefaultPlacement (configv1.Status ingressConfig) = "" ->
  ListNodes (o_client o) s2 = (inl nodes, s3) ->
  let reads := [EGet KInfrastructure InfrastructureClusterConfigName None;
                EGet KIngress IngressClusterConfigName None; EList None] in
  handleSingleNode4Dot11Upgrade o st =
  match desiredDefaultPlacement infraConfig nodes with
  | None => {| value := None; final := with_store s3 st; events := reads |}
  | Some p =>
      let loop := retry.RetryOnConflict retry.DefaultBackoff_Steps
                    (patchDefaultPlacement o p) (with_store s3 st) in
      match value loop with
      | None => {| value := None; final := final loop; events := reads ++ events loop |}
      | Some (Some e) =>
          {| value := Some (Some (fmt.Errorf_w
                                    ("unable to update ingress config "
                                     +:+ fmt.quoted (types.Name IngressClusterConfigName)
                                     +:+ ": ") e));
             final := final loop; events := reads ++ events loop |}
      | Some None =>
          {| value := Some None; final := final loop;
             events := reads ++ events loop
                       ++ [ELog "Patched ingress config defaultPlacement status"] |}
      end
  end.
Proof.
  intros HG1 HG2 Hdp HL reads.
  unfold handleSingleNode4Dot11Upgrade, bind, client_Get, client_List, deref, ret, panic,
    log_Info, emit.
  rewrite HG1. cbn. rewrite HG2. cbn. rewrite Hdp. cbn. rewrite HL. cbn.
  destruct (desiredDefaultPlacement infraConfig nodes) as [p|]; [|reflexivity].
  cbn zeta.
  destruct (retry.RetryOnConflict retry.DefaultBackoff_Steps (patchDefaultPlacement o p)
              (with_store s3 (with_store s2 (with_store s1 st)))) as [[[e|]|] st' evs] eqn:E;
    unfold with_store in *; cbn in *; rewrite E; cbn; rewrite ?app_nil_r; reflexivity.
Qed.

Lemma desiredDefaultPlacement_cases (infraConfig : configv1.Infrastructure)
    (nodes : corev1.NodeList) :
  let status := configv1.Infrastructure_Status infraConfig in
  (singleNodeSingleReplica infraConfig nodes
   /\ match configv1.PlatformStatus_ status with
      | None => desiredDefaultPlacement infraConfig nodes = None
      | Some platformStatus =>
          if String.eqb (configv1.Type_ platformStatus) configv1.NonePlatformType
          then desiredDefaultPlacement infraConfig nodes
               = Some configv1.DefaultPlacementControlPlane
          else desiredDefaultPlacement infraConfig nodes
               = Some configv1.DefaultPlacementWorkers
      end)
  \/ (~ singleNodeSingleReplica infraConfig nodes
      /\ desiredDefaultPlacement infraConfig nodes = Some configv1.DefaultPlacementWorkers).
Proof.
  unfold desiredDefaultPlacement, singleNodeSingleReplica. cbn zeta.
  destruct (Nat.eqb_spec (length (corev1.Items nodes)) 1) as [Hn|Hn];
    [|right; split; [tauto|reflexivity]].
  destruct (String.eqb_spec (configv1.ControlPlaneTopology (configv1.Infrastructure_Status infraConfig))
              configv1.SingleReplicaTopologyMode) as [Hc|Hc];
    [|right; split; [tauto|reflexivity]].
  destruct (String.eqb_spec (configv1.InfrastructureTopology (configv1.Infrastructure_Status infraConfig))
              configv1.SingleReplicaTopologyMode) as [Hi|Hi];
    [|right; split; [tauto|reflexivity]].
  left. split; [tauto|]. cbn.
  destruct (configv1.PlatformStatus_ _) as [ps|]; [|reflexivity].
  destruct (String.eqb _ _); reflexivity.
Qed.

Ltac selection_case :=
  unfold not; intros;
  repeat match goal with
         | H : _ /\ _ |- _ => destruct H
         | H : ex _ |- _ => destruct H
         | H : ?P -> False |- _ =>
             exfalso; apply H; repeat split; try assumption;
             eexists; split; [reflexivity|assumption]
         end;
  first [ congruence
        | tauto
        | repeat split; try assumption; eexists; split; [reflexivity|assumption] ].

(** A run of the retry loop that returns nil contains what a run of [fn]
    that returns nil contains. *)
Lemma OnError_nil_event (P : Event -> Prop) (retriable : error -> bool)
    (fn : M S (option error)) :
  (forall st, value (fn st) = Some None -> exists e, In e (events (fn st)) /\ P e) ->
  forall steps lastErr st,
    lastErr <> None \/ (0 < steps)%nat ->
    value (retry.OnError steps retriable fn lastErr st) = Some None ->
    exists e, In e (events (retry.OnError steps retriable fn lastErr st)) /\ P e.
Proof.
  intros Hfn steps. induction steps as [|n IH]; intros lastErr st Hlast; cbn [retry.OnError].
  - cbn. intros [= H]. destruct Hlast as [Hl|Hl]; [contradiction|lia].
  - unfold bind. specialize (Hfn st).
    destruct (fn st) as [[[e|]|] st1 evs]; cbn in *.
    + destruct (retriable e).
      * assert (Hne : Some e <> None) by discriminate.
        specialize (IH (Some e) st1 (or_introl Hne)).
        destruct (retry.OnError n retriable fn (Some e) st1) as [v st2 evs']; cbn in *.
        intros Hv. destruct (IH Hv) as (x & Hin & Hx).
        exists x. split; [apply in_or_app; right; exact Hin|exact Hx].
      * cbn. discriminate.
    + intros _. destruct (Hfn eq_refl) as (x & Hin & Hx).
      exists x. split; [apply in_or_app; left; exact Hin|exact Hx].
    + discriminate.
Qed.

(** One attempt of the patch: the fetch of the ingress config, and then the
    status patch of what the fetch answered, with the placement set. *)
Lemma patchDefaultPlacement_attempt (o : Operator S) (p : string) st base s4 :
  Get (o_client o) KIngress IngressClusterConfigName (store st) = (inl base, s4) ->
  let patched := Ingress_with_DefaultPlacement p base in
  let answer := StatusPatch (o_client o) KIngress patched base s4 in
  patchDefaultPlacement o p st
  = {| value := Some (fst answer); final := with_store (snd answer) st;
       events := [EGet KIngress IngressClusterConfigName None;
                  EStatusPatch KIngress patched base (fst answer)] |}.
Proof.
  intros HG patched answer. subst patched answer. unfold_program. cbn. rewrite HG. cbn.
  destruct (StatusPatch (o_client o) KIngress _ _ s4) as [err s5]. reflexivity.
Qed.

Lemma patchDefaultPlacement_nil (o : Operator S) (p : string) st :
  value (patchDefaultPlacement o p st) = Some None ->
  exists e, In e (events (patchDefaultPlacement o p st))
            /\ exists base, e = EStatusPatch KIngress (Ingress_with_DefaultPlacement p base)
                                 base None.
Proof.
  destruct (Get (o_client o) KIngress IngressClusterConfigName (store st)) as [[base|e] s4]
    eqn:HG.
  - rewrite (patchDefaultPlacement_attempt o p st base s4 HG). cbn.
    intros [= ->]. eexists. split; [right; left; reflexivity|]. exists base. reflexivity.
  - unfold_program. cbn. rewrite HG. cbn. discriminate.
Qed.

(** C4. Provided Status.PlatformStatus is set whenever the node list has one
    item and both topologies are SingleReplica (so that the platform type
    exists where it is read), the placement handleSingleNode4Dot11Upgrade
    selects is ControlPlane exactly when the node list has one item, both
    topologies are SingleReplica and the platform type is None, and Workers
    for every other combination.  The selection is what the run acts on:
    once the three reads succeeded with the placement not set, the run goes
    on to fetch the ingress config and to send the status patch of what that
    fetch answered with the selected placement set; every status patch of
    the run writes the selected placement; and the run returns nil only
    after such a patch was accepted. *)
Theorem desiredDefaultPlacement_ControlPlane_iff :
  (forall infraConfig nodes,
     (singleNodeSingleReplica infraConfig nodes ->
      configv1.PlatformStatus_ (configv1.Infrastructure_Status infraConfig) <> None) ->
     (desiredDefaultPlacement infraConfig nodes = Some configv1.DefaultPlacementControlPlane
      <-> singleNodeNonePlatform infraConfig nodes)
     /\ (desiredDefaultPlacement infraConfig nodes = Some configv1.DefaultPlacementWorkers
         <-> ~ singleNodeNonePlatform infraConfig nodes))
  /\ (forall (o : Operator S) st infraConfig s1 ingressConfig s2 nodes s3 p,
        Get (o_client o) KInfrastructure InfrastructureClusterConfigName (store st)
        = (inl infraConfig, s1) ->
        Get (o_client o) KIngress IngressClusterConfigName s1 = (inl ingressConfig, s2) ->
        configv1.DefaultPlacement (configv1.Status ingressConfig) = "" ->
        ListNodes (o_client o) s2 = (inl nodes, s3) ->
        desiredDefaultPlacement infraConfig nodes = Some p ->
        Forall (patches p) (events (handleSingleNode4Dot11Upgrade o st)))
  /\ (forall (o : Operator S) st infraConfig s1 ingressConfig s2 nodes s3 p,
        Get (o_client o) KInfrastructure InfrastructureClusterConfigName (store st)
        = (inl infraConfig, s1) ->
        Get (o_client o) KIngress IngressClusterConfigName s1 = (inl ingressConfig, s2) ->
        configv1.DefaultPlacement (configv1.Status ingressConfig) = "" ->
        ListNodes (o_client o) s2 = (inl nodes, s3) ->
        desiredDefaultPlacement infraConfig nodes = Some p ->
        let res := handleSingleNode4Dot11Upgrade o st in
        (forall base s4,
           Get (o_client o) KIngress IngressClusterConfigName s3 = (inl base, s4) ->
           exists rest,
             events res
             = ([EGet KInfrastructure InfrastructureClusterConfigName None;
                 EGet KIngress IngressClusterConfigName None;
                 EList None;
                 EGet KIngress IngressClusterConfigName None;
                 EStatusPatch KIngress (Ingress_with_DefaultPlacement p base) base
                   (fst (StatusPatch (o_client o) KIngress
                           (Ingress_with_DefaultPlacement p base) base s4))]
                ++ rest)%list)
        /\ (value res = Some None ->
            exists base,
              In (EStatusPatch KIngress (Ingress_with_DefaultPlacement p base) base None)
                 (events res))).
Proof.
  split; [|split].
  - intros infraConfig nodes Hpre.
    unfold singleNodeNonePlatform.
    destruct (desiredDefaultPlacement_cases infraConfig nodes) as [[H3 Hd]|[H3 Hd]].
    + specialize (Hpre H3). cbn zeta in *.
      unfold singleNodeSingleReplica in H3; cbn zeta in H3.
      destruct (configv1.PlatformStatus_ _) as [ps|]; [|congruence].
      destruct (String.eqb_spec (configv1.Type_ ps) configv1.NonePlatformType) as [Ht|Ht];
        rewrite Hd; (split; split); try (intros; reflexivity); try (intros; discriminate);
        selection_case.
    + rewrite Hd. unfold singleNodeSingleReplica in H3; cbn zeta in H3.
      (split; split); try (intros; reflexivity); try (intros; discriminate); selection_case.
  - intros o st infraConfig s1 ingressConfig s2 nodes s3 p HG1 HG2 Hdp HL Hsel.
    rewrite (handleSingleNode4Dot11Upgrade_unset o st _ _ _ _ _ _ HG1 HG2 Hdp HL).
    rewrite Hsel. cbn zeta.
    pose proof (OnError_events_Forall (patches p) IsConflict (patchDefaultPlacement o p)
                  (patchDefaultPlacement_patches o p) retry.DefaultBackoff_Steps None
                  (with_store s3 st)) as Hloop.
    fold (retry.RetryOnConflict retry.DefaultBackoff_Steps (patchDefaultPlacement o p)
            (with_store s3 st)) in Hloop.
    destruct (retry.RetryOnConflict _ _ _) as [[[e|]|] st' evs]; cbn in *.
    all: repeat (apply Forall_cons; split; [exact I|]); try assumption.
    apply Forall_app. split; [assumption|repeat constructor].
  - intros o st infraConfig s1 ingressConfig s2 nodes s3 p HG1 HG2 Hdp HL Hsel res.
    subst res.
    rewrite (handleSingleNode4Dot11Upgrade_unset o st _ _ _ _ _ _ HG1 HG2 Hdp HL).
    rewrite Hsel. cbn zeta. split.
    + intros base s4 HG.
      assert (Hloop : exists rest,
                 events (retry.RetryOnConflict retry.DefaultBackoff_Steps
                           (patchDefaultPlacement o p) (with_store s3 st))
                 = ([EGet KIngress IngressClusterConfigName None;
                     EStatusPatch KIngress (Ingress_with_DefaultPlacement p base) base
                       (fst (StatusPatch (o_client o) KIngress
                               (Ingress_with_DefaultPlacement p base) base s4))]
                    ++ rest)%list).
      { unfold retry.RetryOnConflict, retry.DefaultBackoff_Steps. cbn [retry.OnError].
        unfold bind at 1.
        rewrite (patchDefaultPlacement_attempt o p (with_store s3 st) base s4 HG).
        cbv zeta. cbn [value final events].
        match goal with
        | |- context [match ?f ?x with {| value := _; final := _; events := _ |} => _ end] =>
            destruct (f x) as [v st2 evs']
        end.
        exists evs'. reflexivity. }
      destruct Hloop as (rest & Hrest).
      destruct (retry.RetryOnConflict _ _ _) as [[[e|]|] st' evs]; cbn in Hrest |- *;
        rewrite Hrest; eexists; cbn; reflexivity.
    + pose proof (OnError_nil_event
                    (fun e => exists base,
                       e = EStatusPatch KIngress (Ingress_with_DefaultPlacement p base)
                             base None)
                    IsConflict (patchDefaultPlacement o p)
                    (patchDefaultPlacement_nil o p)) as Hloop.
      assert (Hsteps : (0 < retry.DefaultBackoff_Steps)%nat)
        by (unfold retry.DefaultBackoff_Steps; lia).
      specialize (Hloop retry.DefaultBackoff_Steps None (with_store s3 st)
                    (or_intror Hsteps)).
      fold (retry.RetryOnConflict retry.DefaultBackoff_Steps (patchDefaultPlacement o p)
              (with_store s3 st)) in Hloop.
      destruct (retry.RetryOnConflict _ _ _) as [[[e|]|] st' evs]; cbn in Hloop |- *;
        try discriminate.
      intros _. destruct (Hloop eq_refl) as (x & Hin & base & ->).
      exists base. do 3 right. apply in_or_app. left. exact Hin.
Qed.

(** C5. When the ingress config that handleSingleNode4Dot11Upgrade fetches
    has Status.DefaultPlacement set, the run issues no write (no create,
    update, delete or status patch) and does not touch the log level,
    whatever the nodes and the topology are: the nodes are not even listed.
    With the infrastructure config fetched as well it returns nil after the
    two fetches; and when fetches leave the store as it is, the store after
    the call is the store before it. *)
Theorem placement_set_means_no_write (o : Operator S) (st : State S)
    (r1 : obj KInfrastructure + error) (s1 : S) (ingressConfig : configv1.Ingress) (s2 : S) :
  Get (o_client o) KInfrastructure InfrastructureClusterConfigName (store st) = (r1, s1) ->
  Get (o_client o) KIngress IngressClusterConfigName s1 = (inl ingressConfig, s2) ->
  configv1.DefaultPlacement (configv1.Status ingressConfig) <> "" ->
  let res := handleSingleNode4Dot11Upgrade o st in
  Forall (fun e => is_write e = false) (events res)
  /\ CurrentLogLevel (final res) = CurrentLogLevel st
  /\ (forall infraConfig,
        r1 = inl infraConfig ->
        res = {| value := Some None; final := with_store s2 st;
                 events := [EGet KInfrastructure InfrastructureClusterConfigName None;
                            EGet KIngress IngressClusterConfigName None] |})
  /\ ((forall k n s, snd (Get (o_client o) k n s) = s) -> store (final res) = store st).
Proof.
  intros HG1 HG2 Hdp res. subst res.
  apply String.eqb_neq in Hdp.
  unfold handleSingleNode4Dot11Upgrade, bind, client_Get, client_List, deref, ret, panic.
  rewrite HG1. destruct r1 as [infraConfig|e]; cbn.
  - rewrite HG2. cbn. rewrite Hdp. cbn.
    split; [repeat constructor|]. split; [reflexivity|]. split; [reflexivity|].
    intros Hro. pose proof (Hro KInfrastructure InfrastructureClusterConfigName (store st)) as E1.
    pose proof (Hro KIngress IngressClusterConfigName s1) as E2.
    rewrite HG1 in E1. rewrite HG2 in E2. cbn in *. congruence.
  - split; [repeat constructor|]. split; [reflexivity|]. split; [discriminate|].
    intros Hro. pose proof (Hro KInfrastructure InfrastructureClusterConfigName (store st)) as E1.
    rewrite HG1 in E1. exact E1.
Qed.

(** C10. The dereference of Status.PlatformStatus in
    handleSingleNode4Dot11Upgrade has no nil check and is reached exactly
    when the node list has one item and both topologies are SingleReplica:
    the selection panics exactly when those three conditions hold and
    PlatformStatus is nil, and a run of the function panics exactly when its
    three reads succeed, the placement is not set, and the infrastructure
    config and the nodes it read are such.  So under the precondition that
    PlatformStatus is set whenever the three conditions hold, the function
    returns. *)
Theorem PlatformStatus_dereference_is_guarded :
  (forall infraConfig nodes,
     desiredDefaultPlacement infraConfig nodes = None
     <-> singleNodeSingleReplica infraConfig nodes
         /\ configv1.PlatformStatus_ (configv1.Infrastructure_Status infraConfig) = None)
  /\ (forall (o : Operator S) st,
        value (handleSingleNode4Dot11Upgrade o st) = None
        <-> exists infraConfig s1 ingressConfig s2 nodes s3,
              Get (o_client o) KInfrastructure InfrastructureClusterConfigName (store st)
              = (inl infraConfig, s1)
              /\ Get (o_client o) KIngress IngressClusterConfigName s1 = (inl ingressConfig, s2)
              /\ configv1.DefaultPlacement (configv1.Status ingressConfig) = ""
              /\ ListNodes (o_client o) s2 = (inl nodes, s3)
              /\ singleNodeSingleReplica infraConfig nodes
              /\ configv1.PlatformStatus_ (configv1.Infrastructure_Status infraConfig) = None)
  /\ (forall (o : Operator S) st,
        (forall infraConfig s1 nodes,
           Get (o_client o) KInfrastructure InfrastructureClusterConfigName (store st)
           = (inl infraConfig, s1) ->
           singleNodeSingleReplica infraConfig nodes ->
           configv1.PlatformStatus_ (configv1.Infrastructure_Status infraConfig) <> None) ->
        exists err, value (handleSingleNode4Dot11Upgrade o st) = Some err).
Proof.
  clear DetermineReplicas.
  assert (Hsel : forall infraConfig nodes,
     desiredDefaultPlacement infraConfig nodes = None
     <-> singleNodeSingleReplica infraConfig nodes
         /\ configv1.PlatformStatus_ (configv1.Infrastructure_Status infraConfig) = None).
  { intros infraConfig nodes.
    destruct (desiredDefaultPlacement_cases infraConfig nodes) as [[H3 Hd]|[H3 Hd]].
    - cbn zeta in Hd. destruct (configv1.PlatformStatus_ _) as [ps|].
      + destruct (String.eqb _ _); rewrite Hd; split; [discriminate| |discriminate|];
          intros [_ ?]; discriminate.
      + rewrite Hd. tauto.
    - rewrite Hd. split; [discriminate|]. intros [? _]. contradiction. }
  assert (Hrun : forall (o : Operator S) st,
        value (handleSingleNode4Dot11Upgrade o st) = None
        <-> exists infraConfig s1 ingressConfig s2 nodes s3,
              Get (o_client o) KInfrastructure InfrastructureClusterConfigName (store st)
              = (inl infraConfig, s1)
              /\ Get (o_client o) KIngress IngressClusterConfigName s1 = (inl ingressConfig, s2)
              /\ configv1.DefaultPlacement (configv1.Status ingressConfig) = ""
              /\ ListNodes (o_client o) s2 = (inl nodes, s3)
              /\ singleNodeSingleReplica infraConfig nodes
              /\ configv1.PlatformStatus_ (configv1.Infrastructure_Status infraConfig) = None).
  { intros o st. split.
    - destruct (Get (o_client o) KInfrastructure InfrastructureClusterConfigName (store st))
        as [[infraConfig|e] s1] eqn:HG1.
      2: { unfold handleSingleNode4Dot11Upgrade, bind, client_Get, ret. rewrite HG1. cbn.
           discriminate. }
      destruct (Get (o_client o) KIngress IngressClusterConfigName s1)
        as [[ingressConfig|e] s2] eqn:HG2.
      2: { unfold handleSingleNode4Dot11Upgrade, bind, client_Get, ret. rewrite HG1. cbn.
           rewrite HG2. cbn. discriminate. }
      destruct (String.eqb_spec (configv1.DefaultPlacement (configv1.Status ingressConfig)) "")
        as [Hdp|Hdp].
      2: { apply String.eqb_neq in Hdp.
           unfold handleSingleNode4Dot11Upgrade, bind, client_Get, ret. rewrite HG1. cbn.
           rewrite HG2. cbn. rewrite Hdp. cbn. discriminate. }
      destruct (ListNodes (o_client o) s2) as [[nodes|e] s3] eqn:HL.
      2: { unfold handleSingleNode4Dot11Upgrade, bind, client_Get, client_List, ret.
           rewrite HG1. cbn. rewrite HG2. cbn. rewrite Hdp. cbn. rewrite HL. cbn. discriminate. }
      rewrite (handleSingleNode4Dot11Upgrade_unset o st _ _ _ _ _ _ HG1 HG2 Hdp HL).
      destruct (desiredDefaultPlacement infraConfig nodes) as [p|] eqn:Hd.
      + cbn zeta.
        pose proof (OnError_total IsConflict (patchDefaultPlacement o p)
                      (patchDefaultPlacement_total o p) retry.DefaultBackoff_Steps None
                      (with_store s3 st)) as Hloop.
        fold (retry.RetryOnConflict retry.DefaultBackoff_Steps (patchDefaultPlacement o p)
                (with_store s3 st)) in Hloop.
        destruct (retry.RetryOnConflict _ _ _) as [[[e|]|] st' evs]; cbn in Hloop |- *;
          try discriminate. congruence.
      + intros _. apply Hsel in Hd. destruct Hd as [H3 Hps].
        exists infraConfig, s1, ingressConfig, s2, nodes, s3. tauto.
    - intros (infraConfig & s1 & ingressConfig & s2 & nodes & s3 & HG1 & HG2 & Hdp & HL & H3 & Hps).
      rewrite (handleSingleNode4Dot11Upgrade_unset o st _ _ _ _ _ _ HG1 HG2 Hdp HL).
      replace (desiredDefaultPlacement infraConfig nodes) with (@None string)
        by (symmetry; apply Hsel; tauto).
      reflexivity. }
  split; [exact Hsel|]. split; [exact Hrun|].
  intros o st Hpre.
  destruct (value (handleSingleNode4Dot11Upgrade o st)) as [err|] eqn:Hv; [eauto|].
  apply Hrun in Hv.
  destruct Hv as (infraConfig & s1 & ingressConfig & s2 & nodes & s3 & HG1 & _ & _ & _ & H3 & Hps).
  exfalso. exact (Hpre infraConfig s1 nodes HG1 H3 Hps).
Qed.

(** ** Further properties *)

(** *** The install plan *)

Lemma names_version_In (p : installplan.InstallPlan) :
  names_version p = true
  <-> In serviceMeshOperatorDesiredVersion
         (installplan.ClusterServiceVersionNames (installplan.Spec p)).
Proof.
  unfold names_version. rewrite List.existsb_exists. split.
  - intros (x & Hin & Heq). apply String.eqb_eq in Heq. subst. exact Hin.
  - intros Hin. exists serviceMeshOperatorDesiredVersion. split; [exact Hin|].
    apply String.eqb_refl.
Qed.

Lemma find_first {A} (P : A -> bool) (l : list A) (x : A) :
  List.find P l = Some x ->
  exists before after,
    l = (before ++ x :: after)%list /\ P x = true /\ Forall (fun q => P q = false) before.
Proof.
  induction l as [|a l IH]; cbn; [discriminate|].
  destruct (P a) eqn:Ha.
  - intros [= <-]. exists [], l. repeat split; [exact Ha|constructor].
  - intros H. destruct (IH H) as (before & after & -> & Hx & Hb).
    exists (a :: before), after. repeat split; [exact Hx|constructor; assumption].
Qed.

Lemma find_none_Forall {A} (P : A -> bool) (l : list A) :
  List.find P l = None -> Forall (fun q => P q = false) l.
Proof.
  induction l as [|a l IH]; cbn; [constructor|].
  destruct (P a) eqn:Ha; [discriminate|]. intros H. constructor; auto.
Qed.

(** X1. Of the listed install plans getCurrentInstallPlan returns the first,
    in the order of the list, that names the desired version: every plan
    before it does not.  It returns neither plan nor error when the list is
    empty, and an error when the list is not empty and no plan names the
    version. *)
Theorem getCurrentInstallPlan_first_match (c : installplan.Client S) (s : S)
    (plans : installplan.InstallPlanList) (s1 : S) :
  installplan.List c serviceMeshOperatorNamespace s = (inl plans, s1) ->
  match fst (fst (getCurrentInstallPlan c s)) with
  | (Some p, None) =>
      exists before after,
        installplan.Items plans = (before ++ p :: after)%list
        /\ names_version p = true
        /\ Forall (fun q => names_version q = false) before
  | (None, None) => installplan.Items plans = []
  | (None, Some e) =>
      installplan.Items plans <> []
      /\ Forall (fun q => names_version q = false) (installplan.Items plans)
      /\ e = errorString ("No InstallPlan with cluster service version "
                          +:+ serviceMeshOperatorDesiredVersion +:+ " found")
  | (Some _, Some _) => False
  end.
Proof.
  intros HL. unfold getCurrentInstallPlan. rewrite HL.
  destruct (installplan.Items plans) as [|p0 l] eqn:Hitems; cbn [length Nat.eqb]; [reflexivity|].
  destruct (List.find names_version (p0 :: l)) as [p|] eqn:Hfind; cbn [fst].
  - apply find_first in Hfind. exact Hfind.
  - split; [discriminate|]. split; [apply find_none_Forall; exact Hfind|reflexivity].
Qed.

(** X2. ensureServiceMeshOperatorInstallPlan issues at most one Update, and
    the plan it sends is a listed plan that names the desired version and
    was not approved, with Approved set and nothing else changed. *)
Theorem ensureServiceMeshOperatorInstallPlan_approves_listed (c : installplan.Client S) (s : S) :
  let calls := snd (ensureServiceMeshOperatorInstallPlan c s) in
  (length (List.filter installplan.is_update calls) <= 1)%nat
  /\ forall p err,
       In (installplan.CUpdate p err) calls ->
       exists plans s1 q,
         installplan.List c serviceMeshOperatorNamespace s = (inl plans, s1)
         /\ In q (installplan.Items plans)
         /\ In serviceMeshOperatorDesiredVersion
              (installplan.ClusterServiceVersionNames (installplan.Spec q))
         /\ installplan.Approved (installplan.Spec q) = false
         /\ p = installplan.with_Approved true q.
Proof.
  unfold ensureServiceMeshOperatorInstallPlan, getCurrentInstallPlan.
  destruct (installplan.List c serviceMeshOperatorNamespace s) as [[plans|e] s1] eqn:HL; cbn.
  2: { split; [lia|]. intros p err [H|[]]. discriminate. }
  destruct (Nat.eqb (length (installplan.Items plans)) 0); cbn.
  { split; [lia|]. intros p err [H|[]]. discriminate. }
  destruct (List.find names_version (installplan.Items plans)) as [q|] eqn:Hfind; cbn.
  2: { split; [lia|]. intros p err [H|[]]. discriminate. }
  destruct (installplan.Approved (installplan.Spec q)) eqn:Happ; cbn.
  { split; [lia|]. intros p err [H|[]]. discriminate. }
  destruct (installplan.Update c (installplan.with_Approved true q) s1) as [[w|e] s2]; cbn.
  all: split; [lia|]; intros p err [H|[H|[]]]; [discriminate|]; injection H as <- _.
  all: apply find_first in Hfind; destruct Hfind as (before & after & Hl & Hq & _).
  all: exists plans, s1, q; repeat split; try assumption; try reflexivity.
  all: try (rewrite Hl; apply in_or_app; right; left; reflexivity).
  all: apply names_version_In; exact Hq.
Qed.

(** X3. The first plan that names the desired version decides: when it is
    approved already, ensureServiceMeshOperatorInstallPlan updates nothing
    and returns it with false, whatever the plans after it are; and the
    function returns true exactly when it issued an Update that succeeded. *)
Theorem ensureServiceMeshOperatorInstallPlan_first_decides (c : installplan.Client S) (s : S) :
  (forall plans s1 before p after,
     installplan.List c serviceMeshOperatorNamespace s = (inl plans, s1) ->
     installplan.Items plans = (before ++ p :: after)%list ->
     Forall (fun q => names_version q = false) before ->
     names_version p = true ->
     installplan.Approved (installplan.Spec p) = true ->
     ensureServiceMeshOperatorInstallPlan c s
     = ((false, Some p, None), s1, [installplan.CList serviceMeshOperatorNamespace None]))
  /\ (fst (fst (fst (fst (ensureServiceMeshOperatorInstallPlan c s)))) = true
      <-> exists p, In (installplan.CUpdate p None)
                      (snd (ensureServiceMeshOperatorInstallPlan c s))).
Proof.
  split.
  - intros plans s1 before p after HL Hitems Hbefore Hp Happ.
    unfold ensureServiceMeshOperatorInstallPlan, getCurrentInstallPlan. rewrite HL, Hitems.
    replace (Nat.eqb (length (before ++ p :: after)) 0) with false
      by (rewrite length_app; cbn; symmetry; apply Nat.eqb_neq; lia).
    assert (Hfind : List.find names_version (before ++ p :: after) = Some p).
    { clear Hitems. induction Hbefore as [|q before Hq _ IH]; cbn.
      - rewrite Hp. reflexivity.
      - rewrite Hq. exact IH. }
    rewrite Hfind. cbn. rewrite Happ. reflexivity.
  - unfold ensureServiceMeshOperatorInstallPlan, getCurrentInstallPlan.
    destruct (installplan.List c serviceMeshOperatorNamespace s) as [[plans|e] s1]; cbn.
    2: { split; [discriminate|]. intros (p & [H|[]]). discriminate. }
    destruct (Nat.eqb (length (installplan.Items plans)) 0); cbn.
    { split; [discriminate|]. intros (p & [H|[]]). discriminate. }
    destruct (List.find names_version (installplan.Items plans)) as [q|]; cbn.
    2: { split; [discriminate|]. intros (p & [H|[]]). discriminate. }
    destruct (installplan.Approved (installplan.Spec q)); cbn.
    { split; [discriminate|]. intros (p & [H|[]]). discriminate. }
    destruct (installplan.Update c (installplan.with_Approved true q) s1) as [[w|e] s2]; cbn.
    + split; [|reflexivity]. intros _. eexists. right. left. reflexivity.
    + split; [discriminate|]. intros (p & [H|[H|[]]]); discriminate.
Qed.

(** *** What a successful ensure returns *)

(** X4. Against a store that no other actor writes to, a call of
    ensureTrustedCAConfigMap that returns no error returns true and a
    configmap that carries the label, and that configmap is what the store
    answers to a fetch of the name when the call ends. *)
Theorem ensureTrustedCAConfigMap_returns_labelled (r : reconciler S) (st : State S)
    (have : bool) (cm : option corev1.ConfigMap) :
  StoreCoherent (r_client r) ->
  let res := ensureTrustedCAConfigMap r st in
  value res = Some (have, cm, None) ->
  have = true
  /\ exists cm',
       cm = Some cm' /\ labelled cm' = true
       /\ settled (r_client r) KConfigMap TrustedCAConfigMapName (eq cm') (store (final res)).
Proof.
  intros Hc res. subst res. revert have cm. run.
  all: intros have cm H; simplify_eq.
  all: reads_leave_store Hc; use_coherence Hc; unfold settled.
  all: try congruence.
  all: keyed_by TrustedCAConfigMapName.
  all: split; [reflexivity|]; eexists; split; [reflexivity|];
    split; [|eexists; split; [eassumption|reflexivity]].
  all: try assumption.
  all: apply entry_labelled; apply Hkeeps; split_ifs; cbn.
  all: first [apply lookup_insert_eq | apply lookup_singleton_eq].
Qed.

(** X5. Against a store that no other actor writes to, a call of
    ensureServiceMeshOperatorSubscription that returns no error returns true
    and a subscription whose spec cmp.Equal finds equal to the desired one,
    and that subscription is what the store answers to a fetch of the name
    when the call ends. *)
Theorem ensureServiceMeshOperatorSubscription_returns_desired (r : reconciler S) (st : State S)
    (have : bool) (sub : option operatorsv1alpha1.Subscription)
    (desired : operatorsv1alpha1.Subscription) :
  StoreCoherent (r_client r) ->
  desiredSubscription ServiceMeshSubscriptionName = (Some desired, None) ->
  let res := ensureServiceMeshOperatorSubscription r st in
  value res = Some (have, sub, None) ->
  have = true
  /\ exists sub',
       sub = Some sub'
       /\ cmp.EqualSpec (operatorsv1alpha1.Spec sub') (operatorsv1alpha1.Spec desired) = true
       /\ settled (r_client r) KSubscription ServiceMeshSubscriptionName (eq sub')
            (store (final res)).
Proof.
  intros Hc Hd res. subst res. unfold desiredSubscription in Hd. injection Hd as <-.
  revert have sub. run.
  all: intros have sub H; simplify_eq.
  all: reads_leave_store Hc; use_coherence Hc; unfold settled.
  all: keyed_by ServiceMeshSubscriptionName.
  all: split; [reflexivity|]; eexists; split; [reflexivity|];
    split; [|eexists; split; [eassumption|reflexivity]].
  all: try assumption.
  all: cbn in Hkeeps; rewrite Hkeeps; apply EqualSpec_refl.
Qed.

(** *** What the ensure functions never do *)

(** X6. With any client and from any state, one call of an ensure function
    issues at most one write: a create or an update, never both, and never
    a second attempt. *)
Theorem ensure_writes_at_most_once :
  (forall (r : reconciler S) st,
     (length (List.filter is_write (events (ensureTrustedCAConfigMap r st))) <= 1)%nat)
  /\ (forall (r : reconciler S) st,
        (length (List.filter is_write (events (ensureServiceMeshOperatorSubscription r st)))
         <= 1)%nat)
  /\ (forall (o : Operator S) infraConfig ingressConfig st,
        (length (List.filter is_write
                   (events (ensureDefaultIngressController o infraConfig ingressConfig st)))
         <= 1)%nat).
Proof.
  split; [|split]; intros; run; cbn; lia.
Qed.

(** X7. ensureDefaultIngressController only ever creates: no run of it
    issues an update, a delete or a patch, and when the fetch finds an
    ingresscontroller, whatever its spec, the fetch is the whole run and the
    store is written by no call. *)
Theorem ensureDefaultIngressController_only_creates (o : Operator S)
    (infraConfig : configv1.Infrastructure) (ingressConfig : configv1.Ingress) (st : State S) :
  let name := {| types.Namespace := namespace o; types.Name := DefaultIngressControllerName |} in
  let res := ensureDefaultIngressController o infraConfig ingressConfig st in
  Forall (fun e => verb e = VGet \/ verb e = VCreate \/ verb e = VLog) (events res)
  /\ forall ic s1,
       Get (o_client o) KIngressController name (store st) = (inl ic, s1) ->
       res = {| value := Some None; final := with_store s1 st;
                events := [EGet KIngressController name None] |}.
Proof.
  intros name res. subst res. split.
  - run; repeat (constructor; [cbn; auto|]); constructor.
  - intros ic s1 HG. unfold_program. cbn. fold name. rewrite HG. reflexivity.
Qed.

(** X8. What ensureDefaultIngressController sends to Create is the
    ingresscontroller built from its two arguments and nothing else; that
    ingresscontroller is named as asked and always has its replicas set (to what
    DetermineReplicas answers, never nil).  It has an endpoint publishing
    strategy exactly when the ingress config's platform is AWS with an AWS
    section of type NLB, and the strategy is then an external
    LoadBalancerService with the AWS network load balancer. *)
Theorem defaultIngressController_shape (name : types.NamespacedName)
    (infraConfig : configv1.Infrastructure) (ingressConfig : configv1.Ingress) :
  let ic := defaultIngressController name infraConfig ingressConfig in
  let platform := configv1.Platform (configv1.LoadBalancer_ (configv1.Spec ingressConfig)) in
  (forall (o : Operator S) st,
     Forall (fun e => match e with
                      | ECreate k x _ =>
                          match k return obj k -> Prop with
                          | KIngressController => fun x =>
                              x = defaultIngressController
                                    {| types.Namespace := namespace o;
                                       types.Name := DefaultIngressControllerName |}
                                    infraConfig ingressConfig
                          | _ => fun _ => False
                          end x
                      | _ => True
                      end)
            (events (ensureDefaultIngressController o infraConfig ingressConfig st)))
  /\ metav1.key (operatorv1.ObjectMeta ic) = name
  /\ operatorv1.Replicas (operatorv1.Spec ic)
     = Some (DetermineReplicas ingressConfig infraConfig)
  /\ (operatorv1.EndpointPublishingStrategy_ (operatorv1.Spec ic) <> None
      <-> configv1.Platform_Type platform = configv1.AWSPlatformType
          /\ exists aws, configv1.AWS platform = Some aws
                         /\ configv1.AWS_Type aws = configv1.NLB)
  /\ forall strategy,
       operatorv1.EndpointPublishingStrategy_ (operatorv1.Spec ic) = Some strategy ->
       strategy
       = {| operatorv1.Strategy_Type := operatorv1.LoadBalancerServiceStrategyType;
            operatorv1.LoadBalancer :=
              Some {| operatorv1.Scope := "External";
                      operatorv1.ProviderParameters :=
                        Some {| operatorv1.Provider_Type := operatorv1.AWSLoadBalancerProvider;
                                operatorv1.AWS :=
                                  Some {| operatorv1.AWS_Type :=
                                            operatorv1.AWSNetworkLoadBalancer |} |} |} |}.
Proof.
  intros ic platform. subst ic.
  split; [intros o st; run; repeat constructor|].
  split; [apply defaultIngressController_key|].
  unfold defaultIngressController. fold platform.
  destruct (String.eqb_spec (configv1.Platform_Type platform) configv1.AWSPlatformType)
    as [Ht|Ht].
  - destruct (configv1.AWS platform) as [aws|] eqn:Haws.
    + destruct (String.eqb_spec (configv1.AWS_Type aws) configv1.NLB) as [Hn|Hn]; cbn.
      * split; [reflexivity|]. split.
        -- split; [|discriminate]. intros _. split; [exact Ht|]. exists aws. auto.
        -- intros strategy [= <-]. reflexivity.
      * split; [reflexivity|]. split; [|discriminate].
        split; [congruence|]. intros (_ & aws' & [= <-] & Hn'). contradiction.
    + cbn. split; [reflexivity|]. split; [|discriminate].
      split; [congruence|]. intros (_ & aws' & H & _). discriminate.
  - cbn. split; [reflexivity|]. split; [|discriminate].
    split; [congruence|]. intros (Ht' & _). contradiction.
Qed.

(** X9. What an update function sends passes its own comparison: the
    subscription subscriptionChanged returns compares as unchanged against
    the expected one, and every configmap updateTrustedCAConfigMap sends to
    Update carries the label, so on a store that keeps what it is sent the
    next comparison reports no change. *)
Theorem updated_object_compares_unchanged :
  (forall current expected updated,
     subscriptionChanged current expected = (true, Some updated) ->
     subscriptionChanged updated expected = (false, None))
  /\ (forall (r : reconciler S) current desired st,
        Forall (fun e => match e with
                         | EUpdate k o _ =>
                             match k return obj k -> Prop with
                             | KConfigMap => fun cm => labelled cm = true
                             | _ => fun _ => False
                             end o
                         | _ => True
                         end)
               (events (updateTrustedCAConfigMap r current desired st))).
Proof.
  split.
  - intros current expected updated. unfold subscriptionChanged.
    destruct (cmp.EqualSpec (operatorsv1alpha1.Spec current) _); [discriminate|].
    intros [= <-]. cbn. rewrite EqualSpec_refl. reflexivity.
  - intros r current desired st. run; repeat constructor.
    all: apply entry_labelled; cbn; apply lookup_insert_eq.
Qed.

(** *** Errors *)

(** X10. When the update of the configmap is answered with AlreadyExists,
    ensureTrustedCAConfigMap stops there and returns success: the run is
    the fetch and that update, and the function returns true, the configmap
    the fetch answered, which does not carry the label, and no error. *)
Theorem update_AlreadyExists_is_success (r : reconciler S) (st : State S)
    (call : Event) (e : error) :
  let res := ensureTrustedCAConfigMap r st in
  In call (events res) -> verb call = VUpdate -> failed call = Some e ->
  IsAlreadyExists e = true ->
  (exists pre, events res = (pre ++ [call])%list)
  /\ exists current s1,
       Get (r_client r) KConfigMap TrustedCAConfigMapName (store st) = (inl current, s1)
       /\ events res = [EGet KConfigMap TrustedCAConfigMapName None; call]
       /\ value res = Some (true, Some current, None)
       /\ labelled current = false.
Proof.
  intros res. subst res. run.
  all: intros Hin; each_event Hin; cbn in *; intros; simplify_eq; try congruence.
  all: split; [last_event|]; eexists; eexists; split; [reflexivity|];
    split; [reflexivity|]; split; [reflexivity|assumption].
Qed.

(** X11. An error that ensureServiceMeshOperatorSubscription returns wraps
    the error of the last store call of the run, so errors.Is-style tests
    (IsNotFound, IsConflict, IsAlreadyExists) see through it.  An error that
    ensureTrustedCAConfigMap returns is the error of its last store call
    when that call is a fetch; when that call is a write it is a new error
    with no inner error, whose message ends with the store error's message
    and whose reason is unknown, so a Conflict on its update is not
    recognised by IsConflict. *)
Theorem returned_error_origin :
  (forall (r : reconciler S) st err,
     let res := ensureServiceMeshOperatorSubscription r st in
     error_of (value res) = Some err ->
     exists e,
       failed (List.last (events res) (ELog "")) = Some e
       /\ Unwrap err = Some e
       /\ ReasonForError err = ReasonForError e)
  /\ (forall (r : reconciler S) st err,
        let res := ensureTrustedCAConfigMap r st in
        let call := List.last (events res) (ELog "") in
        error_of (value res) = Some err ->
        exists e,
          failed call = Some e
          /\ (verb call = VGet -> err = e)
          /\ (verb call <> VGet ->
              (exists prefix, err = errorString (prefix +:+ Error e))
              /\ Unwrap err = None
              /\ IsConflict err = false /\ IsNotFound err = false
              /\ IsAlreadyExists err = false)).
Proof.
  split.
  - intros r st err res. subst res. run.
    all: cbn; intros H; simplify_eq.
    all: eexists; split; [reflexivity|split; reflexivity].
  - intros r st err res call. subst call res. run.
    all: cbn; intros H; simplify_eq.
    all: eexists; split; [reflexivity|]; split; [intros Hv; try discriminate Hv; reflexivity|].
    all: intros Hv; try (exfalso; apply Hv; reflexivity).
    all: split; [eexists; reflexivity|repeat split].
Qed.

(** *** handleSingleNode4Dot11Upgrade *)

Lemma desiredDefaultPlacement_values infraConfig nodes p :
  desiredDefaultPlacement infraConfig nodes = Some p ->
  p = configv1.DefaultPlacementControlPlane \/ p = configv1.DefaultPlacementWorkers.
Proof.
  unfold desiredDefaultPlacement.
  destruct (_ && _); [|intros [= <-]; auto].
  destruct (configv1.PlatformStatus_ _) as [ps|]; [|discriminate].
  destruct (String.eqb _ _); intros [= <-]; auto.
Qed.

(** Every event of a run of handleSingleNode4Dot11Upgrade satisfies [P] when
    reads, lists, logs and the patches of the two placements do. *)
Lemma handleSingleNode4Dot11Upgrade_events (P : Event -> Prop) (o : Operator S) (st : State S) :
  (forall k n e, P (EGet k n e)) ->
  (forall e, P (EList e)) ->
  (forall m, P (ELog m)) ->
  (forall p base err,
     p = configv1.DefaultPlacementControlPlane \/ p = configv1.DefaultPlacementWorkers ->
     P (EStatusPatch KIngress (Ingress_with_DefaultPlacement p base) base err)) ->
  Forall P (events (handleSingleNode4Dot11Upgrade o st)).
Proof.
  intros HGet HList HLog HPatch.
  destruct (Get (o_client o) KInfrastructure InfrastructureClusterConfigName (store st))
    as [[infraConfig|e] s1] eqn:HG1.
  2: { unfold handleSingleNode4Dot11Upgrade, bind, client_Get, ret. rewrite HG1. cbn.
       repeat constructor; auto. }
  destruct (Get (o_client o) KIngress IngressClusterConfigName s1)
    as [[ingressConfig|e] s2] eqn:HG2.
  2: { unfold handleSingleNode4Dot11Upgrade, bind, client_Get, ret. rewrite HG1. cbn.
       rewrite HG2. cbn. repeat constructor; auto. }
  destruct (String.eqb_spec (configv1.DefaultPlacement (configv1.Status ingressConfig)) "")
    as [Hdp|Hdp].
  2: { apply String.eqb_neq in Hdp.
       unfold handleSingleNode4Dot11Upgrade, bind, client_Get, ret. rewrite HG1. cbn.
       rewrite HG2. cbn. rewrite Hdp. cbn. repeat constructor; auto. }
  destruct (ListNodes (o_client o) s2) as [[nodes|e] s3] eqn:HL.
  2: { unfold handleSingleNode4Dot11Upgrade, bind, client_Get, client_List, ret.
       rewrite HG1. cbn. rewrite HG2. cbn. rewrite Hdp. cbn. rewrite HL. cbn.
       repeat constructor; auto. }
  rewrite (handleSingleNode4Dot11Upgrade_unset o st _ _ _ _ _ _ HG1 HG2 Hdp HL).
  destruct (desiredDefaultPlacement infraConfig nodes) as [p|] eqn:Hd;
    [|repeat constructor; auto].
  apply desiredDefaultPlacement_values in Hd. cbn zeta.
  assert (Hfn : forall st', Forall P (events (patchDefaultPlacement o p st'))).
  { intros st'. unfold_program. cbn.
    destruct (Get (o_client o) KIngress IngressClusterConfigName (store st')) as [[ing|e] s1'];
      cbn; [|repeat constructor; auto].
    destruct (StatusPatch (o_client o) KIngress _ _ s1') as [err s2']; cbn.
    repeat constructor; auto. }
  pose proof (OnError_events_Forall P IsConflict (patchDefaultPlacement o p) Hfn
                retry.DefaultBackoff_Steps None (with_store s3 st)) as Hloop.
  fold (retry.RetryOnConflict retry.DefaultBackoff_Steps (patchDefaultPlacement o p)
          (with_store s3 st)) in Hloop.
  destruct (retry.RetryOnConflict _ _ _) as [[[e|]|] st' evs]; cbn in Hloop |- *.
  all: repeat (constructor; [auto|]); try assumption.
  apply Forall_app. split; [assumption|repeat constructor; auto].
Qed.

Lemma replay_end_app (c : Client S) evs1 evs2 : forall s fetched,
  replay_end c s fetched (evs1 ++ evs2)
  = replay_end c (fst (replay_end c s fetched evs1)) (snd (replay_end c s fetched evs1)) evs2.
Proof.
  induction evs1 as [|e evs1 IH]; intros s fetched; [reflexivity|].
  destruct e; cbn; apply IH.
Qed.

Lemma patches_what_it_fetched_app (c : Client S) evs1 evs2 : forall s fetched,
  patches_what_it_fetched c s fetched evs1 ->
  patches_what_it_fetched c (fst (replay_end c s fetched evs1))
    (snd (replay_end c s fetched evs1)) evs2 ->
  patches_what_it_fetched c s fetched (evs1 ++ evs2).
Proof.
  induction evs1 as [|e evs1 IH]; intros s fetched H1 H2; [exact H2|].
  destruct e; cbn in *; try contradiction.
  - destruct H1 as [He H1]. split; [exact He|]. apply IH; assumption.
  - destruct H1 as [He H1]. split; [exact He|]. apply IH; assumption.
  - destruct H1 as (Hk & He & H1). split; [exact Hk|]. split; [exact He|].
    apply IH; assumption.
  - apply IH; assumption.
Qed.

Lemma bind_replays {A B} (c : Client S) (m : M S A) (f : A -> M S B) :
  replays c m ->
  (forall a st, value (m st) = Some a -> replays c (f a)) ->
  replays c (bind m f).
Proof.
  intros Hm Hf st fetched. unfold bind.
  destruct (Hm st fetched) as [Hp He].
  assert (Hf' : forall a, value (m st) = Some a -> replays c (f a))
    by (intros a Ha; exact (Hf a st Ha)).
  clear Hf.
  destruct (m st) as [[a|] st1 evs]; cbn in *; [|split; assumption].
  specialize (Hf' a eq_refl st1 (snd (replay_end c (store st) fetched evs))).
  rename Hf' into Hf.
  destruct (f a st1) as [v st2 evs']; cbn in *. destruct Hf as [Hp' He'].
  split.
  - apply patches_what_it_fetched_app; [exact Hp|]. rewrite He. exact Hp'.
  - rewrite replay_end_app, He. exact He'.
Qed.

Lemma ret_replays {A} (c : Client S) (a : A) : replays c (ret a).
Proof. intros st fetched. split; [exact I|reflexivity]. Qed.

Lemma client_Get_replays (c : Client S) k n : replays c (client_Get c k n).
Proof.
  intros st fetched. unfold client_Get. cbn.
  destruct (Get c k n (store st)) as [r s1] eqn:E. cbn. unfold fetched_then.
  rewrite E. repeat split.
Qed.

Lemma client_List_replays (c : Client S) : replays c (client_List c).
Proof.
  intros st fetched. unfold client_List. cbn.
  destruct (ListNodes c (store st)) as [r s1] eqn:E. cbn. rewrite E. repeat split.
Qed.

Lemma patchDefaultPlacement_replays (o : Operator S) (p : string) :
  p = configv1.DefaultPlacementControlPlane \/ p = configv1.DefaultPlacementWorkers ->
  replays (o_client o) (patchDefaultPlacement o p).
Proof.
  intros Hp st fetched.
  destruct (Get (o_client o) KIngress IngressClusterConfigName (store st)) as [[ing|e] s1]
    eqn:HG.
  - rewrite (patchDefaultPlacement_attempt o p st ing s1 HG). cbn.
    unfold fetched_then. rewrite HG. cbn.
    destruct Hp as [-> | ->]; repeat split; auto.
  - unfold_program. cbn. rewrite HG. cbn. rewrite HG. repeat split.
Qed.

Lemma OnError_replays (c : Client S) (retriable : error -> bool) (fn : M S (option error)) :
  replays c fn ->
  forall steps lastErr, replays c (retry.OnError steps retriable fn lastErr).
Proof.
  intros Hfn steps. induction steps as [|n IH]; intros lastErr; cbn [retry.OnError].
  - apply ret_replays.
  - apply bind_replays; [exact Hfn|].
    intros [e|] st _; [|apply ret_replays].
    destruct (retriable e); [apply IH|apply ret_replays].
Qed.

Lemma handleSingleNode4Dot11Upgrade_replays (o : Operator S) :
  replays (o_client o) (handleSingleNode4Dot11Upgrade o).
Proof.
  unfold handleSingleNode4Dot11Upgrade.
  apply bind_replays; [apply client_Get_replays|].
  intros [infraConfig|e] st1 _; [|apply ret_replays]. cbn zeta.
  apply bind_replays; [apply client_Get_replays|].
  intros [ingressConfig|e] st2 _; [|apply ret_replays].
  destruct (negb _); [apply ret_replays|].
  apply bind_replays; [apply client_List_replays|].
  intros [nodes|e] st3 _; [|apply ret_replays].
  destruct (desiredDefaultPlacement infraConfig nodes) as [p|] eqn:Hd.
  - apply desiredDefaultPlacement_values in Hd.
    apply bind_replays; [apply ret_replays|].
    intros desired st4 [= <-].
    apply bind_replays;
      [apply OnError_replays; apply patchDefaultPlacement_replays; exact Hd|].
    intros [e|] st5 _; [apply ret_replays|].
    apply bind_replays; [|intros; apply ret_replays].
    intros st fetched. split; [exact I|reflexivity].
  - apply bind_replays; [|intros a st4 [=]].
    intros st fetched. split; [exact I|reflexivity].
Qed.

(** X12. The only writes of handleSingleNode4Dot11Upgrade are status patches
    of the ingress config that set Status.DefaultPlacement to ControlPlane
    or to Workers (never to the empty string) and leave its metadata and
    spec as they are in the object the patch is based on; and, replaying
    the run against the client from the store it starts in, the object
    each patch is based on is the ingress config that the fetch just before
    it answered.  The function never issues a create, an update or a delete
    and never sets the log level. *)
Theorem handleSingleNode4Dot11Upgrade_patches_placement_only (o : Operator S) (st : State S) :
  Forall placement_patch_or_read (events (handleSingleNode4Dot11Upgrade o st))
  /\ patches_what_it_fetched (o_client o) (store st) None
       (events (handleSingleNode4Dot11Upgrade o st)).
Proof.
  split.
  - apply handleSingleNode4Dot11Upgrade_events; cbn; auto.
    intros p base err [-> | ->]; repeat split; auto.
  - apply handleSingleNode4Dot11Upgrade_replays.
Qed.

Lemma bind_writes {A B} (m : M S A) (f : A -> M S B) st (n k : nat) :
  (length (List.filter is_write (events (m st))) <= n)%nat ->
  (forall a st', (length (List.filter is_write (events (f a st'))) <= k)%nat) ->
  (length (List.filter is_write (events (bind m f st))) <= n + k)%nat.
Proof.
  intros Hm Hf. unfold bind.
  destruct (m st) as [[a|] st1 evs]; cbn in *; [|lia].
  specialize (Hf a st1). destruct (f a st1) as [v st2 evs']; cbn in *.
  rewrite List.filter_app, length_app. lia.
Qed.

Lemma OnError_writes (retriable : error -> bool) (fn : M S (option error)) :
  (forall st, (length (List.filter is_write (events (fn st))) <= 1)%nat) ->
  forall steps lastErr st,
    (length (List.filter is_write (events (retry.OnError steps retriable fn lastErr st)))
     <= steps)%nat.
Proof.
  intros Hfn steps. induction steps as [|n IH]; intros lastErr st; cbn [retry.OnError].
  - cbn. lia.
  - change (Datatypes.S n) with (1 + n)%nat. apply bind_writes; [apply Hfn|].
    intros [e|] st'; [|cbn; lia].
    destruct (retriable e); [apply IH|cbn; lia].
Qed.

Lemma patchDefaultPlacement_writes (o : Operator S) (p : string) st :
  (length (List.filter is_write (events (patchDefaultPlacement o p st))) <= 1)%nat.
Proof.
  unfold_program. cbn.
  destruct (Get (o_client o) KIngress IngressClusterConfigName (store st)) as [[ing|e] s1]; cbn.
  - destruct (StatusPatch (o_client o) KIngress _ _ s1) as [err s2]; cbn. lia.
  - lia.
Qed.

(** X13. One call of handleSingleNode4Dot11Upgrade attempts the patch at
    most four times (the steps of retry.DefaultBackoff), whatever the client
    answers. *)
Theorem handleSingleNode4Dot11Upgrade_bounded_retries (o : Operator S) (st : State S) :
  (length (List.filter is_write (events (handleSingleNode4Dot11Upgrade o st))) <= 4)%nat.
Proof.
  destruct (Get (o_client o) KInfrastructure InfrastructureClusterConfigName (store st))
    as [[infraConfig|e] s1] eqn:HG1.
  2: { unfold handleSingleNode4Dot11Upgrade, bind, client_Get, ret. rewrite HG1. cbn. lia. }
  destruct (Get (o_client o) KIngress IngressClusterConfigName s1)
    as [[ingressConfig|e] s2] eqn:HG2.
  2: { unfold handleSingleNode4Dot11Upgrade, bind, client_Get, ret. rewrite HG1. cbn.
       rewrite HG2. cbn. lia. }
  destruct (String.eqb_spec (configv1.DefaultPlacement (configv1.Status ingressConfig)) "")
    as [Hdp|Hdp].
  2: { apply String.eqb_neq in Hdp.
       unfold handleSingleNode4Dot11Upgrade, bind, client_Get, ret. rewrite HG1. cbn.
       rewrite HG2. cbn. rewrite Hdp. cbn. lia. }
  destruct (ListNodes (o_client o) s2) as [[nodes|e] s3] eqn:HL.
  2: { unfold handleSingleNode4Dot11Upgrade, bind, client_Get, client_List, ret.
       rewrite HG1. cbn. rewrite HG2. cbn. rewrite Hdp. cbn. rewrite HL. cbn. lia. }
  rewrite (handleSingleNode4Dot11Upgrade_unset o st _ _ _ _ _ _ HG1 HG2 Hdp HL).
  destruct (desiredDefaultPlacement infraConfig nodes) as [p|]; [|cbn; lia].
  cbn zeta.
  pose proof (OnError_writes IsConflict (patchDefaultPlacement o p)
                (patchDefaultPlacement_writes o p) retry.DefaultBackoff_Steps None
                (with_store s3 st)) as Hloop.
  fold (retry.RetryOnConflict retry.DefaultBackoff_Steps (patchDefaultPlacement o p)
          (with_store s3 st)) in Hloop.
  unfold retry.DefaultBackoff_Steps in Hloop at 2.
  destruct (retry.RetryOnConflict _ _ _) as [[[e|]|] st' evs]; cbn in Hloop |- *;
    try assumption.
  rewrite List.filter_app, length_app. cbn. lia.
Qed.

(** The three reads of handleSingleNode4Dot11Upgrade, each failing in turn. *)
Lemma handleSingleNode4Dot11Upgrade_read_failures (o : Operator S) (st : State S) :
  (forall e s1,
     Get (o_client o) KInfrastructure InfrastructureClusterConfigName (store st)
     = (inr e, s1) ->
     handleSingleNode4Dot11Upgrade o st
     = {| value := Some (Some (fmt.Errorf_w "failed fetching infrastructure config: " e));
          final := with_store s1 st;
          events := [EGet KInfrastructure InfrastructureClusterConfigName (Some e)] |})
  /\ (forall infraConfig s1 e s2,
        Get (o_client o) KInfrastructure InfrastructureClusterConfigName (store st)
        = (inl infraConfig, s1) ->
        Get (o_client o) KIngress IngressClusterConfigName s1 = (inr e, s2) ->
        handleSingleNode4Dot11Upgrade o st
        = {| value := Some (Some (fmt.Errorf_w "failed fetching ingress config: " e));
             final := with_store s2 st;
             events := [EGet KInfrastructure InfrastructureClusterConfigName None;
                        EGet KIngress IngressClusterConfigName (Some e)] |})
  /\ (forall infraConfig s1 ingressConfig s2 e s3,
        Get (o_client o) KInfrastructure InfrastructureClusterConfigName (store st)
        = (inl infraConfig, s1) ->
        Get (o_client o) KIngress IngressClusterConfigName s1 = (inl ingressConfig, s2) ->
        configv1.DefaultPlacement (configv1.Status ingressConfig) = "" ->
        ListNodes (o_client o) s2 = (inr e, s3) ->
        handleSingleNode4Dot11Upgrade o st
        = {| value := Some (Some (fmt.Errorf_w "failed fetching cluster nodes: " e));
             final := with_store s3 st;
             events := [EGet KInfrastructure InfrastructureClusterConfigName None;
                        EGet KIngress IngressClusterConfigName None; EList (Some e)] |}).
Proof.
  split; [|split].
  - intros e s1 HG1.
    unfold handleSingleNode4Dot11Upgrade, bind, client_Get, ret. rewrite HG1. reflexivity.
  - intros infraConfig s1 e s2 HG1 HG2.
    unfold handleSingleNode4Dot11Upgrade, bind, client_Get, ret. rewrite HG1. cbn.
    rewrite HG2. reflexivity.
  - intros infraConfig s1 ingressConfig s2 e s3 HG1 HG2 Hdp HL.
    unfold handleSingleNode4Dot11Upgrade, bind, client_Get, client_List, ret. rewrite HG1. cbn.
    rewrite HG2. cbn. rewrite Hdp. cbn. rewrite HL. reflexivity.
Qed.

(** X14. When one of the three reads of handleSingleNode4Dot11Upgrade fails,
    with NotFound as with any other error, the function stops at that read,
    writes nothing, and returns the error wrapped behind the name of what it
    was fetching. *)
Theorem handleSingleNode4Dot11Upgrade_read_failure (o : Operator S) (st : State S) :
  (forall e s1,
     Get (o_client o) KInfrastructure InfrastructureClusterConfigName (store st)
     = (inr e, s1) ->
     handleSingleNode4Dot11Upgrade o st
     = {| value := Some (Some (fmt.Errorf_w "failed fetching infrastructure config: " e));
          final := with_store s1 st;
          events := [EGet KInfrastructure InfrastructureClusterConfigName (Some e)] |})
  /\ (forall infraConfig s1 e s2,
        Get (o_client o) KInfrastructure InfrastructureClusterConfigName (store st)
        = (inl infraConfig, s1) ->
        Get (o_client o) KIngress IngressClusterConfigName s1 = (inr e, s2) ->
        handleSingleNode4Dot11Upgrade o st
        = {| value := Some (Some (fmt.Errorf_w "failed fetching ingress config: " e));
             final := with_store s2 st;
             events := [EGet KInfrastructure InfrastructureClusterConfigName None;
                        EGet KIngress IngressClusterConfigName (Some e)] |})
  /\ (forall infraConfig s1 ingressConfig s2 e s3,
        Get (o_client o) KInfrastructure InfrastructureClusterConfigName (store st)
        = (inl infraConfig, s1) ->
        Get (o_client o) KIngress IngressClusterConfigName s1 = (inl ingressConfig, s2) ->
        configv1.DefaultPlacement (configv1.Status ingressConfig) = "" ->
        ListNodes (o_client o) s2 = (inr e, s3) ->
        handleSingleNode4Dot11Upgrade o st
        = {| value := Some (Some (fmt.Errorf_w "failed fetching cluster nodes: " e));
             final := with_store s3 st;
             events := [EGet KInfrastructure InfrastructureClusterConfigName None;
                        EGet KIngress IngressClusterConfigName None; EList (Some e)] |}).
Proof.
  split; [|split].
  - intros e s1 HG1.
    unfold handleSingleNode4Dot11Upgrade, bind, client_Get, ret. rewrite HG1. reflexivity.
  - intros infraConfig s1 e s2 HG1 HG2.
    unfold handleSingleNode4Dot11Upgrade, bind, client_Get, ret. rewrite HG1. cbn.
    rewrite HG2. reflexivity.
  - intros infraConfig s1 ingressConfig s2 e s3 HG1 HG2 Hdp HL.
    unfold handleSingleNode4Dot11Upgrade, bind, client_Get, client_List, ret. rewrite HG1. cbn.
    rewrite HG2. cbn. rewrite Hdp. cbn. rewrite HL. reflexivity.
Qed.

Lemma bind_final_invariant {A B} (I : State S -> Prop) (m : M S A) (f : A -> M S B) st :
  I (final (m st)) ->
  (forall a st', I st' -> I (final (f a st'))) ->
  I (final (bind m f st)).
Proof.
  intros Hm Hf. unfold bind.
  destruct (m st) as [[a|] st1 evs]; cbn in *; [|exact Hm].
  specialize (Hf a st1 Hm). destruct (f a st1) as [v st2 evs']; cbn in *. exact Hf.
Qed.

Lemma OnError_final_invariant (I : State S -> Prop) (retriable : error -> bool)
    (fn : M S (option error)) :
  (forall st, I st -> I (final (fn st))) ->
  forall steps lastErr st, I st -> I (final (retry.OnError steps retriable fn lastErr st)).
Proof.
  intros Hfn steps. induction steps as [|n IH]; intros lastErr st Hst; cbn [retry.OnError].
  - exact Hst.
  - apply bind_final_invariant; [apply Hfn; exact Hst|].
    intros [e|] st' Hst'; [|exact Hst'].
    destruct (retriable e); [apply IH; exact Hst'|exact Hst'].
Qed.

Lemma OnError_success (Q : State S -> Prop) (retriable : error -> bool)
    (fn : M S (option error)) :
  (forall st, value (fn st) = Some None -> Q (final (fn st))) ->
  forall steps lastErr st,
    lastErr <> None \/ (0 < steps)%nat ->
    value (retry.OnError steps retriable fn lastErr st) = Some None ->
    Q (final (retry.OnError steps retriable fn lastErr st)).
Proof.
  intros Hfn steps. induction steps as [|n IH]; intros lastErr st Hlast; cbn [retry.OnError].
  - cbn. intros [= H]. destruct Hlast as [Hl|Hl]; [contradiction|lia].
  - unfold bind. specialize (Hfn st).
    destruct (fn st) as [[[e|]|] st1 evs]; cbn in *.
    + destruct (retriable e).
      * assert (Hne : Some e <> None) by discriminate.
        specialize (IH (Some e) st1 (or_introl Hne)).
        destruct (retry.OnError n retriable fn (Some e) st1) as [v st2 evs']; cbn in *.
        exact IH.
      * cbn. discriminate.
    + intros _. apply Hfn. reflexivity.
    + discriminate.
Qed.

(** X15. Against a store that no other actor writes to,
    handleSingleNode4Dot11Upgrade runs once: after a call that returned nil,
    the ingress config carries a placement, so another call (after a
    restart of the operator) is the two fetches and no write. *)
Theorem handleSingleNode4Dot11Upgrade_runs_once (o : Operator S)
    (st st1 : State S) (evs : list Event) :
  StoreCoherent (o_client o) ->
  PlacementStore (o_client o) IngressClusterConfigName ->
  handleSingleNode4Dot11Upgrade o st
  = {| value := Some None; final := st1; events := evs |} ->
  handleSingleNode4Dot11Upgrade o st1
  = {| value := Some None; final := st1;
       events := [EGet KInfrastructure InfrastructureClusterConfigName None;
                  EGet KIngress IngressClusterConfigName None] |}.
Proof.
  intros Hc Hp Hrun.
  assert (Hset : forall (st' : State S) infraConfig ingressConfig,
            Get (o_client o) KInfrastructure InfrastructureClusterConfigName (store st')
            = (inl infraConfig, store st') ->
            Get (o_client o) KIngress IngressClusterConfigName (store st')
            = (inl ingressConfig, store st') ->
            configv1.DefaultPlacement (configv1.Status ingressConfig) <> "" ->
            handleSingleNode4Dot11Upgrade o st'
            = {| value := Some None; final := st';
                 events := [EGet KInfrastructure InfrastructureClusterConfigName None;
                            EGet KIngress IngressClusterConfigName None] |}).
  { intros st' infraConfig ingressConfig HG1 HG2 Hdp. apply String.eqb_neq in Hdp.
    unfold handleSingleNode4Dot11Upgrade, bind, client_Get, ret. rewrite HG1. cbn.
    rewrite HG2. cbn. rewrite Hdp. cbn. destruct st'; reflexivity. }
  destruct (Get (o_client o) KInfrastructure InfrastructureClusterConfigName (store st))
    as [[infraConfig|e] s1] eqn:HG1.
  2: { rewrite (proj1 (handleSingleNode4Dot11Upgrade_read_failures o st) e s1 HG1) in Hrun.
       discriminate. }
  pose proof (Get_same _ Hc _ _ _ _ _ HG1); subst s1.
  destruct (Get (o_client o) KIngress IngressClusterConfigName (store st))
    as [[ingressConfig|e] s2] eqn:HG2.
  2: { rewrite (proj1 (proj2 (handleSingleNode4Dot11Upgrade_read_failures o st))
                  _ _ e s2 HG1 HG2) in Hrun. discriminate. }
  pose proof (Get_same _ Hc _ _ _ _ _ HG2); subst s2.
  destruct (String.eqb_spec (configv1.DefaultPlacement (configv1.Status ingressConfig)) "")
    as [Hdp|Hdp].
  2: { pose proof (Hset st infraConfig ingressConfig HG1 HG2 Hdp) as Hst.
       rewrite Hst in Hrun. injection Hrun as <- _. exact Hst. }
  destruct (ListNodes (o_client o) (store st)) as [[nodes|e] s3] eqn:HL.
  2: { rewrite (proj2 (proj2 (handleSingleNode4Dot11Upgrade_read_failures o st))
                  _ _ _ _ e s3 HG1 HG2 Hdp HL) in Hrun. discriminate. }
  pose proof (List_read_only _ _ Hp (store st)) as Hs3. rewrite HL in Hs3. cbn in Hs3. subst s3.
  rewrite (handleSingleNode4Dot11Upgrade_unset o st _ _ _ _ _ _ HG1 HG2 Hdp HL) in Hrun.
  destruct (desiredDefaultPlacement infraConfig nodes) as [p|] eqn:Hd; [|discriminate].
  cbn zeta in Hrun.
  set (fn := patchDefaultPlacement o p) in *.
  set (I := fun st' : State S =>
              fst (Get (o_client o) KInfrastructure InfrastructureClusterConfigName (store st'))
              = inl infraConfig).
  set (Q := fun st' : State S =>
              exists o', fst (Get (o_client o) KIngress IngressClusterConfigName (store st'))
                         = inl o'
                         /\ configv1.DefaultPlacement (configv1.Status o') = p).
  assert (HI : forall st', I st' -> I (final (fn st'))).
  { intros st' Hst'. subst fn I. cbn beta in *. unfold_program. cbn.
    destruct (Get (o_client o) KIngress IngressClusterConfigName (store st'))
      as [[ing|e] s1'] eqn:HGi; cbn.
    - pose proof (Get_same _ Hc _ _ _ _ _ HGi); subst s1'.
      destruct (StatusPatch (o_client o) KIngress _ _ (store st')) as [err s2'] eqn:HP; cbn.
      rewrite (Patch_keeps_infrastructure _ _ Hp _ _ _ _ _ _ HP). exact Hst'.
    - pose proof (Get_same _ Hc _ _ _ _ _ HGi); subst s1'. exact Hst'. }
  assert (HQ : forall st', value (fn st') = Some None -> Q (final (fn st'))).
  { intros st'. subst fn Q. cbn beta. unfold_program. cbn.
    destruct (Get (o_client o) KIngress IngressClusterConfigName (store st'))
      as [[ing|e] s1'] eqn:HGi; cbn; [|discriminate].
    pose proof (Get_same _ Hc _ _ _ _ _ HGi); subst s1'.
    destruct (StatusPatch (o_client o) KIngress _ _ (store st')) as [[err|] s2'] eqn:HP; cbn;
      [discriminate|].
    intros _. eapply (Patch_then_Get _ _ Hp); [|exact HP]. rewrite HGi. reflexivity. }
  pose proof (OnError_final_invariant I IsConflict fn HI retry.DefaultBackoff_Steps None
                (with_store (store st) st)) as HloopI.
  assert (Hsteps : (0 < retry.DefaultBackoff_Steps)%nat)
    by (unfold retry.DefaultBackoff_Steps; lia).
  pose proof (OnError_success Q IsConflict fn HQ retry.DefaultBackoff_Steps None
                (with_store (store st) st) (or_intror Hsteps)) as HloopQ.
  fold (retry.RetryOnConflict retry.DefaultBackoff_Steps fn (with_store (store st) st))
    in HloopI, HloopQ.
  destruct (retry.RetryOnConflict retry.DefaultBackoff_Steps fn (with_store (store st) st))
    as [[[e|]|] st' evs'] eqn:Eloop; cbn in Hrun; try discriminate.
  injection Hrun as <- _. cbn in HloopI, HloopQ.
  assert (HI0 : I (with_store (store st) st)) by (subst I; cbn; rewrite HG1; reflexivity).
  specialize (HloopI HI0).
  specialize (HloopQ eq_refl). subst I Q. cbn beta in *.
  destruct HloopQ as (o' & HGo & Hdp').
  pose proof (Get_read_only _ Hc KInfrastructure InfrastructureClusterConfigName (store st'))
    as E1.
  pose proof (Get_read_only _ Hc KIngress IngressClusterConfigName (store st')) as E2.
  destruct (Get (o_client o) KInfrastructure InfrastructureClusterConfigName (store st'))
    as [r1 t1] eqn:HG1'.
  destruct (Get (o_client o) KIngress IngressClusterConfigName (store st')) as [r2 t2] eqn:HG2'.
  cbn in *. subst.
  apply (Hset st' infraConfig o' HG1' HG2').
  apply desiredDefaultPlacement_values in Hd. destruct Hd as [-> | ->]; discriminate.
Qed.

(** *** The periodic function and the replicas *)

(** X16. The function Start runs every minute never reaches the store when
    the cache is not synced, and stops after the fetch when the ingress
    config cannot be fetched.  Whatever the client answers it returns (its
    errors are logged, not raised), issues at most one write, and that write
    is a create. *)
Theorem Start_ensureDefaultIngressController_is_gated (o : Operator S)
    (infraConfig : configv1.Infrastructure) (st : State S) :
  Start_ensureDefaultIngressController o infraConfig false st
  = {| value := Some tt; final := st;
       events := [ELog "failed to sync cache before ensuring default ingresscontroller"] |}
  /\ (forall e s1,
        Get (o_client o) KIngress IngressClusterConfigName (store st) = (inr e, s1) ->
        Start_ensureDefaultIngressController o infraConfig true st
        = {| value := Some tt; final := with_store s1 st;
             events := [EGet KIngress IngressClusterConfigName (Some e);
                        ELog "failed to fetch ingress config"] |})
  /\ (forall synced,
        let res := Start_ensureDefaultIngressController o infraConfig synced st in
        value res = Some tt
        /\ (length (List.filter is_write (events res)) <= 1)%nat
        /\ Forall (fun e => verb e = VGet \/ verb e = VCreate \/ verb e = VLog) (events res)).
Proof.
  split; [|split].
  - reflexivity.
  - intros e s1 HG. unfold Start_ensureDefaultIngressController. unfold_program. cbn.
    rewrite HG. reflexivity.
  - intros synced res. subst res. unfold Start_ensureDefaultIngressController.
    destruct synced; run.
    all: split; [reflexivity|]; split; [cbn; lia|].
    all: repeat (constructor; [cbn; auto|]); constructor.
Qed.

(** X17. determineReplicasForDefaultIngressController reads and never
    writes.  When the ingress config cannot be fetched, be it NotFound, it
    answers 0 replicas and an error that wraps the store's; otherwise it
    answers what DetermineReplicas says of the fetched ingress config and
    the infrastructure config it was given. *)
Theorem determineReplicasForDefaultIngressController_reads (o : Operator S)
    (infraConfig : configv1.Infrastructure) (st : State S) :
  let res := determineReplicasForDefaultIngressController o infraConfig st in
  List.filter is_write (events res) = []
  /\ (forall n err,
        value res = Some (n, Some err) ->
        n = 0
        /\ exists e, failed (List.last (events res) (ELog "")) = Some e
                     /\ Unwrap err = Some e
                     /\ IsNotFound err = IsNotFound e)
  /\ (forall n,
        value res = Some (n, None) ->
        exists ingressConfig s1,
          Get (o_client o) KIngress {| types.Namespace := ""; types.Name := "cluster" |}
            (store st) = (inl ingressConfig, s1)
          /\ n = DetermineReplicas ingressConfig infraConfig).
Proof.
  intros res. subst res. unfold determineReplicasForDefaultIngressController.
  unfold_program. cbn.
  destruct (Get (o_client o) KIngress _ (store st)) as [[ing|e] s1] eqn:HG; cbn.
  - split; [reflexivity|]. split; [discriminate|].
    intros n [= <-]. exists ing, s1. split; reflexivity.
  - split; [reflexivity|]. split; [|discriminate].
    intros n err [= <- <-]. split; [reflexivity|]. exists e. repeat split.
Qed.

(** X18. Whatever string the ingress config holds as its log level, the
    level ensureLogLevel computes is the opposite of the verbosity it logs
    at, between -3 and 0; so after any call that fetched the ingress config
    the stored level is one of the four levels. *)
Theorem desiredLogLevel_range :
  (forall l, fst (desiredLogLevel l) = - snd (desiredLogLevel l)
             /\ 0 <= snd (desiredLogLevel l) <= 3)
  /\ (forall (o : Operator S) st ingressConfig s1,
        Get (o_client o) KIngress {| types.Namespace := ""; types.Name := "cluster" |}
          (store st) = (inl ingressConfig, s1) ->
        -3 <= CurrentLogLevel (final (ensureLogLevel o st)) <= 0).
Proof.
  assert (Hpure : forall l, fst (desiredLogLevel l) = - snd (desiredLogLevel l)
                            /\ 0 <= snd (desiredLogLevel l) <= 3).
  { intros l. unfold desiredLogLevel, zap.DebugLevel, zap.InfoLevel.
    repeat match goal with
           | |- context [if ?b then _ else _] => destruct b
           end; cbn; lia. }
  split; [exact Hpure|].
  intros o st ingressConfig s1 HG. unfold_program. cbn. rewrite HG. cbn.
  specialize (Hpure (configv1.OperatorLogLevel (configv1.Spec ingressConfig))).
  destruct (desiredLogLevel _) as [d v]. cbn in *.
  destruct (Z.eqb_spec (CurrentLogLevel st) d); cbn; lia.
Qed.

(** One step of two runs in a row: the calls of the second run are reached
    once the first run they start from is worked out. *)
Ltac step_in_order :=
  let plain s := first [ is_var s | lazymatch s with store ?x => is_var x end ] in
  match goal with
  | |- context [Get ?c ?k ?n ?s] =>
      plain s; let E := fresh "HGet" in destruct (Get c k n s) as [[?|?] ?] eqn:E
  | |- context [Create ?c ?k ?o ?s] =>
      plain s; let E := fresh "HCreate" in destruct (Create c k o s) as [[?|] ?] eqn:E
  | |- context [if ?b then _ else _] => destruct b eqn:?
  end.

(** X19. Against a store that no other actor writes to, a run of the
    periodic function that logged no failure leaves nothing to do: the run
    that follows, whatever infrastructure config it is given, issues no
    write and leaves the store as it is. *)
Theorem Start_ensureDefaultIngressController_settles (o : Operator S)
    (infraConfig infraConfig' : configv1.Infrastructure) (st : State S) :
  StoreCoherent (o_client o) ->
  let first := Start_ensureDefaultIngressController o infraConfig true st in
  (forall msg, In (ELog msg) (events first) -> msg = "created default ingresscontroller") ->
  let second := Start_ensureDefaultIngressController o infraConfig' true (final first) in
  List.filter is_write (events second) = []
  /\ store (final second) = store (final first).
Proof.
  intros Hc first Hlog second. subst first second. revert Hlog.
  unfold Start_ensureDefaultIngressController. unfold_program. cbn.
  repeat (step_in_order; cbn).
  all: intros Hlog.
  all: try (assert (Hm : "failed to fetch ingress config" = "created default ingresscontroller")
              by (apply Hlog; cbn; intuition congruence); discriminate Hm).
  all: try (assert (Hm : "failed to ensure default ingresscontroller"
                         = "created default ingresscontroller")
              by (apply Hlog; cbn; intuition congruence); discriminate Hm).
  all: clear Hlog.
  all: reads_leave_store Hc.
  all: try (split; reflexivity).
  all: try congruence.
  all: use_coherence Hc.
  all: repeat match goal with
              | Hs : context [metav1.key (meta (defaultIngressController _ _ _))] |- _ =>
                  change (@meta KIngressController) with operatorv1.ObjectMeta in Hs;
                  rewrite defaultIngressController_key in Hs
              end.
  all: match goal with
       | H : Get _ KIngressController _ ?s = (inr _, ?s),
         Hs : fst (Get _ KIngressController _ ?s) = inl _ |- _ =>
           pose proof (eq_trans (eq_sym Hs) (f_equal fst H)) as E; cbn in E; discriminate E
       end.
Qed.

(** X20. When ensureServiceMeshOperatorInstallPlan returns an error it
    returns false and no plan, and the error is one of three: the error of
    the List, as it is and with no other call made; the error that no plan
    names the desired version, after the List alone; or an error that wraps
    the error of the Update, which is then the last call. *)
Theorem ensureServiceMeshOperatorInstallPlan_errors (c : installplan.Client S) (s : S)
    (updated : bool) (plan : option installplan.InstallPlan) (err : error) :
  let res := ensureServiceMeshOperatorInstallPlan c s in
  fst (fst res) = (updated, plan, Some err) ->
  updated = false /\ plan = None
  /\ (snd res = [installplan.CList serviceMeshOperatorNamespace (Some err)]
      \/ (snd res = [installplan.CList serviceMeshOperatorNamespace None]
          /\ err = errorString ("No InstallPlan with cluster service version "
                                +:+ serviceMeshOperatorDesiredVersion +:+ " found"))
      \/ exists p e,
           snd res = [installplan.CList serviceMeshOperatorNamespace None;
                      installplan.CUpdate p (Some e)]
           /\ installplan.Approved (installplan.Spec p) = true
           /\ Unwrap err = Some e
           /\ ReasonForError err = ReasonForError e).
Proof.
  intros res. subst res.
  unfold ensureServiceMeshOperatorInstallPlan, getCurrentInstallPlan.
  destruct (installplan.List c serviceMeshOperatorNamespace s) as [[plans|e] s1]; cbn.
  2: { intros [= <- <- <-]. split; [reflexivity|]. split; [reflexivity|]. left. reflexivity. }
  destruct (Nat.eqb (length (installplan.Items plans)) 0); cbn; [discriminate|].
  destruct (List.find names_version (installplan.Items plans)) as [q|]; cbn.
  2: { intros [= <- <- <-]. split; [reflexivity|]. split; [reflexivity|].
       right. left. split; reflexivity. }
  destruct (installplan.Approved (installplan.Spec q)); cbn; [discriminate|].
  destruct (installplan.Update c (installplan.with_Approved true q) s1) as [[w|e] s2]; cbn;
    [discriminate|].
  intros [= <- <- <-]. split; [reflexivity|]. split; [reflexivity|].
  right. right. exists (installplan.with_Approved true q), e. repeat split.
Qed.

End Program.

(** ** The clients in memory *)

Lemma memstore_objects_with_objects k l s :
  memstore.objects k (memstore.with_objects k l s) = l.
Proof. destruct k; reflexivity. Qed.

Lemma memstore_meta_with_meta k m (o : obj k) : meta (memstore.with_meta m o) = m.
Proof. destruct k; reflexivity. Qed.

Lemma memstore_key_stamp k rv (o : obj k) :
  metav1.key (meta (memstore.stamp rv o)) = metav1.key (meta o).
Proof. unfold memstore.stamp. rewrite memstore_meta_with_meta. reflexivity. Qed.

Lemma memstore_keeps_stamp k rv (o : obj k) : keeps o (memstore.stamp rv o).
Proof. destruct k; cbn; auto. Qed.

Lemma memstore_lookup_named k n (l : list (obj k)) o :
  memstore.lookup n l = Some o -> metav1.key (meta o) = n.
Proof.
  unfold memstore.lookup. intros H. apply List.find_some in H. destruct H as [_ H].
  unfold memstore.named in H. apply bool_decide_eq_true in H. exact H.
Qed.

Lemma memstore_lookup_replace k n (o' : obj k) (l : list (obj k)) cur :
  metav1.key (meta o') = n ->
  memstore.lookup n l = Some cur ->
  memstore.lookup n (memstore.replace n o' l) = Some o'.
Proof.
  intros Hn. unfold memstore.lookup, memstore.replace.
  assert (Ho : memstore.named n o' = true) by (apply bool_decide_eq_true; exact Hn).
  induction l as [|x l IH]; cbn; [discriminate|].
  destruct (memstore.named n x) eqn:Hx.
  - intros _. rewrite Ho. reflexivity.
  - rewrite Hx. exact IH.
Qed.

Lemma memstore_coherent : StoreCoherent memstore.Client.
Proof.
  split.
  - intros k n s. cbn. unfold memstore.get. destruct (memstore.lookup _ _); reflexivity.
  - intros k n s o. cbn. unfold memstore.get.
    destruct (memstore.lookup n (memstore.objects k s)) as [o'|] eqn:E; cbn; [|discriminate].
    intros [= <-]. eapply memstore_lookup_named. exact E.
  - intros k o s s'. cbn. unfold memstore.create.
    destruct (memstore.lookup _ _) as [cur|] eqn:E; [discriminate|].
    intros [= <-]. exists (memstore.stamp "1" o). split; [|apply memstore_keeps_stamp].
    unfold memstore.get. rewrite memstore_objects_with_objects.
    unfold memstore.lookup. cbn. unfold memstore.named at 1.
    rewrite memstore_key_stamp, bool_decide_eq_true_2 by reflexivity. reflexivity.
  - intros k o s s'. cbn. unfold memstore.update.
    destruct (memstore.lookup _ _) as [cur|] eqn:E; [|discriminate].
    destruct (_ || _); [|discriminate].
    intros [= <-]. eexists. split; [|apply memstore_keeps_stamp].
    unfold memstore.get. rewrite memstore_objects_with_objects.
    erewrite memstore_lookup_replace; [reflexivity|apply memstore_key_stamp|exact E].
  - intros k o s e. cbn. unfold memstore.update.
    destruct (memstore.lookup _ _) as [cur|] eqn:E; cbn.
    + destruct (_ || _); cbn; [discriminate|]. intros [= <-]. reflexivity.
    + intros [= <-]. reflexivity.
Qed.


Lemma memstore_placement (n : types.NamespacedName) : PlacementStore memstore.Client n.
Proof.
  split.
  - intros s. reflexivity.
  - intros base p s s'.
    change (fst (memstore.get KIngress n s) = inl base ->
            memstore.statusPatch KIngress (Ingress_with_DefaultPlacement p base) base s
            = (None, s') ->
            exists o', fst (memstore.get KIngress n s') = inl o'
                       /\ configv1.DefaultPlacement (configv1.Status o') = p).
    unfold memstore.get, memstore.statusPatch.
    destruct (memstore.lookup n (memstore.objects KIngress s)) as [cur|] eqn:E;
      [|discriminate].
    intros [= ->].
    pose proof (memstore_lookup_named KIngress n _ _ E) as Hn.
    change (metav1.key (@meta KIngress (Ingress_with_DefaultPlacement p base)))
      with (metav1.key (@meta KIngress base)).
    rewrite Hn, E.
    intros H. apply (f_equal snd) in H. cbn [snd] in H. subst s'.
    rewrite memstore_objects_with_objects.
    erewrite (memstore_lookup_replace KIngress); [|rewrite memstore_key_stamp|exact E].
    + eexists. split; [reflexivity|]. cbn.
      destruct (String.eqb_spec p (configv1.DefaultPlacement (configv1.Status base)));
        [symmetry; assumption|reflexivity].
    + cbn. destruct (String.eqb _ _); exact Hn.
  - intros o base s r s' m H. apply (f_equal snd) in H. cbn [snd] in H. subst s'.
    change (fst (memstore.get KInfrastructure m
                   (snd (memstore.statusPatch KIngress o base s)))
            = fst (memstore.get KInfrastructure m s)).
    unfold memstore.get.
    assert (E : memstore.objects KInfrastructure
                  (snd (memstore.statusPatch KIngress o base s))
                = memstore.objects KInfrastructure s)
      by (unfold memstore.statusPatch; destruct (memstore.lookup _ _); reflexivity).
    rewrite E. destruct (memstore.lookup _ _); reflexivity.
Qed.

(** ** Runs on the cluster *)

(** cmpopts.EquateEmpty: a nil map and an empty map are equal, a nil map and
    a map with an entry are not. *)
Example EquateEmpty_nil_and_empty :
  cmp.EqualMap None (Some ∅) = true
  /\ cmp.EqualMap None (Some {[ "a" := "b" ]}) = false
  /\ cmp.EqualSlice (A := operatorsv1alpha1.EnvVar) (Some []) None = true.
Proof. repeat split. Qed.

(** A single node without platform and no placement yet: three reads, one
    fetch and one patch, and the ingress config says ControlPlane. *)
Example handleSingleNode4Dot11Upgrade_single_node :
  let st := scenario.start
              (scenario.cluster
                 (scenario.infrastructure configv1.SingleReplicaTopologyMode
                    (Some configv1.NonePlatformType))
                 (scenario.ingress "" "")
                 [scenario.node "master-0"]) in
  let res := handleSingleNode4Dot11Upgrade scenario.ClusterConfigName scenario.ClusterConfigName
               scenario.o st in
  value res = Some None
  /\ List.map verb (events res) = [VGet; VGet; VList; VGet; VStatusPatch; VLog]
  /\ List.map (fun i => configv1.DefaultPlacement (configv1.Status i))
       (memstore.ingresses (store (final res)))
     = [configv1.DefaultPlacementControlPlane].
Proof. repeat split. Qed.

(** The same cluster with a worker: Workers. *)
Example handleSingleNode4Dot11Upgrade_two_nodes :
  let st := scenario.start
              (scenario.cluster
                 (scenario.infrastructure configv1.SingleReplicaTopologyMode
                    (Some configv1.NonePlatformType))
                 (scenario.ingress "" "")
                 [scenario.node "master-0"; scenario.node "worker-0"]) in
  let res := handleSingleNode4Dot11Upgrade scenario.ClusterConfigName scenario.ClusterConfigName
               scenario.o st in
  List.map (fun i => configv1.DefaultPlacement (configv1.Status i))
    (memstore.ingresses (store (final res)))
  = [configv1.DefaultPlacementWorkers].
Proof. reflexivity. Qed.

(** A single node whose infrastructure config has no platform status: the
    dereference panics after the three reads. *)
Example handleSingleNode4Dot11Upgrade_nil_PlatformStatus :
  let st := scenario.start
              (scenario.cluster
                 (scenario.infrastructure configv1.SingleReplicaTopologyMode None)
                 (scenario.ingress "" "")
                 [scenario.node "master-0"]) in
  let res := handleSingleNode4Dot11Upgrade scenario.ClusterConfigName scenario.ClusterConfigName
               scenario.o st in
  value res = None /\ List.map verb (events res) = [VGet; VGet; VList].
Proof. split; reflexivity. Qed.

(** Every patch is answered with Conflict: four attempts, each a fetch and
    a patch, and the last Conflict is returned behind a message. *)
Example handleSingleNode4Dot11Upgrade_conflicts :
  let conflict := scripted.Fault (memstore.NewConflict scenario.ClusterConfigName) in
  let st := scenario.start
              (scenario.cluster
                 (scenario.infrastructure configv1.SingleReplicaTopologyMode
                    (Some configv1.NonePlatformType))
                 (scenario.ingress "" "")
                 [scenario.node "master-0"],
               [scripted.Pass; scripted.Pass; scripted.Pass;
                scripted.Pass; conflict; scripted.Pass; conflict;
                scripted.Pass; conflict; scripted.Pass; conflict]) in
  let res := handleSingleNode4Dot11Upgrade scenario.ClusterConfigName scenario.ClusterConfigName
               scenario.scripted_o st in
  List.map verb (events res)
  = [VGet; VGet; VList; VGet; VStatusPatch; VGet; VStatusPatch; VGet; VStatusPatch;
     VGet; VStatusPatch]
  /\ (Unwrap <$> (value res ≫= id))
     = Some (Some (memstore.NewConflict scenario.ClusterConfigName)).
Proof. split; reflexivity. Qed.

(** A subscription of another channel is updated: its spec becomes the
    desired one, its status stays. *)
Example ensureServiceMeshOperatorSubscription_updates :
  let st := scenario.start
              (snd (memstore.create KSubscription scenario.foreign_subscription memstore.empty)) in
  let res := ensureServiceMeshOperatorSubscription scenario.ServiceMeshSubscriptionName
               scenario.r st in
  List.map verb (events res) = [VGet; VUpdate; VLog; VGet]
  /\ List.map operatorsv1alpha1.Status (memstore.subscriptions (store (final res)))
     = [operatorsv1alpha1.Status scenario.foreign_subscription]
  /\ List.map (fun s => Some (operatorsv1alpha1.Spec s))
       (memstore.subscriptions (store (final res)))
     = [operatorsv1alpha1.Spec
          <$> fst (desiredSubscription scenario.ServiceMeshSubscriptionName)].
Proof. repeat split. Qed.

(** On AWS with an NLB the default ingresscontroller is created with the
    load-balancer strategy. *)
Example ensureDefaultIngressController_creates :
  let ingressConfig :=
    {| configv1.ObjectMeta := metav1.named "" "cluster";
       configv1.Spec :=
         {| configv1.OperatorLogLevel := "";
            configv1.LoadBalancer_ :=
              {| configv1.Platform :=
                   {| configv1.Platform_Type := configv1.AWSPlatformType;
                      configv1.AWS := Some {| configv1.AWS_Type := configv1.NLB |} |} |} |};
       configv1.Status := {| configv1.DefaultPlacement := "" |} |} in
  let res := ensureDefaultIngressController scenario.DefaultIngressControllerName
               scenario.DetermineReplicas scenario.o
               (scenario.infrastructure "HighlyAvailable" (Some "AWS")) ingressConfig
               (scenario.start memstore.empty) in
  value res = Some None
  /\ List.map verb (events res) = [VGet; VCreate; VLog]
  /\ List.map (fun ic => (operatorv1.Replicas (operatorv1.Spec ic),
                          operatorv1.Strategy_Type
                            <$> operatorv1.EndpointPublishingStrategy_ (operatorv1.Spec ic)))
       (memstore.ingresscontrollers (store (final res)))
     = [(Some 2, Some operatorv1.LoadBalancerServiceStrategyType)].
Proof. repeat split. Qed.

(** A trace in which the patch is based on another object than the fetch
    answered does not qualify as [patches_what_it_fetched]; the trace of
    the function on the same cluster does. *)
Example patch_of_another_object_does_not_qualify :
  let s := scenario.cluster
             (scenario.infrastructure configv1.SingleReplicaTopologyMode
                (Some configv1.NonePlatformType))
             (scenario.ingress "" "")
             [scenario.node "master-0"] in
  let other := scenario.ingress "Debug" "" in
  ~ patches_what_it_fetched memstore.Client s None
      [EGet KIngress scenario.ClusterConfigName None;
       EStatusPatch KIngress
         (Ingress_with_DefaultPlacement configv1.DefaultPlacementControlPlane other) other None]
  /\ patches_what_it_fetched memstore.Client s None
       (events (handleSingleNode4Dot11Upgrade scenario.ClusterConfigName
                  scenario.ClusterConfigName scenario.o (scenario.start s))).
Proof.
  split.
  - intros (_ & (Hf & _) & _). discriminate Hf.
  - cbn. repeat split; auto.
Qed.

(** ** The statements at work *)

(** C6 at a store from which the configmap is already gone: the delete
    answers NotFound and the branch returns (false, nil, nil). *)
Lemma delete_NotFound_is_success_witness :
  let res := ensureTrustedCAConfigMap_switch scenario.TrustedCAConfigMapName scenario.r
               false None true (Some scenario.foreign_configmap)
               (scenario.start memstore.empty) in
  List.map failed (events res)
  = [Some (StatusError StatusReasonNotFound "trusted-ca not found")]
  /\ value res = Some (false, None, None).
Proof.
  split; [reflexivity|].
  refine (proj2 (proj2 (delete_NotFound_is_success scenario.TrustedCAConfigMapName scenario.r
                          None scenario.foreign_configmap (scenario.start memstore.empty)
                          (Some (StatusError StatusReasonNotFound "trusted-ca not found"))
                          memstore.empty eq_refl)) _).
  intros e [= <-]. reflexivity.
Defined.

(** C1 in the lost race on the configmap: the create answers AlreadyExists
    and, as the theorem says, the function returns that error behind its
    message after the fetch and the create. *)
Lemma create_failure_is_returned_witness :
  let res := ensureTrustedCAConfigMap scenario.TrustedCAConfigMapName scenario.scripted_r
               scenario.lost_race in
  List.map scenario.outcome (events res)
  = [(VGet, Some StatusReasonNotFound); (VCreate, Some StatusReasonAlreadyExists)]
  /\ value res
     = Some (false, None,
             Some (errorString "failed to create configmap: trusted-ca already exists")).
Proof.
  pose proof (proj1 (create_failure_is_returned scenario.TrustedCAConfigMapName
                       scenario.ServiceMeshSubscriptionName
                       scenario.DefaultIngressControllerName scenario.DetermineReplicas)
                scenario.scripted_r scenario.lost_race _ _ _ _ _
                eq_refl eq_refl eq_refl eq_refl) as H.
  cbv beta iota in H. rewrite H. split; reflexivity.
Defined.

(** C2 on the store in memory, from an empty store: the first call creates
    the configmap and fetches it, the second call only fetches it. *)
Lemma second_ensure_is_noop_witness :
  let first := ensureTrustedCAConfigMap scenario.TrustedCAConfigMapName scenario.r
                 (scenario.start memstore.empty) in
  List.map verb (events first) = [VGet; VCreate; VLog; VGet]
  /\ exists cm,
       ensureTrustedCAConfigMap scenario.TrustedCAConfigMapName scenario.r (final first)
       = {| value := Some (true, Some cm, None); final := final first;
            events := [EGet KConfigMap scenario.TrustedCAConfigMapName None] |}.
Proof.
  split; [reflexivity|].
  eapply (proj1 (second_ensure_is_noop scenario.TrustedCAConfigMapName
                   scenario.ServiceMeshSubscriptionName
                   scenario.DefaultIngressControllerName scenario.DetermineReplicas)
            scenario.r memstore_coherent (scenario.start memstore.empty)).
  reflexivity.
Defined.

(** C3 on a subscription and a configmap that another actor made: the update
    keeps their metadata, status and data. *)
Lemma update_changes_owned_fields_only_witness :
  (let desired :=
     default scenario.foreign_subscription
       (fst (desiredSubscription scenario.ServiceMeshSubscriptionName)) in
   exists updated,
     snd (subscriptionChanged scenario.foreign_subscription desired) = Some updated
     /\ operatorsv1alpha1.ObjectMeta updated
        = operatorsv1alpha1.ObjectMeta scenario.foreign_subscription
     /\ operatorsv1alpha1.Status updated
        = operatorsv1alpha1.Status scenario.foreign_subscription
     /\ operatorsv1alpha1.Spec updated = operatorsv1alpha1.Spec desired)
  /\ exists updated err,
       List.filter is_store_call
         (events (updateTrustedCAConfigMap scenario.r (Some scenario.foreign_configmap) None
                    (scenario.start memstore.empty)))
       = [EUpdate KConfigMap updated err]
       /\ metav1.entry (metav1.Labels (corev1.ObjectMeta updated)) injectTrustedCABundle
          = Some "true"
       /\ metav1.entry (metav1.Labels (corev1.ObjectMeta updated)) "owner" = Some "someone"
       /\ corev1.Data updated = corev1.Data scenario.foreign_configmap.
Proof.
  split.
  - exact (proj1 (update_changes_owned_fields_only (S := memstore.Store))
             scenario.foreign_subscription
             (default scenario.foreign_subscription
                (fst (desiredSubscription scenario.ServiceMeshSubscriptionName)))
             eq_refl).
  - destruct (proj2 (proj2 (update_changes_owned_fields_only (S := memstore.Store)))
                scenario.r scenario.foreign_configmap None (scenario.start memstore.empty)
                eq_refl)
      as (updated & err & Hev & Hlabel & Hothers & _ & _ & Hdata & _).
    exists updated, err. split; [exact Hev|]. split; [exact Hlabel|]. split; [|exact Hdata].
    rewrite Hothers by discriminate. reflexivity.
Defined.

(** C4 on a single node of a cluster without platform, and on the same
    cluster with a second node: the selection, and the run of the function
    on each cluster, which returns nil after the accepted patch of the
    selected placement. *)
Lemma desiredDefaultPlacement_ControlPlane_iff_witness :
  let infra := scenario.infrastructure configv1.SingleReplicaTopologyMode
                 (Some configv1.NonePlatformType) in
  let run nodes :=
    handleSingleNode4Dot11Upgrade scenario.ClusterConfigName scenario.ClusterConfigName
      scenario.o (scenario.start (scenario.cluster infra (scenario.ingress "" "") nodes)) in
  (desiredDefaultPlacement infra {| corev1.Items := [scenario.node "master-0"] |}
   = Some configv1.DefaultPlacementControlPlane
   /\ desiredDefaultPlacement infra
        {| corev1.Items := [scenario.node "master-0"; scenario.node "worker-0"] |}
      = Some configv1.DefaultPlacementWorkers)
  /\ (value (run [scenario.node "master-0"]) = Some None
      /\ exists base,
           In (EStatusPatch KIngress
                 (Ingress_with_DefaultPlacement configv1.DefaultPlacementControlPlane base)
                 base None)
              (events (run [scenario.node "master-0"])))
  /\ (value (run [scenario.node "master-0"; scenario.node "worker-0"]) = Some None
      /\ exists base,
           In (EStatusPatch KIngress
                 (Ingress_with_DefaultPlacement configv1.DefaultPlacementWorkers base)
                 base None)
              (events (run [scenario.node "master-0"; scenario.node "worker-0"]))).
Proof.
  intros infra run.
  assert (Hone : desiredDefaultPlacement infra
                   {| corev1.Items := [scenario.node "master-0"] |}
                 = Some configv1.DefaultPlacementControlPlane).
  { apply (proj1 (desiredDefaultPlacement_ControlPlane_iff (S := memstore.Store)
                    scenario.ClusterConfigName scenario.ClusterConfigName)).
    + intros _. discriminate.
    + repeat split. eexists. split; reflexivity. }
  assert (Htwo : desiredDefaultPlacement infra
                   {| corev1.Items := [scenario.node "master-0"; scenario.node "worker-0"] |}
                 = Some configv1.DefaultPlacementWorkers).
  { apply (proj1 (desiredDefaultPlacement_ControlPlane_iff (S := memstore.Store)
                    scenario.ClusterConfigName scenario.ClusterConfigName)).
    + intros _. discriminate.
    + intros [Hlen _]. discriminate Hlen. }
  split; [split; assumption|]. split.
  - split; [reflexivity|].
    refine (proj2 (proj2 (proj2 (desiredDefaultPlacement_ControlPlane_iff
                                   scenario.ClusterConfigName scenario.ClusterConfigName))
                     scenario.o
                     (scenario.start
                        (scenario.cluster infra (scenario.ingress "" "")
                           [scenario.node "master-0"]))
                     infra _ (scenario.ingress "" "") _
                     {| corev1.Items := [scenario.node "master-0"] |} _ _
                     eq_refl eq_refl eq_refl eq_refl Hone) eq_refl).
  - split; [reflexivity|].
    refine (proj2 (proj2 (proj2 (desiredDefaultPlacement_ControlPlane_iff
                                   scenario.ClusterConfigName scenario.ClusterConfigName))
                     scenario.o
                     (scenario.start
                        (scenario.cluster infra (scenario.ingress "" "")
                           [scenario.node "master-0"; scenario.node "worker-0"]))
                     infra _ (scenario.ingress "" "") _
                     {| corev1.Items := [scenario.node "master-0"; scenario.node "worker-0"] |}
                     _ _ eq_refl eq_refl eq_refl eq_refl Htwo) eq_refl).
Defined.

(** C5 on a single-node cluster whose ingress config already says Workers:
    two fetches, nil, and the store as it was. *)
Lemma placement_set_means_no_write_witness :
  let st := scenario.start
              (scenario.cluster
                 (scenario.infrastructure configv1.SingleReplicaTopologyMode
                    (Some configv1.NonePlatformType))
                 (scenario.ingress "" configv1.DefaultPlacementWorkers)
                 [scenario.node "master-0"]) in
  let res := handleSingleNode4Dot11Upgrade scenario.ClusterConfigName scenario.ClusterConfigName
               scenario.o st in
  Forall (fun e => is_write e = false) (events res)
  /\ value res = Some None
  /\ store (final res) = store st.
Proof.
  intros st res.
  destruct (placement_set_means_no_write scenario.ClusterConfigName scenario.ClusterConfigName
              scenario.o st _ _ _ _ eq_refl eq_refl ltac:(discriminate))
    as (Hw & _ & Hret & Hstore).
  split; [exact Hw|]. split.
  - fold res in Hret. rewrite (Hret _ eq_refl). reflexivity.
  - apply Hstore. apply (Get_read_only _ memstore_coherent).
Defined.

(** C7 when the create of the configmap does not reach the store: it is the
    last event, and the error returned is a new one made of its message. *)
Lemma store_errors_are_returned_once_witness :
  let res := ensureTrustedCAConfigMap scenario.TrustedCAConfigMapName scenario.scripted_r
               scenario.connection_refused in
  List.map verb (events res) = [VGet; VCreate]
  /\ List.map failed (events res)
     = [Some (StatusError StatusReasonNotFound "trusted-ca not found");
        Some (errorString "connection refused")]
  /\ error_of (value res)
     = Some (errorString "failed to create configmap: connection refused").
Proof.
  intros res. split; [reflexivity|]. split; [reflexivity|].
  refine (proj2 (proj1 (proj2 (store_errors_are_returned_once
                                 scenario.TrustedCAConfigMapName
                                 scenario.ServiceMeshSubscriptionName
                                 scenario.DefaultIngressControllerName
                                 scenario.DetermineReplicas))
                   scenario.scripted_r scenario.connection_refused
                   (nth 1 (events res) (ELog "")) (errorString "connection refused")
                   _ eq_refl eq_refl _)).
  - right. left. reflexivity.
  - discriminate.
Defined.

(** C8 on a cluster whose ingress config asks for Debug while the level is
    Info: the first call sets the level, the second only fetches. *)
Lemma ensureLogLevel_writes_only_on_change_witness :
  let st := scenario.start
              (scenario.cluster
                 (scenario.infrastructure configv1.SingleReplicaTopologyMode None)
                 (scenario.ingress configv1.IngressOperatorLogLevelDebug "")
                 []) in
  List.map verb (events (ensureLogLevel scenario.o st)) = [VGet; VSetLevel; VLog]
  /\ CurrentLogLevel (final (ensureLogLevel scenario.o st)) = zap.DebugLevel
  /\ events (ensureLogLevel scenario.o (final (ensureLogLevel scenario.o st)))
     = [EGet KIngress scenario.ClusterConfigName None].
Proof.
  intros st. split; [reflexivity|]. split; [reflexivity|].
  exact (proj1 (proj2 (proj2 (ensureLogLevel_writes_only_on_change (S := memstore.Store))))
           scenario.o st _ _ _ _ eq_refl eq_refl eq_refl).
Defined.

(** C10 on a single-node cluster whose infrastructure config carries its
    platform status: the precondition holds and the function returns. *)
Lemma PlatformStatus_dereference_is_guarded_witness :
  let st := scenario.start
              (scenario.cluster
                 (scenario.infrastructure configv1.SingleReplicaTopologyMode
                    (Some configv1.NonePlatformType))
                 (scenario.ingress "" "")
                 [scenario.node "master-0"]) in
  exists err,
    value (handleSingleNode4Dot11Upgrade scenario.ClusterConfigName scenario.ClusterConfigName
             scenario.o st) = Some err.
Proof.
  intros st.
  apply (proj2 (proj2 (PlatformStatus_dereference_is_guarded
                         scenario.ClusterConfigName scenario.ClusterConfigName))).
  intros infraConfig s1 nodes HG _. cbv in HG. injection HG as <- _. discriminate.
Defined.

(** X1 on three plans in memory: the plan of another operator is passed
    over and the first plan of the desired version is returned, not the
    later one. *)
Lemma getCurrentInstallPlan_first_match_witness :
  let s := [plans.other; plans.pending; plans.later] in
  fst (fst (getCurrentInstallPlan installplan.memory s)) = (Some plans.pending, None)
  /\ exists before after,
       s = (before ++ plans.pending :: after)%list
       /\ names_version plans.pending = true
       /\ Forall (fun q => names_version q = false) before.
Proof.
  split; [reflexivity|].
  exact (getCurrentInstallPlan_first_match installplan.memory
           [plans.other; plans.pending; plans.later]
           {| installplan.Items := [plans.other; plans.pending; plans.later] |}
           [plans.other; plans.pending; plans.later] eq_refl).
Defined.

(** X3 on plans whose first of the desired version is approved: nothing is
    updated, though a plan after it waits for approval. *)
Lemma ensureServiceMeshOperatorInstallPlan_first_decides_witness :
  let s := [plans.other; plans.later; plans.pending] in
  ensureServiceMeshOperatorInstallPlan installplan.memory s
  = ((false, Some plans.later, None), s,
     [installplan.CList serviceMeshOperatorNamespace None]).
Proof.
  exact (proj1 (ensureServiceMeshOperatorInstallPlan_first_decides installplan.memory
                  [plans.other; plans.later; plans.pending])
           {| installplan.Items := [plans.other; plans.later; plans.pending] |}
           [plans.other; plans.later; plans.pending]
           [plans.other] plans.later [plans.pending]
           eq_refl eq_refl (@List.Forall_cons _ _ plans.other [] eq_refl (List.Forall_nil _)) eq_refl eq_refl).
Defined.

(** X4 on the store in memory where another actor made the configmap
    without the label: the call updates it, and returns the labelled
    configmap the store then holds. *)
Lemma ensureTrustedCAConfigMap_returns_labelled_witness :
  let res := ensureTrustedCAConfigMap scenario.TrustedCAConfigMapName scenario.r
               (scenario.start (scenario.others_create memstore.empty)) in
  List.map verb (events res) = [VGet; VUpdate; VLog; VGet]
  /\ exists cm',
       value res = Some (true, Some cm', None)
       /\ labelled cm' = true
       /\ settled memstore.Client KConfigMap scenario.TrustedCAConfigMapName (eq cm')
            (store (final res)).
Proof.
  split; [reflexivity|].
  destruct (ensureTrustedCAConfigMap_returns_labelled scenario.TrustedCAConfigMapName
              scenario.r (scenario.start (scenario.others_create memstore.empty))
              _ _ memstore_coherent eq_refl) as (_ & cm' & Hcm & Hl & Hs).
  exists cm'. split; [rewrite <- Hcm; reflexivity|]. split; assumption.
Defined.

(** X5 on the store in memory where another actor made the subscription on
    another channel. *)
Lemma ensureServiceMeshOperatorSubscription_returns_desired_witness :
  let res := ensureServiceMeshOperatorSubscription scenario.ServiceMeshSubscriptionName
               scenario.r (scenario.start (scenario.others_create memstore.empty)) in
  List.map verb (events res) = [VGet; VUpdate; VLog; VGet]
  /\ exists sub' desired,
       value res = Some (true, Some sub', None)
       /\ fst (desiredSubscription scenario.ServiceMeshSubscriptionName) = Some desired
       /\ cmp.EqualSpec (operatorsv1alpha1.Spec sub') (operatorsv1alpha1.Spec desired) = true
       /\ settled memstore.Client KSubscription scenario.ServiceMeshSubscriptionName (eq sub')
            (store (final res)).
Proof.
  split; [reflexivity|].
  destruct (ensureServiceMeshOperatorSubscription_returns_desired
              scenario.ServiceMeshSubscriptionName
              scenario.r (scenario.start (scenario.others_create memstore.empty))
              _ _ _ memstore_coherent eq_refl eq_refl) as (_ & sub' & Hsub & He & Hs).
  exists sub'. eexists. split; [rewrite <- Hsub; reflexivity|].
  split; [reflexivity|]. split; assumption.
Defined.

(** X10 on a configmap without the label whose update is answered with
    AlreadyExists: the function returns the unlabelled configmap and no
    error. *)
Lemma update_AlreadyExists_is_success_witness :
  let st := scenario.start
              (scenario.others_create memstore.empty,
               [scripted.Pass;
                scripted.Fault (memstore.NewAlreadyExists scenario.TrustedCAConfigMapName)]) in
  let res := ensureTrustedCAConfigMap scenario.TrustedCAConfigMapName scenario.scripted_r st in
  List.map scenario.outcome (events res)
  = [(VGet, None); (VUpdate, Some StatusReasonAlreadyExists)]
  /\ exists current,
       fst (Get (r_client scenario.scripted_r) KConfigMap scenario.TrustedCAConfigMapName
              (store st))
       = inl current
       /\ value res = Some (true, Some current, None)
       /\ labelled current = false.
Proof.
  split; [reflexivity|].
  destruct (proj2 (update_AlreadyExists_is_success scenario.TrustedCAConfigMapName
                     scenario.scripted_r
                     (scenario.start
                        (scenario.others_create memstore.empty,
                         [scripted.Pass;
                          scripted.Fault
                            (memstore.NewAlreadyExists scenario.TrustedCAConfigMapName)]))
                     (EUpdate KConfigMap
                        (ConfigMap_with_meta
                           (set_label injectTrustedCABundle "true"
                              (corev1.ObjectMeta
                                 (@memstore.stamp KConfigMap "1" scenario.foreign_configmap)))
                           (@memstore.stamp KConfigMap "1" scenario.foreign_configmap))
                        (Some (memstore.NewAlreadyExists scenario.TrustedCAConfigMapName)))
                     (memstore.NewAlreadyExists scenario.TrustedCAConfigMapName)
                     (or_intror (or_introl eq_refl)) eq_refl eq_refl eq_refl))
    as (current & s1 & HG & _ & Hv & Hl).
  exists current. split; [rewrite HG; reflexivity|]. split; assumption.
Defined.

(** X15 on the single-node cluster of platform None: the first call sets
    the placement, the call that follows is the two fetches. *)
Lemma handleSingleNode4Dot11Upgrade_runs_once_witness :
  let st := scenario.start
              (scenario.cluster
                 (scenario.infrastructure configv1.SingleReplicaTopologyMode
                    (Some configv1.NonePlatformType))
                 (scenario.ingress "" "")
                 [scenario.node "master-0"]) in
  let first := handleSingleNode4Dot11Upgrade scenario.ClusterConfigName
                 scenario.ClusterConfigName scenario.o st in
  List.map verb (events first) = [VGet; VGet; VList; VGet; VStatusPatch; VLog]
  /\ handleSingleNode4Dot11Upgrade scenario.ClusterConfigName scenario.ClusterConfigName
       scenario.o (final first)
     = {| value := Some None; final := final first;
          events := [EGet KInfrastructure scenario.ClusterConfigName None;
                     EGet KIngress scenario.ClusterConfigName None] |}.
Proof.
  split; [reflexivity|].
  eapply (handleSingleNode4Dot11Upgrade_runs_once scenario.ClusterConfigName
           scenario.ClusterConfigName scenario.o
           (scenario.start
              (scenario.cluster
                 (scenario.infrastructure configv1.SingleReplicaTopologyMode
                    (Some configv1.NonePlatformType))
                 (scenario.ingress "" "")
                 [scenario.node "master-0"]))
           _ _ memstore_coherent (memstore_placement scenario.ClusterConfigName)).
  reflexivity.
Defined.

(** X19 on a cluster without ingresscontroller: the first run of the
    periodic function creates the default one, the run that follows, given
    another infrastructure config, writes nothing. *)
Lemma Start_ensureDefaultIngressController_settles_witness :
  let infra := scenario.infrastructure "HighlyAvailable"
                 (Some configv1.AWSPlatformType) in
  let infra' := scenario.infrastructure configv1.SingleReplicaTopologyMode
                  (Some configv1.NonePlatformType) in
  let st := scenario.start (scenario.cluster infra (scenario.ingress "" "") []) in
  let first := Start_ensureDefaultIngressController scenario.ClusterConfigName
                 scenario.DefaultIngressControllerName scenario.DetermineReplicas
                 scenario.o infra true st in
  let second := Start_ensureDefaultIngressController scenario.ClusterConfigName
                  scenario.DefaultIngressControllerName scenario.DetermineReplicas
                  scenario.o infra' true (final first) in
  List.map verb (events first) = [VGet; VGet; VCreate; VLog]
  /\ List.filter is_write (events second) = []
  /\ store (final second) = store (final first).
Proof.
  split; [reflexivity|].
  apply (Start_ensureDefaultIngressController_settles scenario.ClusterConfigName
           scenario.DefaultIngressControllerName scenario.DetermineReplicas scenario.o
           (scenario.infrastructure "HighlyAvailable"
              (Some configv1.AWSPlatformType))
           (scenario.infrastructure configv1.SingleReplicaTopologyMode
              (Some configv1.NonePlatformType))
           _ memstore_coherent).
  intros msg Hin. cbn in Hin.
  destruct Hin as [Hin|[Hin|[Hin|[Hin|[]]]]]; try discriminate Hin.
  injection Hin as <-. reflexivity.
Defined.

(** X2 on the three plans in memory: the one update is of the pending plan,
    approved. *)
Lemma ensureServiceMeshOperatorInstallPlan_approves_listed_witness :
  let s := [plans.other; plans.pending; plans.later] in
  snd (ensureServiceMeshOperatorInstallPlan installplan.memory s)
  = [installplan.CList serviceMeshOperatorNamespace None;
     installplan.CUpdate (installplan.with_Approved true plans.pending) None]
  /\ exists plans s1 q,
       installplan.List installplan.memory serviceMeshOperatorNamespace s = (inl plans, s1)
       /\ In q (installplan.Items plans)
       /\ In serviceMeshOperatorDesiredVersion
            (installplan.ClusterServiceVersionNames (installplan.Spec q))
       /\ installplan.Approved (installplan.Spec q) = false
       /\ installplan.with_Approved true plans.pending = installplan.with_Approved true q.
Proof.
  split; [reflexivity|].
  refine (proj2 (ensureServiceMeshOperatorInstallPlan_approves_listed installplan.memory
                   [plans.other; plans.pending; plans.later])
            (installplan.with_Approved true plans.pending) None _).
  right. left. reflexivity.
Defined.

(** X7 on a store where another actor made the default ingresscontroller
    with one replica: the fetch is the whole run. *)
Lemma ensureDefaultIngressController_only_creates_witness :
  let st := scenario.start (scenario.others_create memstore.empty) in
  let res := ensureDefaultIngressController scenario.DefaultIngressControllerName
               scenario.DetermineReplicas scenario.o
               (scenario.infrastructure "HighlyAvailable" (Some configv1.AWSPlatformType))
               (scenario.ingress "" "") st in
  res = {| value := Some None; final := st;
           events := [EGet KIngressController
                        {| types.Namespace := "openshift-ingress-operator";
                           types.Name := "default" |} None] |}.
Proof.
  refine (proj2 (ensureDefaultIngressController_only_creates
                   scenario.DefaultIngressControllerName scenario.DetermineReplicas scenario.o
                   (scenario.infrastructure "HighlyAvailable" (Some configv1.AWSPlatformType))
                   (scenario.ingress "" "")
                   (scenario.start (scenario.others_create memstore.empty)))
            _ (scenario.others_create memstore.empty) _).
  reflexivity.
Defined.

(** X11 on the subscription when the create does not reach the store: the
    error returned wraps the error of the create. *)
Lemma returned_error_origin_witness :
  let res := ensureServiceMeshOperatorSubscription scenario.ServiceMeshSubscriptionName
               scenario.scripted_r scenario.connection_refused in
  List.map verb (events res) = [VGet; VCreate]
  /\ exists err e,
       error_of (value res) = Some err
       /\ failed (List.last (events res) (ELog "")) = Some e
       /\ e = errorString "connection refused"
       /\ Unwrap err = Some e
       /\ ReasonForError err = ReasonForError e.
Proof.
  split; [reflexivity|].
  destruct (proj1 (returned_error_origin scenario.TrustedCAConfigMapName
                     scenario.ServiceMeshSubscriptionName)
              scenario.scripted_r scenario.connection_refused _ eq_refl)
    as (e & He & Hu & Hr).
  eexists. exists e. split; [reflexivity|]. split; [exact He|].
  split; [|split; assumption].
  cbv in He. injection He as <-. reflexivity.
Defined.

(** X14 on an empty store: the infrastructure config is not found, and the
    function returns that error behind its message after the one fetch. *)
Lemma handleSingleNode4Dot11Upgrade_read_failure_witness :
  handleSingleNode4Dot11Upgrade scenario.ClusterConfigName scenario.ClusterConfigName
    scenario.o (scenario.start memstore.empty)
  = {| value := Some (Some (fmt.Errorf_w "failed fetching infrastructure config: "
                              (memstore.NewNotFound scenario.ClusterConfigName)));
       final := scenario.start memstore.empty;
       events := [EGet KInfrastructure scenario.ClusterConfigName
                    (Some (memstore.NewNotFound scenario.ClusterConfigName))] |}.
Proof.
  exact (proj1 (handleSingleNode4Dot11Upgrade_read_failure scenario.ClusterConfigName
                  scenario.ClusterConfigName scenario.o (scenario.start memstore.empty))
           (memstore.NewNotFound scenario.ClusterConfigName) memstore.empty eq_refl).
Defined.

(** X16 on an empty store with the cache synced: the ingress config is not
    found, and the run is the fetch and the log record. *)
Lemma Start_ensureDefaultIngressController_is_gated_witness :
  Start_ensureDefaultIngressController scenario.ClusterConfigName
    scenario.DefaultIngressControllerName scenario.DetermineReplicas scenario.o
    (scenario.infrastructure "HighlyAvailable" (Some configv1.AWSPlatformType))
    true (scenario.start memstore.empty)
  = {| value := Some tt; final := scenario.start memstore.empty;
       events := [EGet KIngress scenario.ClusterConfigName
                    (Some (memstore.NewNotFound scenario.ClusterConfigName));
                  ELog "failed to fetch ingress config"] |}.
Proof.
  exact (proj1 (proj2 (Start_ensureDefaultIngressController_is_gated
                         scenario.ClusterConfigName scenario.DefaultIngressControllerName
                         scenario.DetermineReplicas scenario.o
                         (scenario.infrastructure "HighlyAvailable"
                            (Some configv1.AWSPlatformType))
                         (scenario.start memstore.empty)))
           (memstore.NewNotFound scenario.ClusterConfigName) memstore.empty eq_refl).
Defined.

(** X17 on an empty store: 0 replicas and an error that wraps NotFound. *)
Lemma determineReplicasForDefaultIngressController_reads_witness :
  let res := determineReplicasForDefaultIngressController scenario.DetermineReplicas
               scenario.o
               (scenario.infrastructure "HighlyAvailable" (Some configv1.AWSPlatformType))
               (scenario.start memstore.empty) in
  let err := fmt.Errorf_w "failed fetching ingress config: "
               (memstore.NewNotFound scenario.ClusterConfigName) in
  value res = Some (0, Some err)
  /\ 0 = 0
  /\ exists e, failed (List.last (events res) (ELog "")) = Some e
               /\ Unwrap err = Some e
               /\ IsNotFound err = IsNotFound e.
Proof.
  split; [reflexivity|].
  exact (proj1 (proj2 (determineReplicasForDefaultIngressController_reads
                         scenario.DetermineReplicas scenario.o
                         (scenario.infrastructure "HighlyAvailable"
                            (Some configv1.AWSPlatformType))
                         (scenario.start memstore.empty)))
           0 (fmt.Errorf_w "failed fetching ingress config: "
                (memstore.NewNotFound scenario.ClusterConfigName)) eq_refl).
Defined.

(** X20 on the three plans when the update does not reach the store: the
    error returned wraps the error of the update. *)
Lemma ensureServiceMeshOperatorInstallPlan_errors_witness :
  let refused :=
    {| installplan.List := installplan.List installplan.memory;
       installplan.Update := fun _ s => (inr (errorString "connection refused"), s) |} in
  let res := ensureServiceMeshOperatorInstallPlan refused
               [plans.other; plans.pending; plans.later] in
  exists err,
    fst (fst res) = (false, None, Some err)
    /\ Error err
       = "Failed to update openshift-operators/install-b9w4d: connection refused"
    /\ Unwrap err = Some (errorString "connection refused").
Proof.
  eexists. split; [reflexivity|]. split; [reflexivity|].
  destruct (ensureServiceMeshOperatorInstallPlan_errors
              {| installplan.List := installplan.List installplan.memory;
                 installplan.Update := fun _ s => (inr (errorString "connection refused"), s) |}
              [plans.other; plans.pending; plans.later] _ _ _ eq_refl)
    as (_ & _ & [H|[[H _]|(p & e & H & _ & Hu & _)]]); try discriminate H.
  injection H as _ <-. exact Hu.
Defined.

(** ** Where the code departs from the specification *)

(** C1 fails.  Another actor creates the object between the fetch and the
    create: the create answers AlreadyExists, and each of the three functions
    returns that as an error, without a second fetch. *)
Lemma create_AlreadyExists_is_an_error :
  (let res := ensureTrustedCAConfigMap scenario.TrustedCAConfigMapName scenario.scripted_r
                scenario.lost_race in
   List.map scenario.outcome (events res)
   = [(VGet, Some StatusReasonNotFound); (VCreate, Some StatusReasonAlreadyExists)]
   /\ value res
      = Some (false, None,
              Some (errorString "failed to create configmap: trusted-ca already exists")))
  /\ (let res := ensureServiceMeshOperatorSubscription scenario.ServiceMeshSubscriptionName
                   scenario.scripted_r scenario.lost_race in
      List.map scenario.outcome (events res)
      = [(VGet, Some StatusReasonNotFound); (VCreate, Some StatusReasonAlreadyExists)]
      /\ value res
         = Some (false, None,
                 Some (wrapError
                         "failed to create subscription openshift-operators/servicemeshoperator: servicemeshoperator already exists"
                         (StatusError StatusReasonAlreadyExists
                            "servicemeshoperator already exists"))))
  /\ (let res := ensureDefaultIngressController scenario.DefaultIngressControllerName
                   scenario.DetermineReplicas scenario.scripted_o
                   (scenario.infrastructure "HighlyAvailable" (Some "AWS"))
                   (scenario.ingress "" "") scenario.lost_race in
      List.map scenario.outcome (events res)
      = [(VGet, Some StatusReasonNotFound); (VCreate, Some StatusReasonAlreadyExists)]
      /\ value res
         = Some (Some (StatusError StatusReasonAlreadyExists "default already exists"))).
Proof. repeat split. Qed.

(** C7 fails.  The create does not reach the store and fails with an error
    that is none of the races: ensureTrustedCAConfigMap returns another error
    value, made of a prefix and the message, and
    ensureServiceMeshOperatorSubscription returns a wrapper around it. *)
Lemma store_error_is_not_returned_as_it_is :
  let produced := errorString "connection refused" in
  (let res := ensureTrustedCAConfigMap scenario.TrustedCAConfigMapName scenario.scripted_r
                scenario.connection_refused in
   List.map failed (events res)
   = [Some (StatusError StatusReasonNotFound "trusted-ca not found"); Some produced]
   /\ error_of (value res)
      = Some (errorString "failed to create configmap: connection refused")
   /\ error_of (value res) <> Some produced)
  /\ (let res := ensureServiceMeshOperatorSubscription scenario.ServiceMeshSubscriptionName
                   scenario.scripted_r scenario.connection_refused in
      List.map failed (events res)
      = [Some (StatusError StatusReasonNotFound "servicemeshoperator not found"); Some produced]
      /\ error_of (value res)
         = Some (wrapError
                   "failed to create subscription openshift-operators/servicemeshoperator: connection refused"
                   produced)
      /\ error_of (value res) <> Some produced).
Proof. repeat split; discriminate. Qed.
